(** * ThePit: task lifecycle, escrow accounting, disputes and reputation

    A shallow embedding of the marketplace core of ThePit:
    - [src/utils/sanitize.js]      input sanitisers,
    - [src/db/index.js]            the tables,
    - [src/reputation.js]          reputation events, badges, notifications,
    - [src/routes/transactions.js] [recordTransaction],
    - [src/routes/tasks.js]        create / claim / submit / validate / abandon / cancel,
    - [src/routes/disputes.js]     raise / resolve.

    The SQLite database is an explicit record of tables; every route
    handler is a state transformer over it.  A handler of the source is
    synchronous from its first statement to its response, so under the
    run-to-completion scheduling of the JavaScript event loop concurrent
    requests are executed one whole handler after the other, in some order.

    The fields of a request have the types that the routes document: a text
    is a string or absent, a number is an integer ([jsval] where the route
    parses or tests the field itself).  A field of another JSON type, such
    as an object where a reason is expected, is not a request of this
    development.  Strings are sequences of bytes: on ASCII text a byte is a
    character and a UTF-16 code unit, and white space, letter case and
    lengths are those of JavaScript and of SQLite; statements that depend
    on this are made for ASCII strings. *)

From Stdlib Require Import ZArith QArith Qminmax Qabs String Ascii List Lia.
From Stdlib Require PrimInt63 PrimFloat.
From stdpp Require Import gmap strings list fin_maps pretty.
Import ListNotations.

Local Open Scope string_scope.
Local Open Scope Z_scope.

(** ** JavaScript values and coercions used by the handlers *)

Module Js.

(** The JSON values a request body field can hold.  [JNum n] is the
    number that [JSON.parse] reads from the integer [n] written in the
    body: the binary64 number nearest to [n]. *)
Inductive jsval :=
| JUndefined
| JNull
| JBool (b : bool)
| JNum (n : Z)
| JStr (s : string).

(** ToBoolean. *)
Definition truthy (v : jsval) : bool :=
  match v with
  | JUndefined | JNull => false
  | JBool b => b
  | JNum n => negb (n =? 0)
  | JStr s => negb (String.eqb s "")
  end.

(** [o || null] on an optional string: the empty string is falsy. *)
Definition str_or_null (o : option string) : option string :=
  match o with
  | Some s => if String.eqb s "" then None else Some s
  | None => None
  end.

(** [o || d] on an optional string. *)
Definition str_or (o : option string) (d : string) : string :=
  match str_or_null o with Some s => s | None => d end.

(** The white space that [String.prototype.trim] and [parseInt] skip, as
    far as it lies in ASCII. *)
Definition is_space (c : ascii) : bool :=
  let n := nat_of_ascii c in
  ((9 <=? n) && (n <=? 13) || (n =? 32))%nat.

Definition digit_of (c : ascii) : option Z :=
  let n := Z.of_nat (nat_of_ascii c) in
  if (48 <=? n) && (n <=? 57) then Some (n - 48) else None.

Fixpoint skip_spaces (s : string) : string :=
  match s with
  | String c r => if is_space c then skip_spaces r else s
  | EmptyString => s
  end.

(** Longest prefix of decimal digits, read left to right; [None] when the
    string does not start with a digit. *)
Fixpoint digits_from (acc : option Z) (s : string) : option Z :=
  match s with
  | String c r =>
      match digit_of c with
      | Some d => digits_from (Some (10 * default 0 acc + d)) r
      | None => acc
      end
  | EmptyString => acc
  end.

(** Infinity, written as the first integer above every binary64 number;
    the handlers only compare and clamp what they parse. *)
Definition infinity : Z := 2 ^ 1024.

(** The binary64 number nearest to an integer, ties to even; the integers
    below 2^53 are numbers themselves, and from [2^1024 - 2^970] on the
    nearest number is Infinity. *)
Definition to_double (n : Z) : Z :=
  let a := Z.abs n in
  if a <? 9007199254740992 then n
  else
    let e := Z.log2 a - 52 in
    let q := Z.shiftr a e in
    let r := a - Z.shiftl q e in
    let half := Z.shiftl 1 (e - 1) in
    let q' := if (half <? r) || ((r =? half) && Z.odd q) then q + 1 else q in
    let d := Z.shiftl q' e in
    Z.sgn n * (if d <? infinity then d else infinity).

(** The number of decimal digits of a positive integer below 10^fuel. *)
Fixpoint digits10 (fuel : nat) (a : Z) : Z :=
  match fuel with
  | S f => if a <? 10 then 1 else 1 + digits10 f (a / 10)
  | O => 0
  end.

(** [Number::toString] picks the fewest digits [s], [k] of them, such that
    [s * 10^(n-k)] reads back as the number, and among those the nearest
    to it (the even [s] on a tie); 17 digits always do.  [shortest] is
    that decimal for a positive integral number [a]: with [k] digits the
    candidates are [a] cut after [k] digits and the next above. *)
Fixpoint shortest (fuel : nat) (k : Z) (a : Z) : Z :=
  match fuel with
  | S f =>
      let u := 10 ^ (digits10 400 a - k) in
      let lo := a / u * u in
      let hi := lo + u in
      let fits_lo := to_double lo =? a in
      let fits_hi := to_double hi =? a in
      if fits_lo && fits_hi then
        if a - lo <? hi - a then lo
        else if hi - a <? a - lo then hi
        else if Z.even (a / u) then lo else hi
      else if fits_lo then lo
      else if fits_hi then hi
      else shortest f (k + 1) a
  | O => a
  end.

(** [parseInt(String(d), 10)] for a number [d]: below 10^21 the digits of
    [String(d)] read back as [d]; from 10^21 on [String(d)] has an
    exponent, as in 1e+21, and [parseInt] stops after its first digit;
    and [parseInt] of the text Infinity is NaN. *)
Definition parseInt_number (d : Z) : option Z :=
  let a := Z.abs d in
  if a <? 1000000000000000000000 then Some d
  else if infinity <=? a then None
  else
    let c := shortest 17 1 a in
    Some (Z.sgn d * (c / 10 ^ (digits10 400 c - 1))).

(** [parseInt(v, 10)]; [None] is NaN.  The digits of a string are read
    exactly and the result is the nearest number. *)
Definition parseInt (v : jsval) : option Z :=
  match v with
  | JNum n => parseInt_number (to_double n)
  | JStr s =>
      to_double <$>
      match skip_spaces s with
      | String "-" r => Z.opp <$> digits_from None r
      | String "+" r => digits_from None r
      | r => digits_from None r
      end
  | JUndefined | JNull | JBool _ => None
  end.

End Js.
Export Js.

(** ** src/utils/sanitize.js *)

Module Sanitize.

Definition htmlEntities (c : ascii) : option string :=
  if Ascii.eqb c "&" then Some "&amp;"
  else if Ascii.eqb c "<" then Some "&lt;"
  else if Ascii.eqb c ">" then Some "&gt;"
  else if Ascii.eqb c (ascii_of_nat 34) then Some "&quot;"
  else if Ascii.eqb c "'" then Some "&#x27;"
  else if Ascii.eqb c "/" then Some "&#x2F;"
  else if Ascii.eqb c "`" then Some "&#x60;"
  else if Ascii.eqb c "=" then Some "&#x3D;"
  else None.

Fixpoint escapeHtml (s : string) : string :=
  match s with
  | String c r =>
      match htmlEntities c with
      | Some e => (e ++ escapeHtml r)%string
      | None => String c (escapeHtml r)
      end
  | EmptyString => EmptyString
  end.

Fixpoint remove_nul (s : string) : string :=
  match s with
  | String c r => if Ascii.eqb c zero then remove_nul r else String c (remove_nul r)
  | EmptyString => EmptyString
  end.

Fixpoint all_space (s : string) : bool :=
  match s with
  | String c r => is_space c && all_space r
  | EmptyString => true
  end.

Fixpoint trim_right (s : string) : string :=
  match s with
  | String c r => if all_space s then EmptyString else String c (trim_right r)
  | EmptyString => EmptyString
  end.

Definition trim (s : string) : string := trim_right (skip_spaces s).

(** [s.substring(0, n)]; the length is counted in characters. *)
Fixpoint substring0 (n : N) (s : string) : string :=
  match s with
  | String c r => if (n =? 0)%N then EmptyString else String c (substring0 (N.pred n) r)
  | EmptyString => EmptyString
  end.

Fixpoint length_N (s : string) : N :=
  match s with
  | String _ r => N.succ (length_N r)
  | EmptyString => 0%N
  end.

(** [sanitizeString(str, {maxLength})] on a string argument; a missing or
    zero [maxLength] is falsy and leaves the length alone. *)
Definition sanitizeString (str : string) (maxLength : option N) : string :=
  let result := trim (remove_nul str) in
  let result :=
    match maxLength with
    | Some m =>
        if negb (m =? 0)%N && (m <? length_N result)%N then substring0 m result else result
    | None => result
    end in
  escapeHtml result.

Definition sanitizeTitle (title : string) := sanitizeString title (Some 200%N).
Definition sanitizeDescription (d : string) := sanitizeString d (Some 10000%N).
Definition sanitizeProof (p : string) := sanitizeString p (Some 50000%N).

Definition sanitizeSkills (skills : list string) : list string :=
  take 20 (filter (fun s => (0 <? length_N s)%N = true)
             (map (fun s => sanitizeString s (Some 50%N)) skills)).

Record IntOptions := { opt_min : option Z; opt_max : option Z; opt_default : option Z }.

Definition sanitizeInt (value : jsval) (options : IntOptions) : Z :=
  match parseInt value with
  | None => match opt_default options with Some d => d | None => 0 end
  | Some parsed =>
      match opt_min options with
      | Some lo => if parsed <? lo then lo else
          match opt_max options with
          | Some hi => if parsed >? hi then hi else parsed
          | None => parsed
          end
      | None =>
          match opt_max options with
          | Some hi => if parsed >? hi then hi else parsed
          | None => parsed
          end
      end
  end.

End Sanitize.
Export Sanitize.

(** ** src/db/index.js: the tables *)

Module Db.

(** [tasks.status] takes the six literals the routes write. *)
Inductive Status := open | claimed | submitted | completed | cancelled | disputed.

#[export] Instance Status_eq_dec : EqDecision Status.
Proof. solve_decision. Defined.

Inductive DisputeStatus := dispute_open | dispute_resolved.

#[export] Instance DisputeStatus_eq_dec : EqDecision DisputeStatus.
Proof. solve_decision. Defined.

(** A row of [agents]; the key [id] is the key of the map. *)
Record Agent := mkAgent {
  name : string;
  skills : list string;
  credits : Z;
  reputation : Q;
  tasks_completed : Z;
  tasks_posted : Z;
  tasks_failed : Z
}.

(** A row of [tasks].  The three timestamps are [datetime('now')] or NULL;
    only whether they are set is kept. *)
Record Task := mkTask {
  title : string;
  description : string;
  requester_id : string;
  worker_id : option string;
  reward : Z;
  required_skills : list string;
  proof_required : string;
  deadline : option string;
  status : Status;
  proof_submitted : option string;
  claimed_at : bool;
  submitted_at : bool;
  completed_at : bool
}.

Record TaskLog := mkTaskLog {
  log_task_id : string;
  log_agent_id : string;
  log_action : string;
  log_details : option string
}.

Record Transaction := mkTransaction {
  tx_agent_id : string;
  tx_type : string;
  amount : Z;
  balance_after : Z;
  tx_description : string;
  related_task_id : option string;
  related_agent_id : option string
}.

Record ReputationEvent := mkReputationEvent {
  ev_agent_id : string;
  event_type : string;
  points : Q;
  reason : string;
  ev_related_task_id : option string;
  ev_related_agent_id : option string
}.

Record Dispute := mkDispute {
  dispute_task_id : string;
  raised_by : string;
  dispute_reason : string;
  evidence : option string;
  dispute_status : DisputeStatus;
  resolution : option string;
  resolved_by : option string
}.

Record Badge := mkBadge {
  badge_agent_id : string;
  badge_type : string;
  badge_name : string;
  badge_description : string
}.

(** A row of [notifications]; the rendered message and the JSON payload
    are not kept. *)
Record Notification := mkNotification {
  note_agent_id : string;
  note_type : string;
  note_title : string
}.

Record Endorsement := mkEndorsement {
  endorsed_agent_id : string;
  endorsed_by : string;
  endorsed_skill : string
}.

Record Review := mkReview {
  review_task_id : string;
  reviewer_id : string;
  reviewee_id : string;
  rating : Z
}.

Record DB := mkDB {
  agents : gmap string Agent;
  tasks : gmap string Task;
  task_log : list TaskLog;
  transactions : list Transaction;
  reputation_events : list ReputationEvent;
  disputes : gmap string Dispute;
  badges : list Badge;
  notifications : list Notification;
  skill_endorsements : list Endorsement;
  reviews : list Review
}.

Definition empty_db : DB :=
  mkDB ∅ ∅ [] [] [] ∅ [] [] [] [].

(** *** Table updates *)

Definition with_agents (f : gmap string Agent -> gmap string Agent) (db : DB) : DB :=
  mkDB (f (agents db)) (tasks db) (task_log db) (transactions db)
       (reputation_events db) (disputes db) (badges db) (notifications db)
       (skill_endorsements db) (reviews db).

Definition with_tasks (f : gmap string Task -> gmap string Task) (db : DB) : DB :=
  mkDB (agents db) (f (tasks db)) (task_log db) (transactions db)
       (reputation_events db) (disputes db) (badges db) (notifications db)
       (skill_endorsements db) (reviews db).

Definition with_disputes (f : gmap string Dispute -> gmap string Dispute) (db : DB) : DB :=
  mkDB (agents db) (tasks db) (task_log db) (transactions db)
       (reputation_events db) (f (disputes db)) (badges db) (notifications db)
       (skill_endorsements db) (reviews db).

Definition insert_task_log (r : TaskLog) (db : DB) : DB :=
  mkDB (agents db) (tasks db) (task_log db ++ [r]) (transactions db)
       (reputation_events db) (disputes db) (badges db) (notifications db)
       (skill_endorsements db) (reviews db).

Definition insert_transaction (r : Transaction) (db : DB) : DB :=
  mkDB (agents db) (tasks db) (task_log db) (transactions db ++ [r])
       (reputation_events db) (disputes db) (badges db) (notifications db)
       (skill_endorsements db) (reviews db).

Definition insert_reputation_event (r : ReputationEvent) (db : DB) : DB :=
  mkDB (agents db) (tasks db) (task_log db) (transactions db)
       (reputation_events db ++ [r]) (disputes db) (badges db) (notifications db)
       (skill_endorsements db) (reviews db).

Definition insert_badge (r : Badge) (db : DB) : DB :=
  mkDB (agents db) (tasks db) (task_log db) (transactions db)
       (reputation_events db) (disputes db) (badges db ++ [r]) (notifications db)
       (skill_endorsements db) (reviews db).

Definition insert_notification (r : Notification) (db : DB) : DB :=
  mkDB (agents db) (tasks db) (task_log db) (transactions db)
       (reputation_events db) (disputes db) (badges db) (notifications db ++ [r])
       (skill_endorsements db) (reviews db).

(** [UPDATE agents SET ... WHERE id = ?]: no row, no change. *)
Definition update_agent (f : Agent -> Agent) (id : string) : DB -> DB :=
  with_agents (alter f id).

Definition update_task (f : Task -> Task) (id : string) : DB -> DB :=
  with_tasks (alter f id).

Definition set_credits (c : Z) (a : Agent) : Agent :=
  mkAgent (name a) (skills a) c (reputation a)
          (tasks_completed a) (tasks_posted a) (tasks_failed a).

Definition set_reputation (r : Q) (a : Agent) : Agent :=
  mkAgent (name a) (skills a) (credits a) r
          (tasks_completed a) (tasks_posted a) (tasks_failed a).

Definition set_tasks_completed (n : Z) (a : Agent) : Agent :=
  mkAgent (name a) (skills a) (credits a) (reputation a)
          n (tasks_posted a) (tasks_failed a).

Definition set_tasks_posted (n : Z) (a : Agent) : Agent :=
  mkAgent (name a) (skills a) (credits a) (reputation a)
          (tasks_completed a) n (tasks_failed a).

Definition set_tasks_failed (n : Z) (a : Agent) : Agent :=
  mkAgent (name a) (skills a) (credits a) (reputation a)
          (tasks_completed a) (tasks_posted a) n.

Definition set_status (s : Status) (t : Task) : Task :=
  mkTask (title t) (description t) (requester_id t) (worker_id t) (reward t)
         (required_skills t) (proof_required t) (deadline t) s
         (proof_submitted t) (claimed_at t) (submitted_at t) (completed_at t).

End Db.
Export Db.

(** ** Handlers as state transformers *)

Module Handler.

Definition M (A : Type) : Type := DB -> A * DB.

Definition ret {A} (a : A) : M A := fun db => (a, db).

Definition bind {A B} (m : M A) (k : A -> M B) : M B :=
  fun db => let '(a, db') := m db in k a db'.

(** A statement that only writes. *)
Definition exec (f : DB -> DB) : M unit := fun db => (tt, f db).

(** A query. *)
Definition query {A} (f : DB -> A) : M A := fun db => (f db, db).

(** How a call of a function ends: it returns a value or it throws. *)
Inductive Completion (A : Type) : Type :=
| Returns (a : A)
| Throws.

Arguments Returns {A} a.
Arguments Throws {A}.

End Handler.
Export Handler.

Notation "'do' x <- m ; k" := (bind m (fun x => k))
  (at level 10, x name, m at level 100, k at level 200).
Notation "'step' m ; k" := (bind m (fun _ => k))
  (at level 10, m at level 100, k at level 200).

(** ** src/reputation.js *)

Module Reputation.

Local Open Scope Q_scope.

(** [REPUTATION_EVENTS]: event type, base points, description. *)
Definition REPUTATION_EVENTS : list (string * (Q * string)) :=
  [ ("TASK_COMPLETED", (3, "Completed a task"));
    ("TASK_COMPLETED_EARLY", (1, "Completed task before deadline"));
    ("EXCELLENT_REVIEW", (2, "Received 5-star review"));
    ("GOOD_REVIEW", (1, "Received 4-star review"));
    ("SKILL_ENDORSED", (1 # 2, "Skill endorsed by another agent"));
    ("DISPUTE_WON", (2, "Won a dispute"));
    ("FIRST_TASK", (5, "Completed first task"));
    ("TASK_STREAK_5", (3, "Completed 5 tasks in a row"));
    ("TASK_STREAK_10", (5, "Completed 10 tasks in a row"));
    ("HIGH_VALUE_TASK", (2, "Completed high-value task (50+ credits)"));
    ("TASK_REJECTED", (-5, "Work was rejected"));
    ("TASK_ABANDONED", (-2, "Abandoned a claimed task"));
    ("DISPUTE_LOST", (-3, "Lost a dispute"));
    ("POOR_REVIEW", (-2, "Received 1-2 star review"));
    ("DEADLINE_MISSED", (-3, "Missed task deadline"));
    ("INACTIVE_CLAIM", (-1, "Claimed task went inactive")) ].

(** The own entries of the table under [REPUTATION_EVENTS[eventType]]. *)
Fixpoint lookup_event (tbl : list (string * (Q * string))) (eventType : string)
  : option (Q * string) :=
  match tbl with
  | (k, e) :: rest => if String.eqb k eventType then Some e else lookup_event rest eventType
  | [] => None
  end.

(** [REPUTATION_EVENTS] is a plain object, so [REPUTATION_EVENTS[eventType]]
    also finds what the table inherits from [Object.prototype]: under each
    of these names a function or an object, which is truthy and has neither
    [points] nor [description]. *)
Definition Object_prototype : list string :=
  [ "constructor"; "__defineGetter__"; "__defineSetter__"; "hasOwnProperty";
    "__lookupGetter__"; "__lookupSetter__"; "isPrototypeOf"; "propertyIsEnumerable";
    "toString"; "valueOf"; "__proto__"; "toLocaleString" ].

Definition inherited (eventType : string) : bool :=
  existsb (String.eqb eventType) Object_prototype.

(** The [options] argument of [recordReputationEvent]. *)
Record EventOptions := mkEventOptions {
  opt_multiplier : option Q;
  opt_reason : option string;
  opt_taskId : option string;
  opt_relatedAgentId : option string
}.

Definition no_options : EventOptions := mkEventOptions None None None None.

(** [options.multiplier || 1]: a missing or zero multiplier is falsy. *)
Definition multiplier_or_1 (m : option Q) : Q :=
  match m with
  | Some q => if Qeq_bool q 0 then 1 else q
  | None => 1
  end.

(** [MAX(0, MIN(100, reputation + ?))]. *)
Definition clamp_reputation (r : Q) : Q := Qmax 0 (Qmin 100 r).

Definition createNotification (agentId type title : string) : M unit :=
  exec (insert_notification (mkNotification agentId type title)).

(** What a badge predicate sees: the agent row and four counts. *)
Record Stats := mkStats {
  st_agent : Agent;
  skill_count : Z;
  endorsement_count : Z;
  reviews_given : Z;
  positive_reviews : Z
}.

Definition count_rows {A} (p : A -> bool) (rows : list A) : Z :=
  Z.of_nat (length (List.filter p rows)).

(** [BADGES], in the order of [Object.entries]. *)
Definition BADGES : list (string * (string * string * (Stats -> bool))) :=
  [ ("newcomer", ("Newcomer", "Registered on The Pit", fun _ => true));
    ("first_task", ("First Blood", "Completed your first task",
       fun s => (tasks_completed (st_agent s) >=? 1)%Z));
    ("task_master_10", ("Task Master", "Completed 10 tasks",
       fun s => (tasks_completed (st_agent s) >=? 10)%Z));
    ("task_master_50", ("Task Legend", "Completed 50 tasks",
       fun s => (tasks_completed (st_agent s) >=? 50)%Z));
    ("task_master_100", ("Task God", "Completed 100 tasks",
       fun s => (tasks_completed (st_agent s) >=? 100)%Z));
    ("employer_10", ("Job Creator", "Posted 10 tasks",
       fun s => (tasks_posted (st_agent s) >=? 10)%Z));
    ("employer_50", ("Major Employer", "Posted 50 tasks",
       fun s => (tasks_posted (st_agent s) >=? 50)%Z));
    ("wealthy", ("Wealthy", "Accumulated 1000 credits",
       fun s => (credits (st_agent s) >=? 1000)%Z));
    ("elite_wealth", ("Elite", "Accumulated 10000 credits",
       fun s => (credits (st_agent s) >=? 10000)%Z));
    ("trusted", ("Trusted", "Reached 75 reputation",
       fun s => Qle_bool 75 (reputation (st_agent s))));
    ("legendary", ("Legendary", "Reached 90 reputation",
       fun s => Qle_bool 90 (reputation (st_agent s))));
    ("perfect", ("Perfectionist", "Maintained 100% success rate with 10+ tasks",
       fun s => (tasks_completed (st_agent s) >=? 10)%Z
                && (tasks_failed (st_agent s) =? 0)%Z));
    ("skilled_5", ("Multi-Talented", "Listed 5+ skills",
       fun s => (skill_count s >=? 5)%Z));
    ("endorsed", ("Endorsed", "Received skill endorsement from another agent",
       fun s => (endorsement_count s >=? 1)%Z));
    ("highly_endorsed", ("Highly Endorsed", "Received 10+ skill endorsements",
       fun s => (endorsement_count s >=? 10)%Z));
    ("reviewer", ("Critic", "Left 10 reviews",
       fun s => (reviews_given s >=? 10)%Z));
    ("well_reviewed", ("Well Reviewed", "Received 10+ positive reviews",
       fun s => (positive_reviews s >=? 10)%Z)) ].

Definition has_badge (existing : list string) (badgeType : string) : bool :=
  existsb (String.eqb badgeType) existing.

(** The loop body of [checkAndAwardBadges] for one entry of [BADGES]. *)
Definition award_one (agentId : string) (existing : list string) (stats : Stats)
    (entry : string * (string * string * (Stats -> bool))) : M (list string) :=
  let '(badgeType, (bname, bdesc, check)) := entry in
  if negb (has_badge existing badgeType) && check stats then
    step exec (insert_badge (mkBadge agentId badgeType bname bdesc));
    step createNotification agentId "badge" "New Badge Earned!";
    ret [badgeType]
  else ret [].

Fixpoint award_all (agentId : string) (existing : list string) (stats : Stats)
    (entries : list (string * (string * string * (Stats -> bool)))) : M (list string) :=
  match entries with
  | e :: rest =>
      do new1 <- award_one agentId existing stats e;
      do new2 <- award_all agentId existing stats rest;
      ret (new1 ++ new2)%list
  | [] => ret []
  end.

(** [checkAndAwardBadges(agentId)]; returns the types of the new badges. *)
Definition checkAndAwardBadges (agentId : string) : M (list string) :=
  do agent <- query (fun db => agents db !! agentId);
  match agent with
  | None => ret []
  | Some agent =>
      do endorsements <- query (fun db =>
        count_rows (fun e => String.eqb (endorsed_agent_id e) agentId) (skill_endorsements db));
      do reviewsGiven <- query (fun db =>
        count_rows (fun r => String.eqb (reviewer_id r) agentId) (reviews db));
      do positiveReviews <- query (fun db =>
        count_rows (fun r => String.eqb (reviewee_id r) agentId && (rating r >=? 4)%Z)
                   (reviews db));
      let stats := mkStats agent (Z.of_nat (length (skills agent)))
                           endorsements reviewsGiven positiveReviews in
      do existingBadges <- query (fun db =>
        map badge_type (List.filter (fun b => String.eqb (badge_agent_id b) agentId) (badges db)));
      award_all agentId existingBadges stats BADGES
  end.

(** [Math.abs(points) >= 2]. *)
Definition significant (p : Q) : bool := Qle_bool 2 (Qabs p).

(** [recordReputationEvent(agentId, eventType, options)]; [None] is the
    [null] returned for an unknown event type, otherwise the returned
    object holds the event type, the points and the reason.

    Under an inherited name [event] is truthy, so the function goes on:
    [event.points * multiplier] is NaN, which the INSERT binds as NULL to
    the column [points REAL NOT NULL] (and a missing [options.reason]
    leaves [reason] undefined, which cannot be bound), so the first
    statement fails and the call throws with nothing written.  The routes
    pass keys of the table only, for which the call returns. *)
Definition recordReputationEvent (agentId eventType : string) (options : EventOptions)
  : M (Completion (option (string * Q * string))) :=
  match lookup_event REPUTATION_EVENTS eventType with
  | None => if inherited eventType then ret Throws else ret (Returns None)
  | Some (base, edescription) =>
      let multiplier := multiplier_or_1 (opt_multiplier options) in
      let pts := base * multiplier in
      let rsn := str_or (opt_reason options) edescription in
      step exec (insert_reputation_event
                   (mkReputationEvent agentId eventType pts rsn
                      (str_or_null (opt_taskId options))
                      (str_or_null (opt_relatedAgentId options))));
      step exec (update_agent
                   (fun a => set_reputation (clamp_reputation (reputation a + pts)) a)
                   agentId);
      step checkAndAwardBadges agentId;
      step (if significant pts then
              createNotification agentId "reputation"
                (if negb (Qle_bool pts 0) then "Reputation Increased" else "Reputation Decreased")
            else ret tt);
      ret (Returns (Some (eventType, pts, rsn)))
  end.

End Reputation.
Export Reputation.

(** ** HTTP responses *)

Inductive Response :=
| Ok (code : Z) (message : string)
| Err (code : Z) (error : string).

(** The authenticated caller: [req.agent] is the row that the bearer key
    selects when the request arrives, [None] without a valid key.  The
    middleware of [src/index.js] also stamps [last_seen] in that row; no
    route reads this column, and the agents of this development do not
    hold it. *)
Definition req_agent (auth : option string) : M (option (string * Agent)) :=
  query (fun db =>
    match auth with
    | Some id => match agents db !! id with Some a => Some (id, a) | None => None end
    | None => None
    end).

(** ** src/routes/transactions.js

    (In the source tree at hand the module follows [autoSeed.js] in the same
    file, from line 485 on.) *)

Module Transactions.

(** [recordTransaction(agentId, type, amount, description, options)]:
    reads the agent's current credits and stores [credits + amount] as
    [balance_after]. *)
Definition recordTransaction (agentId type : string) (amt : Z) (descr : string)
    (taskId relatedAgentId : option string) : M unit :=
  do agent <- query (fun db => agents db !! agentId);
  let balanceAfter := (match agent with Some a => credits a | None => 0 end) + amt in
  exec (insert_transaction
          (mkTransaction agentId type amt balanceAfter descr
             (str_or_null taskId) (str_or_null relatedAgentId))).

End Transactions.
Export Transactions.

(** ** src/routes/tasks.js

    The webhook calls of the routes only read the database and post to the
    agent's URL; they are left out. *)

Module Tasks.

Definition logTaskEvent (taskId agentId action : string) (details : option string) : M unit :=
  exec (insert_task_log (mkTaskLog taskId agentId action details)).

Definition get_task (id : string) : M (option Task) :=
  query (fun db => tasks db !! id).

Definition opt_truthy (o : option string) : bool :=
  match str_or_null o with Some _ => true | None => false end.

(** The two rendered texts that print a reward. *)
Definition created_details (reward : Z) : string :=
  "Reward: " ++ pretty reward ++ " credits".

Definition high_value_reason (reward : Z) : string :=
  "Completed high-value task (" ++ pretty reward ++ " credits)".

Definition reward_options : IntOptions :=
  {| opt_min := Some 1; opt_max := Some 1000000; opt_default := None |}.

(** The body of a [POST /api/tasks] request. *)
Record CreateBody := mkCreateBody {
  rawTitle : option string;
  rawDescription : option string;
  rawReward : jsval;
  rawSkills : option (list string);
  rawProofRequired : option string;
  body_deadline : option string
}.

(** [POST /] — create a task.  [nano] is the identifier drawn by
    [nanoid(12)]; a drawn identifier that is already a key of [tasks]
    makes the INSERT throw after the credits were deducted.  The route
    catches nothing, so the error handler of the application
    ([src/index.js]) answers 500 with its own message. *)
Definition createTask (auth : option string) (body : CreateBody) (nano : string) : M Response :=
  do agent <- req_agent auth;
  match agent with
  | None => ret (Err 401 "Authentication required")
  | Some (agent_id, agent) =>
    if negb (opt_truthy (rawTitle body)) || negb (opt_truthy (rawDescription body))
       || negb (truthy (rawReward body))
    then ret (Err 400 "Title, description, and reward are required")
    else
      let title := sanitizeTitle (default "" (rawTitle body)) in
      let description := sanitizeDescription (default "" (rawDescription body)) in
      let reward := sanitizeInt (rawReward body) reward_options in
      let required_skills := sanitizeSkills (default [] (rawSkills body)) in
      let proof_required :=
        match rawProofRequired body with
        | Some p => if existsb (String.eqb p) ["text"; "url"; "file"] then p else "text"
        | None => "text"
        end in
      if String.eqb title "" then ret (Err 400 "Valid title is required")
      else if String.eqb description "" then ret (Err 400 "Valid description is required")
      else if reward <? 1 then ret (Err 400 "Reward must be at least 1 credit")
      else if credits agent <? reward then ret (Err 400 "Insufficient credits")
      else
        let id := "task_" ++ nano in
        step exec (update_agent
                     (fun a => set_tasks_posted (tasks_posted a + 1)
                                 (set_credits (credits a - reward) a)) agent_id);
        do clash <- get_task id;
        match clash with
        | Some _ => ret (Err 500 "Something went wrong in The Pit")
        | None =>
          step exec (with_tasks
                       (insert id (mkTask title description agent_id None reward
                                     required_skills proof_required
                                     (str_or_null (body_deadline body))
                                     open None false false false)));
          step logTaskEvent id agent_id "created"
                 (Some (created_details reward));
          step recordTransaction agent_id "task_escrow" (- reward)
                 ("Escrowed for task: " ++ title) (Some id) None;
          step checkAndAwardBadges agent_id;
          ret (Ok 201 "Task posted. Credits escrowed.")
        end
  end.

(** [UPDATE tasks SET status = 'claimed', worker_id = ?, claimed_at = now
    WHERE id = ? AND status = 'open']. *)
Definition claim_update (agent_id : string) (t : Task) : Task :=
  if decide (status t = open) then
    mkTask (title t) (description t) (requester_id t) (Some agent_id) (reward t)
           (required_skills t) (proof_required t) (deadline t) claimed
           (proof_submitted t) true (submitted_at t) (completed_at t)
  else t.

(** [POST /:id/claim]. *)
Definition claimTask (auth : option string) (id : string) : M Response :=
  do agent <- req_agent auth;
  match agent with
  | None => ret (Err 401 "Authentication required")
  | Some (agent_id, agent) =>
    do task <- get_task id;
    match task with
    | None => ret (Err 404 "Task not found")
    | Some task =>
      if negb (bool_decide (status task = open)) then ret (Err 400 "Task is not open")
      else if String.eqb (requester_id task) agent_id
      then ret (Err 400 "Cannot claim your own task")
      else
        step exec (update_task (claim_update agent_id) id);
        do updated <- get_task id;
        let verified :=
          match updated with
          | Some u => bool_decide (status u = claimed)
                      && bool_decide (worker_id u = Some agent_id)
          | None => false
          end in
        if negb verified then ret (Err 409 "Task was claimed by another agent")
        else
          step logTaskEvent id agent_id "claimed" None;
          step createNotification (requester_id task) "task_claimed" "Task Claimed";
          ret (Ok 200 "Task claimed. Get to work.")
    end
  end.

Definition submit_update (proof : string) (t : Task) : Task :=
  mkTask (title t) (description t) (requester_id t) (worker_id t) (reward t)
         (required_skills t) (proof_required t) (deadline t) submitted
         (Some proof) (claimed_at t) true (completed_at t).

(** [POST /:id/submit]. *)
Definition submitWork (auth : option string) (id : string) (rawProof : option string)
  : M Response :=
  do agent <- req_agent auth;
  match agent with
  | None => ret (Err 401 "Authentication required")
  | Some (agent_id, agent) =>
    if negb (opt_truthy rawProof) then ret (Err 400 "Proof of completion required")
    else
      let proof := sanitizeProof (default "" rawProof) in
      do task <- get_task id;
      match task with
      | None => ret (Err 404 "Task not found")
      | Some task =>
        if negb (bool_decide (worker_id task = Some agent_id))
        then ret (Err 403 "You are not the worker for this task")
        else if negb (bool_decide (status task = claimed))
        then ret (Err 400 "Task is not in claimed status")
        else
          step exec (update_task (submit_update proof) id);
          step logTaskEvent id agent_id "submitted" (Some (substring0 200 proof));
          ret (Ok 200 "Work submitted. Awaiting validation.")
      end
  end.

Definition complete_update (t : Task) : Task :=
  mkTask (title t) (description t) (requester_id t) (worker_id t) (reward t)
         (required_skills t) (proof_required t) (deadline t) completed
         (proof_submitted t) (claimed_at t) (submitted_at t) true.

(** [SET status = 'open', worker_id = NULL, claimed_at = NULL,
    submitted_at = NULL, proof_submitted = NULL]. *)
Definition reopen_update (t : Task) : Task :=
  mkTask (title t) (description t) (requester_id t) None (reward t)
         (required_skills t) (proof_required t) (deadline t) open
         None false false (completed_at t).

(** [SET status = 'open', worker_id = NULL, claimed_at = NULL]. *)
Definition abandon_update (t : Task) : Task :=
  mkTask (title t) (description t) (requester_id t) None (reward t)
         (required_skills t) (proof_required t) (deadline t) open
         (proof_submitted t) false (submitted_at t) (completed_at t).

Definition event_options (reason taskId relatedAgentId : option string) : EventOptions :=
  mkEventOptions None reason taskId relatedAgentId.

(** The approve branch of [POST /:id/validate].  A submitted task without
    a worker makes the INSERT of the payment row throw ([agent_id] is NOT
    NULL), which the route catches and answers with 500. *)
Definition approveWork (agent_id id : string) (task : Task) (reason : option string)
  : M Response :=
  match worker_id task with
  | None =>
      step exec (update_task complete_update id);
      step logTaskEvent id agent_id "approved" (Some (str_or reason "Work accepted"));
      ret (Err 500 "Validation failed")
  | Some worker =>
      step exec (update_agent
                   (fun a => set_tasks_completed (tasks_completed a + 1)
                               (set_credits (credits a + reward task) a)) worker);
      step exec (update_task complete_update id);
      step logTaskEvent id agent_id "approved" (Some (str_or reason "Work accepted"));
      step recordTransaction worker "task_payment" (reward task)
             ("Payment for task: " ++ title task) (Some id) (Some (requester_id task));
      step recordReputationEvent worker "TASK_COMPLETED"
             (event_options None (Some id) (Some (requester_id task)));
      step (if reward task >=? 50 then
              step recordReputationEvent worker "HIGH_VALUE_TASK"
                     (event_options (Some (high_value_reason (reward task)))
                        (Some id) None);
              ret tt
            else ret tt);
      do w <- query (fun db => agents db !! worker);
      step (match w with
            | Some w =>
                if tasks_completed w =? 1 then
                  step recordReputationEvent worker "FIRST_TASK"
                         (event_options None (Some id) None);
                  ret tt
                else ret tt
            | None => ret tt
            end);
      step checkAndAwardBadges worker;
      step createNotification worker "payment" "Payment Received";
      ret (Ok 200 "Task completed. Worker paid.")
  end.

(** The reject branch of [POST /:id/validate]; without a worker the INSERT
    of the reputation event throws after the refund was recorded. *)
Definition rejectWork (agent_id id : string) (task : Task) (reason : option string)
  : M Response :=
  step exec (update_agent (fun a => set_credits (credits a + reward task) a)
               (requester_id task));
  step (match worker_id task with
        | Some worker =>
            exec (update_agent (fun a => set_tasks_failed (tasks_failed a + 1) a) worker)
        | None => ret tt
        end);
  step exec (update_task reopen_update id);
  step logTaskEvent id agent_id "rejected" (Some (str_or reason "Work rejected"));
  step recordTransaction (requester_id task) "escrow_release" (reward task)
         ("Task reopened, escrow maintained: " ++ title task) (Some id) None;
  match worker_id task with
  | None => ret (Err 500 "Validation failed")
  | Some worker =>
      step recordReputationEvent worker "TASK_REJECTED"
             (event_options (Some (str_or reason "Work rejected"))
                (Some id) (Some (requester_id task)));
      step createNotification worker "rejection" "Work Rejected";
      ret (Ok 200 "Work rejected. Task reopened.")
  end.

(** [POST /:id/validate]. *)
Definition validateWork (auth : option string) (id : string) (approved : jsval)
    (reason : option string) : M Response :=
  do agent <- req_agent auth;
  match agent with
  | None => ret (Err 401 "Authentication required")
  | Some (agent_id, agent) =>
    match approved with
    | JUndefined => ret (Err 400 "Approval decision required")
    | _ =>
      do task <- get_task id;
      match task with
      | None => ret (Err 404 "Task not found")
      | Some task =>
        if negb (String.eqb (requester_id task) agent_id)
        then ret (Err 403 "Only the requester can validate")
        else if negb (bool_decide (status task = submitted))
        then ret (Err 400 "Task is not in submitted status")
        else if truthy approved then approveWork agent_id id task reason
        else rejectWork agent_id id task reason
      end
    end
  end.

(** [POST /:id/abandon]. *)
Definition abandonTask (auth : option string) (id : string) : M Response :=
  do agent <- req_agent auth;
  match agent with
  | None => ret (Err 401 "Authentication required")
  | Some (agent_id, agent) =>
    do task <- get_task id;
    match task with
    | None => ret (Err 404 "Task not found")
    | Some task =>
      if negb (bool_decide (worker_id task = Some agent_id))
      then ret (Err 403 "You are not the worker for this task")
      else if negb (bool_decide (status task = claimed))
      then ret (Err 400 "Can only abandon claimed tasks")
      else
        step exec (update_task abandon_update id);
        step logTaskEvent id agent_id "abandoned" None;
        step recordReputationEvent agent_id "TASK_ABANDONED"
               (event_options None (Some id) (Some (requester_id task)));
        step createNotification (requester_id task) "task_abandoned" "Task Abandoned";
        ret (Ok 200 "Task abandoned. Reputation penalty applied.")
    end
  end.

(** [POST /:id/cancel]. *)
Definition cancelTask (auth : option string) (id : string) : M Response :=
  do agent <- req_agent auth;
  match agent with
  | None => ret (Err 401 "Authentication required")
  | Some (agent_id, agent) =>
    do task <- get_task id;
    match task with
    | None => ret (Err 404 "Task not found")
    | Some task =>
      if negb (String.eqb (requester_id task) agent_id)
      then ret (Err 403 "Only the requester can cancel")
      else if negb (bool_decide (status task = open))
      then ret (Err 400 "Can only cancel open tasks")
      else
        step exec (update_agent (fun a => set_credits (credits a + reward task) a) agent_id);
        step exec (update_task (set_status cancelled) id);
        step logTaskEvent id agent_id "cancelled" None;
        step recordTransaction agent_id "refund" (reward task)
               ("Task cancelled: " ++ title task) (Some id) None;
        ret (Ok 200 "Task cancelled. Credits refunded.")
    end
  end.

End Tasks.
Export Tasks.

(** ** src/routes/disputes.js

    (In the source tree at hand: [unnamed/part_001], from line 143 on.)
    [settleDispute] is the second half of the resolve route, split off so
    that it can be stated on its own. *)

Module Disputes.

Definition has_open_dispute (task_id : string) (db : DB) : bool :=
  existsb (fun kd => String.eqb (dispute_task_id kd.2 ) task_id
                     && bool_decide (dispute_status kd.2 = dispute_open))
          (map_to_list (disputes db)).

(** [POST /] — raise a dispute; [nano] is the identifier drawn by
    [nanoid(12)]. *)
Definition raiseDispute (auth : option string) (task_id rawReason rawEvidence : option string)
    (nano : string) : M Response :=
  do agent <- req_agent auth;
  match agent with
  | None => ret (Err 401 "Authentication required")
  | Some (agent_id, agent) =>
    match str_or_null task_id, str_or_null rawReason with
    | Some task_id, Some rawReason =>
      let reason := sanitizeString rawReason (Some 2000%N) in
      let evidence :=
        match str_or_null rawEvidence with
        | Some e => Some (sanitizeString e (Some 10000%N))
        | None => None
        end in
      do task <- get_task task_id;
      match task with
      | None => ret (Err 404 "Task not found")
      | Some task =>
        if negb (String.eqb (requester_id task) agent_id)
           && negb (bool_decide (worker_id task = Some agent_id))
        then ret (Err 403 "You are not involved in this task")
        else if negb (bool_decide (status task = submitted)
                      || bool_decide (status task = completed))
        then ret (Err 400 "Can only raise disputes on submitted or completed tasks")
        else
          do existing <- query (has_open_dispute task_id);
          if (existing : bool)
          then ret (Err 400 "An open dispute already exists for this task")
          else
            let disputeId := "disp_" ++ nano in
            do clash <- query (fun db => disputes db !! disputeId);
            match clash with
            | Some _ => ret (Err 500 "Failed to raise dispute")
            | None =>
              step exec (with_disputes
                           (insert disputeId
                              (mkDispute task_id agent_id reason (str_or_null evidence)
                                         dispute_open None None)));
              step exec (update_task (set_status disputed) task_id);
              let otherPartyId :=
                if String.eqb (requester_id task) agent_id
                then worker_id task else Some (requester_id task) in
              step (match str_or_null otherPartyId with
                    | Some other => createNotification other "dispute" "Dispute Raised"
                    | None => ret tt
                    end);
              ret (Ok 201 "Dispute raised. A moderator will review.")
            end
      end
    | _, _ => ret (Err 400 "Task ID and reason are required")
    end
  end.

(** [Math.min(10, Math.floor(reward * 0.05))].  On the integer rewards of
    the [tasks] table the floor of the double product is the integer
    quotient by 20 (see [arbitrationReward_float_agrees]). *)
Definition arbitrationReward (reward : Z) : Z := Z.min 10 (reward / 20).

Definition resolve_update (res : string) (by_agent : string) (d : Dispute) : Dispute :=
  mkDispute (dispute_task_id d) (raised_by d) (dispute_reason d) (evidence d)
            dispute_resolved (Some res) (Some by_agent).

Definition credit (amt : Z) (id : string) : M unit :=
  exec (update_agent (fun a => set_credits (credits a + amt) a) id).

(** The [switch (decision)] of the resolve route: moves the credits and
    returns the new task status. *)
Definition distribute (decision task_id : string) (task : Task) : M Status :=
  let reward := reward task in
  if String.eqb decision "favor_worker" then
    step (match str_or_null (worker_id task) with
          | Some worker =>
              step exec (update_agent
                           (fun a => set_tasks_completed (tasks_completed a + 1)
                                       (set_credits (credits a + reward) a)) worker);
              step recordTransaction worker "task_payment" reward
                     ("Task completed (after dispute): " ++ title task) (Some task_id) None;
              step recordReputationEvent worker "DISPUTE_WON"
                     (event_options None (Some task_id) None);
              step recordReputationEvent (requester_id task) "DISPUTE_LOST"
                     (event_options None (Some task_id) None);
              ret tt
          | None => ret tt
          end);
    ret completed
  else if String.eqb decision "favor_requester" then
    step credit reward (requester_id task);
    step recordTransaction (requester_id task) "refund" reward
           ("Refund (dispute won): " ++ title task) (Some task_id) None;
    step recordReputationEvent (requester_id task) "DISPUTE_WON"
           (event_options None (Some task_id) None);
    step (match str_or_null (worker_id task) with
          | Some worker =>
              step recordReputationEvent worker "DISPUTE_LOST"
                     (event_options None (Some task_id) None);
              exec (update_agent (fun a => set_tasks_failed (tasks_failed a + 1) a) worker)
          | None => ret tt
          end);
    ret cancelled
  else if String.eqb decision "split" then
    let halfReward := reward / 2 in
    step credit halfReward (requester_id task);
    step recordTransaction (requester_id task) "refund_partial" halfReward
           ("Partial refund (dispute split): " ++ title task) (Some task_id) None;
    step (match str_or_null (worker_id task) with
          | Some worker =>
              step credit (reward - halfReward) worker;
              recordTransaction worker "task_payment_partial" (reward - halfReward)
                ("Partial payment (dispute split): " ++ title task) (Some task_id) None
          | None => ret tt
          end);
    ret completed
  else if String.eqb decision "cancel" then
    step credit reward (requester_id task);
    step recordTransaction (requester_id task) "refund" reward
           ("Refund (dispute cancelled): " ++ title task) (Some task_id) None;
    ret cancelled
  else ret cancelled.

Definition valid_decision (decision : option string) : option string :=
  match str_or_null decision with
  | Some d =>
      if existsb (String.eqb d) ["favor_requester"; "favor_worker"; "split"; "cancel"]
      then Some d else None
  | None => None
  end.

Definition isInvolved (agent_id : string) (d : Dispute) (task : Task) : bool :=
  String.eqb (raised_by d) agent_id
  || String.eqb (requester_id task) agent_id
  || bool_decide (worker_id task = Some agent_id).

Definition isArbitrator (agent_id : string) (agent : Agent) (d : Dispute) (task : Task) : bool :=
  Qle_bool 80 (reputation agent) && negb (isInvolved agent_id d task).

(** The loop over [[requester_id, worker_id].filter(Boolean)]. *)
Fixpoint notify_parties (parties : list string) : M unit :=
  match parties with
  | partyId :: rest =>
      step createNotification partyId "dispute_resolved" "Dispute Resolved";
      notify_parties rest
  | [] => ret tt
  end.

(** The resolve route from [// Process the resolution] on: distribution,
    dispute and task updates, arbitration reward, notifications. *)
Definition settleDispute (agent_id : string) (arbitrator : bool) (id decision : string)
    (resolution : option string) (d : Dispute) (task : Task) : M Response :=
  let task_id := dispute_task_id d in
  do taskStatus <- distribute decision task_id task;
  step exec (with_disputes
               (alter (resolve_update (str_or resolution decision) agent_id) id));
  step exec (update_task (set_status taskStatus) task_id);
  step (if arbitrator then
          let fee := arbitrationReward (reward task) in
          if fee >? 0 then
            step credit fee agent_id;
            recordTransaction agent_id "arbitration_reward" fee
              ("Arbitration reward: " ++ title task) (Some task_id) None
          else ret tt
        else ret tt);
  step notify_parties (omap str_or_null [Some (requester_id task); worker_id task]);
  ret (Ok 200 "Dispute resolved").

(** [POST /:id/resolve]. *)
Definition resolveDispute (auth : option string) (id : string)
    (decision resolution : option string) : M Response :=
  do agent <- req_agent auth;
  match agent with
  | None => ret (Err 401 "Authentication required")
  | Some (agent_id, agent) =>
    match valid_decision decision with
    | None =>
        ret (Err 400 "Valid decision required: favor_requester, favor_worker, split, or cancel")
    | Some decision =>
      do dispute <- query (fun db =>
        match disputes db !! id with
        | Some d => match tasks db !! dispute_task_id d with
                    | Some t => Some (d, t)
                    | None => None
                    end
        | None => None
        end);
      match dispute with
      | None => ret (Err 404 "Dispute not found")
      | Some (d, task) =>
        if negb (bool_decide (dispute_status d = dispute_open))
        then ret (Err 400 "Dispute is not open")
        else
          let involved := isInvolved agent_id d task in
          let arbitrator := isArbitrator agent_id agent d task in
          if negb involved && negb arbitrator
          then ret (Err 403
                 "Only involved parties or high-reputation arbitrators can resolve disputes")
          else settleDispute agent_id arbitrator id decision resolution d task
      end
    end
  end.

End Disputes.
Export Disputes.

(** ** src/reputation.js: the rank query *)

Module ReputationRank.

(** [getReputationRank(agentId)]: one more than the number of agents whose
    reputation is above the agent's.  For an unknown id the subquery is
    NULL, no row compares above it, and the rank is 1. *)
Definition getReputationRank (agentId : string) : M Z :=
  query (fun db =>
    match agents db !! agentId with
    | Some a =>
        count_rows (fun kv => negb (Qle_bool (reputation kv.2) (reputation a)))
                   (map_to_list (agents db)) + 1
    | None => 1
    end).

End ReputationRank.
Export ReputationRank.

(** ** src/routes/reviews.js

    (In the source tree at hand: [unnamed/part_000].)  The route [POST /].
    A row of [reviews] keeps the columns that the badge counts read; the
    sanitised comment and the review type, which the route stores beside
    them, are read by no code of this development and are not kept. *)

Module Reviews.

Definition rating_options : IntOptions :=
  {| opt_min := Some 1; opt_max := Some 5; opt_default := None |}.

(** [`New ${ratingNum}-Star Review`]. *)
Definition star_title (ratingNum : Z) : string :=
  "New " ++ pretty ratingNum ++ "-Star Review".

Definition insert_review (r : Review) (db : DB) : DB :=
  mkDB (agents db) (tasks db) (task_log db) (transactions db)
       (reputation_events db) (disputes db) (badges db) (notifications db)
       (skill_endorsements db) (reviews db ++ [r]).

(** [SELECT id FROM reviews WHERE task_id = ? AND reviewer_id = ?]. *)
Definition has_review (task_id reviewer : string) (db : DB) : bool :=
  existsb (fun r => String.eqb (review_task_id r) task_id
                    && String.eqb (reviewer_id r) reviewer)
          (reviews db).

(** The reputation event of a rating, if any. *)
Definition review_event (ratingNum : Z) : option string :=
  if ratingNum =? 5 then Some "EXCELLENT_REVIEW"
  else if ratingNum =? 4 then Some "GOOD_REVIEW"
  else if ratingNum <=? 2 then Some "POOR_REVIEW"
  else None.

(** [POST /] — review the other party of a completed task.  A completed
    task without a worker, reviewed by its requester, makes the INSERT
    throw ([reviewee_id] is NOT NULL), which the route answers with 500. *)
Definition submitReview (auth : option string) (task_id : option string) (rating : jsval)
  : M Response :=
  do agent <- req_agent auth;
  match agent with
  | None => ret (Err 401 "Authentication required")
  | Some (agent_id, agent) =>
    match str_or_null task_id with
    | None => ret (Err 400 "Task ID and rating are required")
    | Some task_id =>
      if negb (truthy rating) then ret (Err 400 "Task ID and rating are required")
      else
        let ratingNum := sanitizeInt rating rating_options in
        if (ratingNum <? 1) || (ratingNum >? 5)
        then ret (Err 400 "Rating must be between 1 and 5")
        else
          do task <- get_task task_id;
          match task with
          | None => ret (Err 404 "Task not found")
          | Some task =>
            if negb (bool_decide (status task = completed))
            then ret (Err 400 "Can only review completed tasks")
            else
              let party :=
                if String.eqb (requester_id task) agent_id then Some (worker_id task)
                else if bool_decide (worker_id task = Some agent_id)
                then Some (Some (requester_id task))
                else None in
              match party with
              | None => ret (Err 403 "You are not involved in this task")
              | Some revieweeId =>
                do existing <- query (has_review task_id agent_id);
                if (existing : bool)
                then ret (Err 400 "You have already reviewed this task")
                else
                  match revieweeId with
                  | None => ret (Err 500 "Failed to submit review")
                  | Some reviewee =>
                    step exec (insert_review
                                 (mkReview task_id agent_id reviewee ratingNum));
                    step (match review_event ratingNum with
                          | Some eventType =>
                              step recordReputationEvent reviewee eventType
                                     (event_options None (Some task_id) (Some agent_id));
                              ret tt
                          | None => ret tt
                          end);
                    step createNotification reviewee "review" (star_title ratingNum);
                    ret (Ok 201 "Review submitted")
                  end
              end
          end
    end
  end.

End Reviews.
Export Reviews.

(** ** src/routes/transactions.js: the transfer route

    The table [transfers] is written by this route only; it is kept
    beside the database of the other routes. *)

Module Transfers.

Record Transfer := mkTransfer {
  from_agent_id : string;
  to_agent_id : string;
  transfer_amount : Z;
  memo : option string
}.

(** The database together with the rows of [transfers], by their id. *)
Record Bank := mkBank {
  bank_db : DB;
  transfers : gmap string Transfer
}.

Definition hex_digit_of (c : ascii) : option Z :=
  let n := Z.of_nat (nat_of_ascii c) in
  if (48 <=? n) && (n <=? 57) then Some (n - 48)
  else if (97 <=? n) && (n <=? 102) then Some (n - 87)
  else if (65 <=? n) && (n <=? 70) then Some (n - 55)
  else None.

Fixpoint hex_digits_from (acc : option Z) (s : string) : option Z :=
  match s with
  | String c r =>
      match hex_digit_of c with
      | Some d => hex_digits_from (Some (16 * default 0 acc + d)) r
      | None => acc
      end
  | EmptyString => acc
  end.

(** The digits after the sign, for [parseInt] without a radix: a prefix 0x
    or 0X selects base 16. *)
Definition unsigned_digits (s : string) : option Z :=
  match s with
  | String "0" (String "x" r) | String "0" (String "X" r) => hex_digits_from None r
  | _ => digits_from None s
  end.

(** [parseInt(v)]; [None] is NaN. *)
Definition parseInt_auto (v : jsval) : option Z :=
  match v with
  | JNum n => parseInt_number (to_double n)
  | JStr s =>
      to_double <$>
      match skip_spaces s with
      | String "-" r => Z.opp <$> unsigned_digits r
      | String "+" r => unsigned_digits r
      | r => unsigned_digits r
      end
  | JUndefined | JNull | JBool _ => None
  end.

(** [`${memo ? ': ' + memo : ''}`]. *)
Definition memo_suffix (memo : option string) : string :=
  match str_or_null memo with
  | Some m => ": " ++ m
  | None => ""
  end.

(** Comparisons of a parsed number: with NaN they are false. *)
Definition nan_ltb (x : option Z) (y : Z) : bool :=
  match x with Some n => n <? y | None => false end.

Definition nan_gtb (x : option Z) (y : Z) : bool :=
  match x with Some n => n >? y | None => false end.

(** [POST /transfer]; [nano] is the identifier drawn by [nanoid(12)].
    An amount that is truthy but does not parse is NaN, which passes both
    comparisons of the route; when the recipient is another, existing agent
    it reaches the UPDATE statements, where it is bound as NULL and leaves
    NULL in both balances (the INSERT then fails and the answer is 500).
    The column [credits] of this development holds integers only, so the
    result is [None] there.  An identifier that is already a key of
    [transfers] makes the INSERT throw after both balances were updated. *)
Definition transferCredits (auth to_agent : option string) (amount : jsval)
    (memo : option string) (nano : string) (b : Bank) : option (Response * Bank) :=
  let db := bank_db b in
  match fst (req_agent auth db) with
  | None => Some (Err 401 "Authentication required", b)
  | Some (agent_id, agent) =>
    match str_or_null to_agent with
    | None => Some (Err 400 "Recipient and amount are required", b)
    | Some to_agent_id =>
      if negb (truthy amount) then Some (Err 400 "Recipient and amount are required", b)
      else
        let transferAmount := parseInt_auto amount in
        if nan_ltb transferAmount 1
        then Some (Err 400 "Transfer amount must be at least 1 credit", b)
        else if nan_gtb transferAmount (credits agent)
        then Some (Err 400 "Insufficient credits", b)
        else if String.eqb to_agent_id agent_id
        then Some (Err 400 "Cannot transfer to yourself", b)
        else
          match agents db !! to_agent_id with
          | None => Some (Err 404 "Recipient not found", b)
          | Some recipient =>
            match transferAmount with
            | None => None
            | Some transferAmount =>
              let transferId := "xfer_" ++ nano in
              let db :=
                update_agent (fun a => set_credits (credits a + transferAmount) a)
                  to_agent_id
                  (update_agent (fun a => set_credits (credits a - transferAmount) a)
                     agent_id db) in
              match transfers b !! transferId with
              | Some _ => Some (Err 500 "Transfer failed", mkBank db (transfers b))
              | None =>
                let rows :=
                  <[transferId := mkTransfer agent_id to_agent_id transferAmount
                                    (str_or_null memo)]> (transfers b) in
                let run :=
                  step recordTransaction agent_id "transfer_out" (- transferAmount)
                         ("Transfer to " ++ name recipient ++ memo_suffix memo)
                         None (Some to_agent_id);
                  step recordTransaction to_agent_id "transfer_in" transferAmount
                         ("Transfer from " ++ name agent ++ memo_suffix memo)
                         None (Some agent_id);
                  step createNotification to_agent_id "transfer"
                         ("Received " ++ pretty transferAmount ++ " credits");
                  ret (Ok 201 "Transfer completed") in
                let '(answer, db) := run db in
                Some (answer, mkBank db rows)
              end
            end
        end
    end
  end.

End Transfers.
Export Transfers.

(** ** src/routes/skills.js: endorsements

    Skills are compared after [toLowerCase] in JavaScript and after LOWER
    in SQLite; on ASCII strings, which are the strings of this
    development, the two agree and are one function here. *)

Module Skills.

Definition lower_char (c : ascii) : ascii :=
  let n := nat_of_ascii c in
  if ((65 <=? n) && (n <=? 90))%nat then ascii_of_nat (n + 32) else c.

Fixpoint toLowerCase (s : string) : string :=
  match s with
  | String c r => String (lower_char c) (toLowerCase r)
  | EmptyString => EmptyString
  end.

Definition insert_endorsement (e : Endorsement) (db : DB) : DB :=
  mkDB (agents db) (tasks db) (task_log db) (transactions db)
       (reputation_events db) (disputes db) (badges db) (notifications db)
       (skill_endorsements db ++ [e]) (reviews db).

(** [WHERE agent_id = ? AND endorsed_by = ? AND LOWER(skill) = ?]. *)
Definition same_endorsement (agent_id by_agent lowered : string) (e : Endorsement) : bool :=
  String.eqb (endorsed_agent_id e) agent_id && String.eqb (endorsed_by e) by_agent
  && String.eqb (toLowerCase (endorsed_skill e)) lowered.

(** [DELETE FROM skill_endorsements WHERE ...]. *)
Definition delete_endorsements (agent_id by_agent lowered : string) (db : DB) : DB :=
  mkDB (agents db) (tasks db) (task_log db) (transactions db)
       (reputation_events db) (disputes db) (badges db) (notifications db)
       (List.filter (fun e => negb (same_endorsement agent_id by_agent lowered e))
          (skill_endorsements db))
       (reviews db).

(** A completed task with the two agents as requester and worker. *)
Definition workedTogether (a b : string) (db : DB) : bool :=
  existsb (fun kt : string * Task =>
             bool_decide (status kt.2 = completed)
             && (String.eqb (requester_id kt.2) a && bool_decide (worker_id kt.2 = Some b)
                 || String.eqb (requester_id kt.2) b && bool_decide (worker_id kt.2 = Some a)))
          (map_to_list (tasks db)).

(** [`Skill "${skill}" endorsed by ${agent.name}`]. *)
Definition endorsement_reason (skill endorser : string) : string :=
  "Skill " ++ String (ascii_of_nat 34) skill ++ String (ascii_of_nat 34) " endorsed by "
  ++ endorser.

(** [POST /endorse].  The table is unique in (agent_id, endorsed_by,
    skill): a row with the very same skill text makes the INSERT throw,
    which the route answers with 500. *)
Definition endorseSkill (auth agent_id skill : option string) : M Response :=
  do agent <- req_agent auth;
  match agent with
  | None => ret (Err 401 "Authentication required")
  | Some (caller, agent) =>
    match str_or_null agent_id, str_or_null skill with
    | Some agent_id, Some skill =>
      if String.eqb agent_id caller then ret (Err 400 "Cannot endorse yourself")
      else
        do targetAgent <- query (fun db => agents db !! agent_id);
        match targetAgent with
        | None => ret (Err 404 "Agent not found")
        | Some targetAgent =>
          let targetSkills := map toLowerCase (skills targetAgent) in
          let normalizedSkill := trim (toLowerCase skill) in
          if negb (existsb (String.eqb normalizedSkill) targetSkills)
          then ret (Err 400 "Agent does not have this skill listed")
          else
            do existing <- query (fun db =>
              existsb (same_endorsement agent_id caller normalizedSkill)
                      (skill_endorsements db));
            if (existing : bool) then ret (Err 400 "You have already endorsed this skill")
            else
              do together <- query (workedTogether caller agent_id);
              if negb together
              then ret (Err 400
                     "You can only endorse agents you have worked with (completed a task together)")
              else
                do clash <- query (fun db =>
                  existsb (fun e => String.eqb (endorsed_agent_id e) agent_id
                                    && String.eqb (endorsed_by e) caller
                                    && String.eqb (endorsed_skill e) skill)
                          (skill_endorsements db));
                if (clash : bool) then ret (Err 500 "Failed to endorse skill")
                else
                  step exec (insert_endorsement (mkEndorsement agent_id caller skill));
                  step recordReputationEvent agent_id "SKILL_ENDORSED"
                         (mkEventOptions None
                            (Some (endorsement_reason skill (name agent)))
                            None (Some caller));
                  step createNotification agent_id "endorsement" "Skill Endorsed";
                  ret (Ok 201 "Skill endorsed successfully")
        end
    | _, _ => ret (Err 400 "Agent ID and skill are required")
    end
  end.

(** The [changes] that [run] of [src/db/index.js] returns: it reads
    [db.getRowsModified()] after [saveDatabase()], whose [db.export()]
    closes and reopens the database, so the count is 0 whatever the
    statement did. *)
Definition run_changes : Z := 0.

(** [DELETE /endorse]: the DELETE, then the answer by [result.changes]. *)
Definition removeEndorsement (auth agent_id skill : option string) : M Response :=
  do agent <- req_agent auth;
  match agent with
  | None => ret (Err 401 "Authentication required")
  | Some (caller, agent) =>
    match str_or_null agent_id, str_or_null skill with
    | Some agent_id, Some skill =>
      step exec (delete_endorsements agent_id caller (toLowerCase skill));
      if run_changes =? 0 then ret (Err 404 "Endorsement not found")
      else ret (Ok 200 "Endorsement removed")
    | _, _ => ret (Err 400 "Agent ID and skill are required")
    end
  end.

End Skills.
Export Skills.

(** * Vocabulary of the statements *)

(** The part of the database that holds credits, tasks, disputes and the
    append-only logs; badges and notifications are outside of it. *)
Definition ledger (db : DB) :=
  (agents db, tasks db, task_log db, transactions db, reputation_events db, disputes db).

(** The effect of a known event on the ledger: one appended row and one
    clamped score. *)
Definition apply_event (agentId eventType : string) (pts : Q) (rsn : string)
    (options : EventOptions) (db : DB) : DB :=
  update_agent (fun a => set_reputation (clamp_reputation (reputation a + pts)) a) agentId
    (insert_reputation_event
       (mkReputationEvent agentId eventType pts rsn
          (str_or_null (opt_taskId options)) (str_or_null (opt_relatedAgentId options)))
       db).

(** The ledger after any call of [recordReputationEvent]. *)
Definition after_event (agentId eventType : string) (options : EventOptions) (db : DB) : DB :=
  match lookup_event REPUTATION_EVENTS eventType with
  | Some (base, edescription) =>
      apply_event agentId eventType
        (base * multiplier_or_1 (opt_multiplier options))%Q
        (str_or (opt_reason options) edescription) options db
  | None => db
  end.

Definition event_summary (e : ReputationEvent) : string * string * Q :=
  (ev_agent_id e, event_type e, points e).

Definition tx_summary (t : Transaction) : string * string * Z :=
  (tx_agent_id t, tx_type t, amount t).

Definition credits_of (id : string) (db : DB) : option Z := credits <$> agents db !! id.
Definition status_of (id : string) (db : DB) : option Status := status <$> tasks db !! id.

(** Sum of the signed amounts of the transactions related to a task. *)
Definition task_balance (id : string) (db : DB) : Z :=
  foldr Z.add 0
    (map amount
       (List.filter (fun t => bool_decide (related_task_id t = Some id)) (transactions db))).

Definition total_credits (db : DB) : Z :=
  foldr Z.add 0 (map (fun kv => credits kv.2) (map_to_list (agents db))).

(** The claim requests of several callers, served one whole handler after
    the other in the order of the list. *)
Fixpoint claim_all (callers : list string) (id : string) : M (list Response) :=
  match callers with
  | c :: rest =>
      do r <- claimTask (Some c) id;
      do rs <- claim_all rest id;
      ret (r :: rs)
  | [] => ret []
  end.

Definition is_Conflict (r : Response) : bool :=
  match r with Err 409 _ => true | _ => false end.

Definition invalid_input_errors : list string :=
  [ "Title, description, and reward are required";
    "Valid title is required";
    "Valid description is required";
    "Reward must be at least 1 credit" ].

(** The 400 answers of the create route that report a malformed body. *)
Definition is_InvalidInput (r : Response) : bool :=
  match r with
  | Err 400 msg => existsb (String.eqb msg) invalid_input_errors
  | _ => false
  end.

Definition is_InsufficientCredits (r : Response) : bool :=
  match r with
  | Err 400 msg => String.eqb msg "Insufficient credits"
  | _ => false
  end.

(** A body that passes every check on title, description and reward. *)
Definition well_formed (body : CreateBody) : bool :=
  opt_truthy (rawTitle body) && opt_truthy (rawDescription body) && truthy (rawReward body)
  && negb (String.eqb (sanitizeTitle (default "" (rawTitle body))) "")
  && negb (String.eqb (sanitizeDescription (default "" (rawDescription body))) "")
  && negb (sanitizeInt (rawReward body) reward_options <? 1).

(** What the claim C5 asks of a creation with a reward below 1. *)
Definition rejected_unchanged (db : DB) (r : Response * DB) : Prop :=
  is_InvalidInput (fst r) = true /\ snd r = db.

Definition reputation_in_range (db : DB) : Prop :=
  forall id a, agents db !! id = Some a -> (0 <= reputation a <= 100)%Q.

(** One call of [recordReputationEvent]. *)
Record EventCall := mkEventCall {
  call_agent : string;
  call_type : string;
  call_options : EventOptions
}.

(** A sequence of calls, served in order. *)
Fixpoint record_all (calls : list EventCall) : M unit :=
  match calls with
  | c :: rest =>
      step recordReputationEvent (call_agent c) (call_type c) (call_options c);
      record_all rest
  | [] => ret tt
  end.

(** Three calls with multipliers 10, 40 and none. *)
Definition sample_calls : list EventCall :=
  [ mkEventCall "agent_c" "FIRST_TASK" (mkEventOptions (Some 10%Q) None None None);
    mkEventCall "agent_b" "TASK_REJECTED" (mkEventOptions (Some 40%Q) None None None);
    mkEventCall "agent_a" "SKILL_ENDORSED" no_options ].

(** The arbitration row of a resolution, if any. *)
Definition fee_rows (arbitrator : bool) (agent_id : string) (reward : Z)
  : list (string * string * Z) :=
  if arbitrator && (arbitrationReward reward >? 0)
  then [(agent_id, "arbitration_reward", arbitrationReward reward)] else [].

(** The reputation events of an approval, as (agent, type, points). *)
Definition approval_events (worker : string) (reward completed_before : Z)
  : list (string * string * Q) :=
  ([(worker, "TASK_COMPLETED", 3%Q)]
   ++ (if reward >=? 50 then [(worker, "HIGH_VALUE_TASK", 2%Q)] else [])
   ++ (if completed_before =? 0 then [(worker, "FIRST_TASK", 5%Q)] else []))%list.

(** ** The arbitration reward in binary64 *)

Module FloatFee.

Import PrimInt63 PrimFloat.

Fixpoint int_of_pos (p : positive) : PrimInt63.int :=
  match p with
  | xH => 1%uint63
  | xO q => PrimInt63.mul 2%uint63 (int_of_pos q)
  | xI q => PrimInt63.add (PrimInt63.mul 2%uint63 (int_of_pos q)) 1%uint63
  end.

Definition float_of_Z (n : Z) : PrimFloat.float :=
  match n with
  | Z0 => PrimFloat.zero
  | Zpos p => PrimFloat.of_uint63 (int_of_pos p)
  | Zneg p => PrimFloat.opp (PrimFloat.of_uint63 (int_of_pos p))
  end.

(** [reward * 0.05] in binary64; the literal is the double nearest to
    0.05. *)
Definition product (reward : Z) : PrimFloat.float :=
  PrimFloat.mul (float_of_Z reward) 0x1.999999999999ap-5%float.

(** [k <= x < k + 1]: the integer [k] is [Math.floor(x)]. *)
Definition floor_is (x : PrimFloat.float) (k : Z) : bool :=
  PrimFloat.leb (float_of_Z k) x && PrimFloat.ltb x (float_of_Z (k + 1)).

(** The twenty rewards whose quotient by 20 is [q]. *)
Definition block (q : Z) : bool :=
  let lo := float_of_Z q in
  let hi := float_of_Z (q + 1) in
  forallb (fun r => let x := product (20 * q + r) in PrimFloat.leb lo x && PrimFloat.ltb x hi)
    [0; 1; 2; 3; 4; 5; 6; 7; 8; 9; 10; 11; 12; 13; 14; 15; 16; 17; 18; 19].

(** [block] on the [len] quotients from [lo] on. *)
Fixpoint check_from (lo : Z) (len : positive) : bool :=
  match len with
  | xH => block lo
  | xO p => check_from lo p && check_from (lo + Zpos p) p
  | xI p => block lo && check_from (lo + 1) p && check_from (lo + 1 + Zpos p) p
  end.

End FloatFee.

(** ** A small marketplace: the running example *)

Definition alice : Agent := mkAgent "alice" [] 100 50 0 0 0.
Definition bob : Agent := mkAgent "bob" [] 100 50 0 0 0.
Definition carol : Agent := mkAgent "carol" [] 100 85 0 0 0.

Definition market : DB :=
  with_agents (fun _ => <["agent_a" := alice]> (<["agent_b" := bob]> (<["agent_c" := carol]> ∅)))
    empty_db.

Definition docs_body (reward : jsval) : CreateBody :=
  mkCreateBody (Some "Write docs") (Some "Document the API") reward None None None.

(** Alice posts a task with reward 30; Bob claims it and submits. *)
Definition posted : DB := snd (createTask (Some "agent_a") (docs_body (JNum 30)) "x" market).
Definition taken : DB := snd (claimTask (Some "agent_b") "task_x" posted).
Definition handed_in : DB := snd (submitWork (Some "agent_b") "task_x" (Some "done") taken).

Definition alice_posted : Agent := mkAgent "alice" [] 70 50 0 1 0.

Definition docs_task (worker : option string) (st : Status) (proof : option string)
    (claimed_at submitted_at : bool) : Task :=
  mkTask "Write docs" "Document the API" "agent_a" worker 30 [] "text" None st proof
         claimed_at submitted_at false.

Definition once_approved : DB :=
  snd (validateWork (Some "agent_a") "task_x" (JBool true) None handed_in).

Definition rejected : DB :=
  snd (validateWork (Some "agent_a") "task_x" (JBool false) (Some "not good") handed_in).

(** After the rejection Carol claims the reopened task, submits, and Alice
    approves. *)
Definition reapproved : DB :=
  let retaken := snd (claimTask (Some "agent_c") "task_x" rejected) in
  let resubmitted := snd (submitWork (Some "agent_c") "task_x" (Some "done again") retaken) in
  snd (validateWork (Some "agent_a") "task_x" (JBool true) None resubmitted).

(** Alice disputes the submitted work. *)
Definition contested : DB :=
  snd (raiseDispute (Some "agent_a") (Some "task_x") (Some "incomplete") None "y" handed_in).

Definition docs_dispute : Dispute :=
  mkDispute "task_x" "agent_a" "incomplete" None dispute_open None None.

(** After the first approval Alice disputes the completed task and Bob,
    a party to it, resolves the dispute in favour of the worker. *)
Definition resolved_after_payment : DB :=
  let disputed_again :=
    snd (raiseDispute (Some "agent_a") (Some "task_x") (Some "second thoughts") None "z"
           once_approved) in
  snd (resolveDispute (Some "agent_b") "disp_z" (Some "favor_worker") None disputed_again).

(** The seven characters that [escapeHtml] must not let through; the
    ampersand is the eighth key of [htmlEntities] and stays as the head of
    every entity. *)
Definition is_markup (c : ascii) : bool :=
  existsb (Ascii.eqb c) ["<"; ">"; ascii_of_nat 34; "'"; "/"; "`"; "="]%char.

Fixpoint string_forall (p : ascii -> bool) (s : string) : bool :=
  match s with
  | String c r => p c && string_forall p r
  | EmptyString => true
  end.

(** A string of ASCII characters.  Below 128 a character is one byte and
    one UTF-16 code unit, the white space of JavaScript is [is_space], and
    [toLowerCase] of JavaScript and [LOWER] of SQLite are the same function;
    the statements that depend on this are made for such strings. *)
Definition ascii_only (s : string) : bool :=
  string_forall (fun c => (nat_of_ascii c <? 128)%nat) s.

(** No markup character and no NUL. *)
Definition safe_text (s : string) : bool :=
  string_forall (fun c => negb (is_markup c) && negb (Ascii.eqb c zero)) s.

(** The badge types an agent holds: the [existingBadges] query of
    [checkAndAwardBadges]. *)
Definition held_badges (agentId : string) (db : DB) : list string :=
  map badge_type (List.filter (fun b => String.eqb (badge_agent_id b) agentId) (badges db)).

(** What the badge predicates see for an agent row in a database. *)
Definition stats_of (agentId : string) (agent : Agent) (db : DB) : Stats :=
  mkStats agent (Z.of_nat (length (skills agent)))
    (count_rows (fun e => String.eqb (endorsed_agent_id e) agentId) (skill_endorsements db))
    (count_rows (fun r => String.eqb (reviewer_id r) agentId) (reviews db))
    (count_rows (fun r => String.eqb (reviewee_id r) agentId && (rating r >=? 4)%Z)
       (reviews db)).

(** The columns that the table [badges] declares unique together. *)
Definition badge_key (b : Badge) : string * string := (badge_agent_id b, badge_type b).

(** An entry of [BADGES] that the loop awards: not held yet, and earned. *)
Definition earns (existing : list string) (stats : Stats)
    (entry : string * (string * string * (Stats -> bool))) : bool :=
  negb (has_badge existing entry.1) && entry.2.2 stats.

(** One award: the badge row and its notification. *)
Definition grant (agentId : string) (db : DB)
    (entry : string * (string * string * (Stats -> bool))) : DB :=
  insert_notification (mkNotification agentId "badge" "New Badge Earned!")
    (insert_badge (mkBadge agentId entry.1 entry.2.1.1 entry.2.1.2) db).

(** ** Requests to the routes that write *)

Inductive Request :=
| CreateTask (auth : option string) (body : CreateBody) (nano : string)
| ClaimTask (auth : option string) (id : string)
| SubmitWork (auth : option string) (id : string) (rawProof : option string)
| ValidateWork (auth : option string) (id : string) (approved : jsval)
    (reason : option string)
| AbandonTask (auth : option string) (id : string)
| CancelTask (auth : option string) (id : string)
| RaiseDispute (auth : option string) (task_id rawReason rawEvidence : option string)
    (nano : string)
| ResolveDispute (auth : option string) (id : string) (decision resolution : option string)
| SubmitReview (auth : option string) (task_id : option string) (rating : jsval)
| EndorseSkill (auth agent_id skill : option string)
| RemoveEndorsement (auth agent_id skill : option string)
| TransferCredits (auth to_agent : option string) (amount : jsval) (memo : option string)
    (nano : string).

(** The routes other than the transfer route act on the database alone. *)
Definition routed (m : M Response) (b : Bank) : option (Response * Bank) :=
  let '(answer, db) := m (bank_db b) in Some (answer, mkBank db (transfers b)).

(** The router: one request, one handler run to completion.  The result
    is [None] for a transfer to another, existing agent of an amount that
    does not parse (see [transferCredits]). *)
Definition serve (r : Request) : Bank -> option (Response * Bank) :=
  match r with
  | CreateTask auth body nano => routed (createTask auth body nano)
  | ClaimTask auth id => routed (claimTask auth id)
  | SubmitWork auth id rawProof => routed (submitWork auth id rawProof)
  | ValidateWork auth id approved reason => routed (validateWork auth id approved reason)
  | AbandonTask auth id => routed (abandonTask auth id)
  | CancelTask auth id => routed (cancelTask auth id)
  | RaiseDispute auth task_id rawReason rawEvidence nano =>
      routed (raiseDispute auth task_id rawReason rawEvidence nano)
  | ResolveDispute auth id decision resolution =>
      routed (resolveDispute auth id decision resolution)
  | SubmitReview auth task_id rating => routed (submitReview auth task_id rating)
  | EndorseSkill auth agent_id skill => routed (endorseSkill auth agent_id skill)
  | RemoveEndorsement auth agent_id skill => routed (removeEndorsement auth agent_id skill)
  | TransferCredits auth to_agent amount memo nano =>
      transferCredits auth to_agent amount memo nano
  end.

(** Requests served one after the other. *)
Fixpoint serve_all (rs : list Request) (b : Bank) : option (list Response * Bank) :=
  match rs with
  | r :: rest =>
      match serve r b with
      | Some (answer, b1) =>
          match serve_all rest b1 with
          | Some (answers, b2) => Some (answer :: answers, b2)
          | None => None
          end
      | None => None
      end
  | [] => Some ([], b)
  end.

(** The database of the running example with an empty table of
    transfers. *)
Definition bank (db : DB) : Bank := mkBank db ∅.

(** ** Balances, tasks and disputes

    What the routes decide on: every agent's credits, the task rows and
    the dispute rows. *)
Record Core := mkCore {
  balance : gmap string Z;
  board : gmap string Task;
  cases : gmap string Dispute
}.

Definition core (db : DB) : Core :=
  mkCore (credits <$> agents db) (tasks db) (disputes db).

(** The moves that the routes make on balances, tasks and disputes. *)
Inductive Transition :=
| Idle
| Post (requester id : string) (t : Task)
| PostClash (requester : string) (amount : Z)
| Send (sender recipient : string) (amount : Z)
| Claim (worker id : string)
| Submit (id proof : string)
| Approve (id : string) (t : Task)
| Reject (id : string) (t : Task)
| Abandon (id : string)
| Cancel (id : string) (t : Task)
| Raise (dispute_id : string) (d : Dispute)
| Resolve (dispute_id decision by_agent res : string) (arbitrator : bool)
    (d : Dispute) (t : Task).

Definition pay (amt : Z) (id : string) (b : gmap string Z) : gmap string Z :=
  alter (fun c => c + amt) id b.

(** The credits that a decision hands out. *)
Definition payout (decision : string) (t : Task) (b : gmap string Z) : gmap string Z :=
  if String.eqb decision "favor_worker" then
    match str_or_null (worker_id t) with
    | Some w => pay (reward t) w b
    | None => b
    end
  else if String.eqb decision "favor_requester" then pay (reward t) (requester_id t) b
  else if String.eqb decision "split" then
    let b := pay (reward t / 2) (requester_id t) b in
    match str_or_null (worker_id t) with
    | Some w => pay (reward t - reward t / 2) w b
    | None => b
    end
  else if String.eqb decision "cancel" then pay (reward t) (requester_id t) b
  else b.

(** The task status that a decision leaves. *)
Definition outcome (decision : string) : Status :=
  if String.eqb decision "favor_worker" then completed
  else if String.eqb decision "favor_requester" then cancelled
  else if String.eqb decision "split" then completed
  else cancelled.

Definition move (tr : Transition) (c : Core) : Core :=
  match tr with
  | Idle => c
  | Post requester id t =>
      mkCore (pay (- reward t) requester (balance c)) (<[id := t]> (board c)) (cases c)
  | PostClash requester amt =>
      mkCore (pay (- amt) requester (balance c)) (board c) (cases c)
  | Send sender recipient amt =>
      mkCore (pay amt recipient (pay (- amt) sender (balance c))) (board c) (cases c)
  | Claim worker id =>
      mkCore (balance c) (alter (claim_update worker) id (board c)) (cases c)
  | Submit id proof =>
      mkCore (balance c) (alter (submit_update proof) id (board c)) (cases c)
  | Approve id t =>
      mkCore (match worker_id t with
              | Some w => pay (reward t) w (balance c)
              | None => balance c
              end)
             (alter complete_update id (board c)) (cases c)
  | Reject id t =>
      mkCore (pay (reward t) (requester_id t) (balance c))
             (alter reopen_update id (board c)) (cases c)
  | Abandon id =>
      mkCore (balance c) (alter abandon_update id (board c)) (cases c)
  | Cancel id t =>
      mkCore (pay (reward t) (requester_id t) (balance c))
             (alter (set_status cancelled) id (board c)) (cases c)
  | Raise dispute_id d =>
      mkCore (balance c) (alter (set_status disputed) (dispute_task_id d) (board c))
             (<[dispute_id := d]> (cases c))
  | Resolve dispute_id decision by_agent res arbitrator d t =>
      let paid := payout decision t (balance c) in
      mkCore (if arbitrator && (arbitrationReward (reward t) >? 0)
              then pay (arbitrationReward (reward t)) by_agent paid else paid)
             (alter (set_status (outcome decision)) (dispute_task_id d) (board c))
             (alter (resolve_update res by_agent) dispute_id (cases c))
  end.

(** When the routes make a move. *)
Definition allowed (tr : Transition) (c : Core) : Prop :=
  match tr with
  | Idle => True
  | Post requester id t =>
      (exists b, balance c !! requester = Some b /\ reward t <= b)
      /\ 1 <= reward t <= 1000000 /\ board c !! id = None
      /\ status t = open /\ worker_id t = None /\ requester_id t = requester
  | PostClash requester amt =>
      (exists b, balance c !! requester = Some b /\ amt <= b) /\ 1 <= amt
  | Send sender recipient amt =>
      (exists b, balance c !! sender = Some b /\ amt <= b) /\ 1 <= amt
      /\ recipient <> sender /\ is_Some (balance c !! recipient)
  | Claim worker id =>
      is_Some (balance c !! worker)
      /\ exists t, board c !! id = Some t /\ status t = open /\ requester_id t <> worker
  | Submit id _ =>
      exists t, board c !! id = Some t /\ status t = claimed /\ is_Some (worker_id t)
  | Approve id t => board c !! id = Some t /\ status t = submitted
  | Reject id t => board c !! id = Some t /\ status t = submitted
  | Abandon id =>
      exists t, board c !! id = Some t /\ status t = claimed /\ is_Some (worker_id t)
  | Cancel id t => board c !! id = Some t /\ status t = open
  | Raise dispute_id d =>
      cases c !! dispute_id = None /\ dispute_status d = dispute_open
      /\ (exists t, board c !! dispute_task_id d = Some t
                    /\ (status t = submitted \/ status t = completed))
      /\ (forall k d', cases c !! k = Some d' ->
            dispute_task_id d' = dispute_task_id d -> dispute_status d' = dispute_resolved)
  | Resolve dispute_id decision by_agent _ _ d t =>
      is_Some (balance c !! by_agent)
      /\ cases c !! dispute_id = Some d /\ dispute_status d = dispute_open
      /\ board c !! dispute_task_id d = Some t
      /\ In decision ["favor_requester"; "favor_worker"; "split"; "cancel"]
  end.

(** The sum of the amounts in [transactions]. *)
Definition tx_total (db : DB) : Z := foldr Z.add 0 (map amount (transactions db)).

(** The credits that a decision hands out, in all. *)
Definition awarded (decision : string) (t : Task) : Z :=
  let to_worker (amt : Z) :=
    match str_or_null (worker_id t) with Some _ => amt | None => 0 end in
  if String.eqb decision "favor_worker" then to_worker (reward t)
  else if String.eqb decision "favor_requester" then reward t
  else if String.eqb decision "split" then reward t / 2 + to_worker (reward t - reward t / 2)
  else if String.eqb decision "cancel" then reward t
  else 0.

(** What the routes write into [transactions] for a move, summed up. *)
Definition recorded (tr : Transition) : Z :=
  match tr with
  | Post _ _ t => - reward t
  | Approve _ t => match worker_id t with Some _ => reward t | None => 0 end
  | Reject _ t | Cancel _ t => reward t
  | Resolve _ decision _ _ arbitrator _ t =>
      awarded decision t
      + (if arbitrator && (arbitrationReward (reward t) >? 0)
         then arbitrationReward (reward t) else 0)
  | _ => 0
  end.

(** The credits that a move takes without a record: those of a task
    creation that failed on its identifier. *)
Definition unrecorded (tr : Transition) : Z :=
  match tr with
  | PostClash _ amt => amt
  | _ => 0
  end.

(** What every run of a route is checked against.  [explained]: its
    effect on balances, tasks and disputes is one allowed move, the amounts
    it appends to the transactions add up to what the move records, and
    only a run answered with a 500 takes credits without a record.
    [conforms]: moreover an answer with an error code below 500 leaves the
    database as it was.  [serves] is [explained] for a request. *)
Definition explained (db : DB) (run : Response * DB) : Prop :=
  exists tr, allowed tr (core db) /\ core (snd run) = move tr (core db)
             /\ tx_total (snd run) = tx_total db + recorded tr
             /\ (unrecorded tr <> 0 -> exists msg, fst run = Err 500 msg).

Definition conforms (db : DB) (run : Response * DB) : Prop :=
  explained db run
  /\ (forall code msg, fst run = Err code msg -> code < 500 -> snd run = db).

Definition serves (b : Bank) (run : option (Response * Bank)) : Prop :=
  match run with
  | Some (r, b') => explained (bank_db b) (r, bank_db b')
  | None => True
  end.

(** The sum of a map of balances. *)
Definition holdings (b : gmap string Z) : Z :=
  foldr Z.add 0 (map snd (map_to_list b)).

(** The requester of a task and its worker, if it has one, have accounts. *)
Definition registered (b : gmap string Z) (t : Task) : Prop :=
  is_Some (b !! requester_id t)
  /\ match worker_id t with
     | Some w => is_Some (b !! w)
     | None => True
     end.

#[export] Instance registered_dec b t : Decision (registered b t) :=
  ltac:(unfold registered; destruct (worker_id t); apply _).

(** Every task refers to agents that exist. *)
Definition referential (db : DB) : Prop :=
  map_Forall (fun _ t => registered (credits <$> agents db) t) (tasks db).

(** The credits that the agents hold beyond what [transactions] records. *)
Definition off_the_books (db : DB) : Z := total_credits db - tx_total db.

(** An answer with status 500. *)
Definition is_500 (r : Response) : bool :=
  match r with
  | Err code _ => code =? 500
  | Ok _ _ => false
  end.

(** Nobody is in debt, and every reward lies within the bounds that the
    create route enforces. *)
Definition solvent (db : DB) : Prop :=
  map_Forall (fun _ a => 0 <= credits a) (agents db)
  /\ map_Forall (fun _ t => 1 <= reward t <= 1000000) (tasks db).

(** The columns of a task that are written once, on creation. *)
Definition static (t : Task)
  : string * string * string * Z * list string * string * option string :=
  (title t, description t, requester_id t, reward t, required_skills t,
   proof_required t, deadline t).

(** The arrows of the task life cycle. *)
Definition legal (s s' : Status) : bool :=
  match s, s' with
  | open, claimed | open, cancelled
  | claimed, submitted | claimed, open
  | submitted, completed | submitted, open | submitted, disputed
  | completed, disputed
  | disputed, completed | disputed, cancelled => true
  | _, _ => false
  end.

(** An open task has no worker; a claimed, submitted, completed or
    disputed task has one; nobody works on a task of their own. *)
Definition staffed (t : Task) : Prop :=
  match status t with
  | open => worker_id t = None
  | cancelled => True
  | _ => is_Some (worker_id t)
  end
  /\ worker_id t <> Some (requester_id t).

#[export] Instance staffed_dec (t : Task) : Decision (staffed t) :=
  ltac:(unfold staffed; destruct (status t); apply _).

(** Tasks and disputes fit together: every task is staffed according to
    its status, an open dispute is about a task that exists and is
    disputed, a task has at most one open dispute, and a disputed task has
    one. *)
Definition fits (ts : gmap string Task) (ds : gmap string Dispute) : Prop :=
  map_Forall (fun _ t => staffed t) ts
  /\ map_Forall (fun _ d => dispute_status d = dispute_open ->
                           status <$> ts !! dispute_task_id d = Some disputed) ds
  /\ map_Forall (fun k1 d1 =>
       map_Forall (fun k2 d2 =>
         dispute_status d1 = dispute_open -> dispute_status d2 = dispute_open ->
         dispute_task_id d1 = dispute_task_id d2 -> k1 = k2) ds) ds
  /\ map_Forall (fun id t => status t = disputed ->
       map_Exists (fun _ d => dispute_task_id d = id /\ dispute_status d = dispute_open) ds)
       ts.

Definition consistent (db : DB) : Prop := fits (tasks db) (disputes db).

(** The reputation events of a decision, as (agent, type, points). *)
Definition verdict_events (decision : string) (t : Task) : list (string * string * Q) :=
  match str_or_null (worker_id t) with
  | Some w =>
      if String.eqb decision "favor_worker"
      then [(w, "DISPUTE_WON", 2%Q); (requester_id t, "DISPUTE_LOST", (-3)%Q)]
      else if String.eqb decision "favor_requester"
      then [(requester_id t, "DISPUTE_WON", 2%Q); (w, "DISPUTE_LOST", (-3)%Q)]
      else []
  | None =>
      if String.eqb decision "favor_worker" then []
      else if String.eqb decision "favor_requester"
      then [(requester_id t, "DISPUTE_WON", 2%Q)]
      else []
  end.

(** The columns that the table [reviews] declares unique together. *)
Definition review_key (r : Review) : string * string := (review_task_id r, reviewer_id r).

(** The change of score that a rating brings, before clamping. *)
Definition review_points (ratingNum : Z) : Q :=
  if ratingNum =? 5 then 2%Q
  else if ratingNum =? 4 then 1%Q
  else if ratingNum <=? 2 then (-2)%Q
  else 0%Q.

(** Bob lists a skill, in the marketplace where Alice has approved his
    work. *)
Definition skilled : DB :=
  update_agent (fun a => mkAgent (name a) ["Rust"] (credits a) (reputation a)
                           (tasks_completed a) (tasks_posted a) (tasks_failed a))
    "agent_b" once_approved.

(** * Properties *)

(** ** What badge awards and notifications leave alone *)

Lemma ledger_fields db db' :
  ledger db = ledger db' ->
  agents db = agents db' /\ tasks db = tasks db' /\ task_log db = task_log db' /\
  transactions db = transactions db' /\ reputation_events db = reputation_events db' /\
  disputes db = disputes db'.
Proof. unfold ledger. intros H. injection H as -> -> -> -> -> ->. repeat split. Qed.

Lemma award_one_ledger agentId existing stats e db :
  ledger (snd (award_one agentId existing stats e db)) = ledger db.
Proof.
  destruct e as [badgeType [[bname bdesc] check]]. unfold award_one.
  destruct (negb (has_badge existing badgeType) && check stats); reflexivity.
Qed.

Lemma award_all_ledger agentId existing stats entries :
  forall db, ledger (snd (award_all agentId existing stats entries db)) = ledger db.
Proof.
  induction entries as [|e rest IH]; intros db; [reflexivity|].
  cbn [award_all]. unfold bind at 1.
  pose proof (award_one_ledger agentId existing stats e db) as H1.
  destruct (award_one agentId existing stats e db) as [new1 db1]. cbn [snd] in H1.
  unfold bind at 1. specialize (IH db1).
  destruct (award_all agentId existing stats rest db1) as [new2 db2].
  unfold ret. cbn [snd] in IH |- *. congruence.
Qed.

Lemma checkAndAwardBadges_ledger agentId db :
  ledger (snd (checkAndAwardBadges agentId db)) = ledger db.
Proof.
  unfold checkAndAwardBadges, bind, query.
  destruct (agents db !! agentId); [|reflexivity].
  apply award_all_ledger.
Qed.

Lemma recordReputationEvent_known agentId eventType options base edescription db :
  lookup_event REPUTATION_EVENTS eventType = Some (base, edescription) ->
  let pts := (base * multiplier_or_1 (opt_multiplier options))%Q in
  let rsn := str_or (opt_reason options) edescription in
  fst (recordReputationEvent agentId eventType options db)
  = Returns (Some (eventType, pts, rsn)) /\
  ledger (snd (recordReputationEvent agentId eventType options db))
  = ledger (apply_event agentId eventType pts rsn options db).
Proof.
  intros Hk. unfold recordReputationEvent. rewrite Hk.
  cbv beta iota zeta delta [bind exec ret createNotification].
  match goal with |- context [checkAndAwardBadges ?a ?s] =>
    pose proof (checkAndAwardBadges_ledger a s) as Hb;
    destruct (checkAndAwardBadges a s) as [nb db1] end.
  cbn [snd] in Hb.
  destruct (significant _); cbn [fst snd]; (split; [reflexivity|]); exact Hb.
Qed.

Lemma recordReputationEvent_ledger agentId eventType options db :
  ledger (snd (recordReputationEvent agentId eventType options db))
  = ledger (after_event agentId eventType options db).
Proof.
  unfold after_event.
  destruct (lookup_event REPUTATION_EVENTS eventType) as [[base d]|] eqn:Hk.
  - apply (recordReputationEvent_known agentId eventType options base d db Hk).
  - unfold recordReputationEvent. rewrite Hk. destruct (inherited eventType); reflexivity.
Qed.

Lemma after_event_known agentId eventType options db base edescription :
  lookup_event REPUTATION_EVENTS eventType = Some (base, edescription) ->
  after_event agentId eventType options db
  = apply_event agentId eventType
      (base * multiplier_or_1 (opt_multiplier options))%Q
      (str_or (opt_reason options) edescription) options db.
Proof. intros Hk. unfold after_event. rewrite Hk. reflexivity. Qed.

Lemma lookup_event_None tbl eventType :
  eventType ∉ map fst tbl -> lookup_event tbl eventType = None.
Proof.
  induction tbl as [|[k e] rest IH]; intros Hn; [reflexivity|].
  cbn [lookup_event]. destruct (String.eqb_spec k eventType) as [->|Hne].
  - exfalso. apply Hn. cbn. left.
  - apply IH. intros Hin. apply Hn. cbn. right. exact Hin.
Qed.

(** A reputation event changes no field of an agent other than the score,
    and no other agent. *)
Lemma after_event_field {A} (p : Agent -> A) agentId eventType options db id :
  (forall r a, p (set_reputation r a) = p a) ->
  p <$> agents (after_event agentId eventType options db) !! id = p <$> agents db !! id.
Proof.
  intros Hp. unfold after_event.
  destruct (lookup_event _ _) as [[base d]|]; [|reflexivity].
  cbn. rewrite lookup_alter. case_decide as Hid; [subst id|reflexivity].
  destruct (agents db !! agentId); cbn; [|reflexivity]. f_equal. apply Hp.
Qed.

(** *** Symbolic execution of a handler

    [run_handler] unfolds the plumbing up to the next call of
    [recordReputationEvent] or [checkAndAwardBadges]; [step_event] and
    [step_badges] replace the state after such a call by a fresh state
    whose ledger is known. *)

Ltac run_handler :=
  cbv beta iota zeta delta
    [bind req_agent query get_task exec ret logTaskEvent createNotification
     recordTransaction credit].

Ltac project_ledger :=
  cbn [agents tasks task_log transactions reputation_events disputes badges notifications
       insert_notification insert_badge insert_reputation_event insert_transaction
       insert_task_log with_agents with_tasks with_disputes update_agent update_task
       apply_event fst snd].

Ltac project_ledger_in H :=
  cbn [agents tasks task_log transactions reputation_events disputes badges notifications
       insert_notification insert_badge insert_reputation_event insert_transaction
       insert_task_log with_agents with_tasks with_disputes update_agent update_task
       apply_event fst snd] in H.

Ltac use_ledger_facts :=
  repeat match goal with
         | H : agents ?s = _ |- context [agents ?s] => rewrite H
         | H : tasks ?s = _ |- context [tasks ?s] => rewrite H
         | H : task_log ?s = _ |- context [task_log ?s] => rewrite H
         | H : transactions ?s = _ |- context [transactions ?s] => rewrite H
         | H : reputation_events ?s = _ |- context [reputation_events ?s] => rewrite H
         | H : disputes ?s = _ |- context [disputes ?s] => rewrite H
         end.

Ltac split_ledger H :=
  apply ledger_fields in H;
  let Ha := fresh "Hagents" in
  let Ht := fresh "Htasks" in
  let Hl := fresh "Hlog" in
  let Hx := fresh "Htransactions" in
  let He := fresh "Hevents" in
  let Hd := fresh "Hdisputes" in
  destruct H as (Ha & Ht & Hl & Hx & He & Hd);
  project_ledger_in Ha; project_ledger_in Ht; project_ledger_in Hl;
  project_ledger_in Hx; project_ledger_in He; project_ledger_in Hd.

Ltac step_event :=
  match goal with
  | |- context [recordReputationEvent ?a ?t ?o ?s] =>
      let H := fresh "Hledger" in
      let res := fresh "res" in
      let s' := fresh "db" in
      pose proof (recordReputationEvent_ledger a t o s) as H;
      destruct (recordReputationEvent a t o s) as [res s'];
      cbn [snd] in H;
      erewrite ?after_event_known in H by reflexivity;
      split_ledger H
  end.

Ltac step_badges :=
  match goal with
  | |- context [checkAndAwardBadges ?a ?s] =>
      let H := fresh "Hledger" in
      let res := fresh "res" in
      let s' := fresh "db" in
      pose proof (checkAndAwardBadges_ledger a s) as H;
      destruct (checkAndAwardBadges a s) as [res s'];
      cbn [snd] in H;
      split_ledger H
  end.

Ltac agent_fields :=
  cbn [fmap option_fmap option_map name skills credits reputation
       tasks_completed tasks_posted tasks_failed set_reputation
       set_tasks_completed set_tasks_posted set_tasks_failed set_credits].

Ltac use_lookups :=
  repeat match goal with
         | H : _ !! _ = Some _ |- _ => progress rewrite H
         | H : _ !! _ = None |- _ => progress rewrite H
         end.

(** Read a row back through the updates made so far. *)
Ltac read_back :=
  project_ledger; use_ledger_facts; rewrite ?lookup_alter_eq; use_lookups; agent_fields.

(** ** The running example *)

Example running_example_rows :
  agents handed_in !! "agent_a" = Some alice_posted
  /\ agents handed_in !! "agent_b" = Some bob
  /\ tasks handed_in !! "task_x"
     = Some (docs_task (Some "agent_b") submitted (Some "done") true true)
  /\ tasks contested !! "task_x"
     = Some (docs_task (Some "agent_b") disputed (Some "done") true true)
  /\ disputes contested !! "disp_y" = Some docs_dispute.
Proof. repeat split; vm_compute; reflexivity. Defined.

Lemma contested_agents :
  agents contested !! "agent_a" = Some alice_posted
  /\ agents contested !! "agent_b" = Some bob
  /\ agents contested !! "agent_c" = Some carol.
Proof. repeat split; vm_compute; reflexivity. Defined.

(** ** C1: the transactions of a completed task *)

(** C1, on the code. A task taken straight from creation to approval
    balances: -30 + 30 = 0. A task that is rejected, claimed again and
    approved ends [completed] with -30 + 30 + 30 = +30, and so does a task
    that is disputed after its approval and resolved for the worker; in
    both runs the three agents together hold 330 credits where 300 were
    issued. *)
Theorem completed_task_balances_only_on_straight_path :
  status_of "task_x" once_approved = Some completed
  /\ task_balance "task_x" once_approved = 0
  /\ status_of "task_x" reapproved = Some completed
  /\ task_balance "task_x" reapproved = 30
  /\ status_of "task_x" resolved_after_payment = Some completed
  /\ task_balance "task_x" resolved_after_payment = 30
  /\ total_credits market = 300
  /\ total_credits reapproved = 330
  /\ total_credits resolved_after_payment = 330.
Proof. repeat split; vm_compute; reflexivity. Qed.

(** ** C2: several claims on one open task *)

Lemma claimTask_wins db id task caller a :
  agents db !! caller = Some a ->
  tasks db !! id = Some task ->
  status task = open ->
  requester_id task <> caller ->
  claimTask (Some caller) id db
  = (Ok 200 "Task claimed. Get to work.",
     insert_notification (mkNotification (requester_id task) "task_claimed" "Task Claimed")
       (insert_task_log (mkTaskLog id caller "claimed" None)
          (update_task (claim_update caller) id db))).
Proof.
  intros Ha Ht Hopen Hne. unfold claimTask. run_handler. rewrite Ha, Ht, Hopen.
  rewrite bool_decide_eq_true_2 by reflexivity. cbn [negb].
  destruct (String.eqb_spec (requester_id task) caller) as [?|_]; [contradiction|].
  project_ledger. rewrite lookup_alter_eq, Ht. cbn [fmap option_fmap option_map].
  unfold claim_update. rewrite Hopen. cbn.
  rewrite !bool_decide_eq_true_2 by reflexivity. reflexivity.
Qed.

Lemma claimTask_too_late db id task caller a :
  agents db !! caller = Some a ->
  tasks db !! id = Some task ->
  status task <> open ->
  claimTask (Some caller) id db = (Err 400 "Task is not open", db).
Proof.
  intros Ha Ht Hst. unfold claimTask. run_handler. rewrite Ha, Ht.
  rewrite bool_decide_eq_false_2 by exact Hst. reflexivity.
Qed.

(** The read-back check after the conditional update never fails: no
    request is answered with 409. *)
Lemma claimTask_never_conflicts db auth id :
  is_Conflict (fst (claimTask auth id db)) = false.
Proof.
  unfold claimTask. run_handler.
  destruct auth as [caller|]; [|reflexivity].
  destruct (agents db !! caller) as [a|]; [|reflexivity].
  destruct (tasks db !! id) as [task|] eqn:Ht; [|reflexivity].
  destruct (decide (status task = open)) as [Hopen|Hst].
  - rewrite bool_decide_eq_true_2 by exact Hopen. cbn [negb].
    destruct (String.eqb (requester_id task) caller); [reflexivity|].
    project_ledger. rewrite lookup_alter_eq, Ht. cbn [fmap option_fmap option_map].
    unfold claim_update. destruct (decide (status task = open)); [|contradiction]. cbn.
    rewrite !bool_decide_eq_true_2 by reflexivity. reflexivity.
  - rewrite bool_decide_eq_false_2 by exact Hst. reflexivity.
Qed.

Lemma claim_all_too_late callers :
  forall db id task,
  tasks db !! id = Some task ->
  status task <> open ->
  (forall c, c ∈ callers -> is_Some (agents db !! c)) ->
  claim_all callers id db = (map (fun _ => Err 400 "Task is not open") callers, db).
Proof.
  induction callers as [|c rest IH]; intros db id task Ht Hst Hall; [reflexivity|].
  cbn [claim_all map]. unfold bind at 1.
  destruct (Hall c) as [a Ha]; [left|].
  rewrite (claimTask_too_late db id task c a Ha Ht Hst).
  unfold bind at 1. rewrite (IH db id task Ht Hst).
  - reflexivity.
  - intros c' Hc'. apply Hall. right. exact Hc'.
Qed.

(** C2, as stated, fails: when Bob and Carol both claim the open task,
    the caller served second is answered 400 "Task is not open", not 409
    Conflict. *)
Lemma second_claim_is_not_conflict :
  fst (claim_all ["agent_b"; "agent_c"] "task_x" posted)
  = [Ok 200 "Task claimed. Get to work."; Err 400 "Task is not open"]
  /\ forallb (fun r => negb (is_Conflict r))
       (fst (claim_all ["agent_b"; "agent_c"] "task_x" posted)) = true.
Proof. split; vm_compute; reflexivity. Qed.

(** C2 (amended). When several agents claim the same open task, in
    whatever order their requests are served, exactly the first one served
    succeeds: the task ends [claimed] with that caller as its worker; every
    other caller is answered 400 "Task is not open" and leaves no trace,
    the final database being the one the winner's claim produced; no
    answer is a 409 Conflict. *)
Theorem one_claim_wins db id task winner losers :
  tasks db !! id = Some task ->
  status task = open ->
  requester_id task <> winner ->
  (forall c, c ∈ winner :: losers -> is_Some (agents db !! c)) ->
  exists db',
    claim_all (winner :: losers) id db
    = (Ok 200 "Task claimed. Get to work."
         :: map (fun _ => Err 400 "Task is not open") losers, db')
    /\ claimTask (Some winner) id db = (Ok 200 "Task claimed. Get to work.", db')
    /\ status <$> tasks db' !! id = Some claimed
    /\ worker_id <$> tasks db' !! id = Some (Some winner)
    /\ forallb (fun r => negb (is_Conflict r)) (fst (claim_all (winner :: losers) id db))
       = true.
Proof.
  intros Ht Hopen Hne Hall.
  destruct (Hall winner) as [a Ha]; [left|].
  pose proof (claimTask_wins db id task winner a Ha Ht Hopen Hne) as Hwin.
  set (db' := insert_notification _ _) in Hwin.
  assert (Ht' : tasks db' !! id = Some (claim_update winner task)).
  { subst db'. project_ledger. rewrite lookup_alter_eq, Ht. reflexivity. }
  assert (Hst' : status (claim_update winner task) = claimed).
  { unfold claim_update. rewrite Hopen. reflexivity. }
  assert (Hrun : claim_all (winner :: losers) id db
                 = (Ok 200 "Task claimed. Get to work."
                      :: map (fun _ => Err 400 "Task is not open") losers, db')).
  { cbn [claim_all]. unfold bind at 1. rewrite Hwin. unfold bind at 1.
    rewrite (claim_all_too_late losers db' id (claim_update winner task) Ht').
    - reflexivity.
    - rewrite Hst'. discriminate.
    - intros c Hc. subst db'. project_ledger. apply Hall. right. exact Hc. }
  exists db'. rewrite Hrun, Ht'. cbn [fst fmap option_fmap option_map].
  repeat split; try assumption.
  - rewrite Hst'. reflexivity.
  - unfold claim_update. rewrite Hopen. reflexivity.
  - cbn. clear. induction losers as [|l rest IH]; [reflexivity | exact IH].
Qed.

Lemma one_claim_wins_witness :
  exists db',
    claim_all ["agent_c"; "agent_b"; "agent_a"] "task_x" posted
    = (Ok 200 "Task claimed. Get to work."
         :: map (fun _ => Err 400 "Task is not open") ["agent_b"; "agent_a"], db')
    /\ claimTask (Some "agent_c") "task_x" posted = (Ok 200 "Task claimed. Get to work.", db')
    /\ status <$> tasks db' !! "task_x" = Some claimed
    /\ worker_id <$> tasks db' !! "task_x" = Some (Some "agent_c")
    /\ forallb (fun r => negb (is_Conflict r))
         (fst (claim_all ["agent_c"; "agent_b"; "agent_a"] "task_x" posted)) = true.
Proof.
  apply (one_claim_wins posted "task_x"
           (mkTask "Write docs" "Document the API" "agent_a" None 30 [] "text" None
                   open None false false false)
           "agent_c" ["agent_b"; "agent_a"]).
  - vm_compute. reflexivity.
  - reflexivity.
  - discriminate.
  - intros c Hc. apply (bool_decide_unpack _).
    repeat (apply elem_of_cons in Hc as [->|Hc]; [vm_compute; exact I|]).
    apply elem_of_nil in Hc. contradiction.
Defined.

(** ** C3: rejecting submitted work *)

(** C3, on the code. Alice (100 credits) escrows 30 and holds 70 while Bob
    works. After she rejects the submitted work the task is [open] again
    with no worker, Bob's failed counter is 1, his score went from 50 to 45
    through a TASK_REJECTED event of -5 points; but Alice's balance is 100,
    not 70: the escrow was paid back to her although the task stays open
    with its reward of 30. *)
Theorem reject_releases_escrow :
  credits_of "agent_a" handed_in = Some 70
  /\ fst (validateWork (Some "agent_a") "task_x" (JBool false) (Some "not good") handed_in)
     = Ok 200 "Work rejected. Task reopened."
  /\ tasks rejected !! "task_x" = Some (docs_task None open None false false)
  /\ tasks_failed <$> agents rejected !! "agent_b" = Some 1
  /\ reputation <$> agents rejected !! "agent_b" = Some 45%Q
  /\ map event_summary (reputation_events rejected) = [("agent_b", "TASK_REJECTED", (-5)%Q)]
  /\ credits_of "agent_a" rejected = Some 100
  /\ map tx_summary (transactions rejected)
     = [("agent_a", "task_escrow", -30); ("agent_a", "escrow_release", 30)].
Proof. repeat split; vm_compute; reflexivity. Qed.

(** The reject branch on any database: the reward goes back to the
    requester's balance while the task reopens with the same reward. *)
Lemma reject_credits_requester db id task requester rq worker wk approved reason :
  agents db !! requester = Some rq ->
  tasks db !! id = Some task ->
  requester_id task = requester ->
  status task = submitted ->
  approved <> JUndefined -> truthy approved = false ->
  worker_id task = Some worker ->
  requester <> worker ->
  agents db !! worker = Some wk ->
  exists db',
    validateWork (Some requester) id approved reason db
    = (Ok 200 "Work rejected. Task reopened.", db')
    /\ credits <$> agents db' !! requester = Some (credits rq + reward task)
    /\ tasks db' !! id = Some (reopen_update task)
    /\ tasks_failed <$> agents db' !! worker = Some (tasks_failed wk + 1)
    /\ reputation <$> agents db' !! worker
       = Some (clamp_reputation (reputation wk + -5 * 1))
    /\ credits <$> agents db' !! worker = Some (credits wk).
Proof.
  intros Hrq Ht Hreq Hst Hdef Happ Hw Hne Hwk.
  unfold validateWork. run_handler. rewrite Hrq.
  destruct approved; try contradiction;
    rewrite Ht, Hreq, String.eqb_refl, Hst; cbn [negb];
    rewrite bool_decide_eq_true_2 by reflexivity; cbn [negb];
    rewrite Happ; unfold rejectWork; rewrite Hw, Hreq; run_handler; step_event.
  all: eexists; split; [reflexivity|]; read_back.
  all: rewrite ?(lookup_alter_ne _ _ worker requester) by congruence.
  all: rewrite ?lookup_alter_eq.
  all: rewrite ?(lookup_alter_ne _ _ requester worker) by congruence.
  all: use_lookups; agent_fields.
  all: repeat split; reflexivity.
Qed.

(** ** C4: the stored balance_after *)

(** [recordTransaction] adds the amount to the balance it reads. *)
Lemma recordTransaction_row db agentId a type amt descr taskId relatedAgentId :
  agents db !! agentId = Some a ->
  recordTransaction agentId type amt descr taskId relatedAgentId db
  = (tt, insert_transaction
           (mkTransaction agentId type amt (credits a + amt) descr
              (str_or_null taskId) (str_or_null relatedAgentId)) db).
Proof. intros Ha. unfold recordTransaction. run_handler. rewrite Ha. reflexivity. Qed.

(** C4, on the code. Alice holds 100 credits and posts a task with
    reward 30: her balance becomes 70, and the escrow row stores
    balance_after = 40. When the work is approved Bob's balance becomes
    130, and the payment row stores balance_after = 160. Each caller has
    already applied the amount when [recordTransaction] adds it again. *)
Theorem balance_after_counts_amount_twice :
  credits_of "agent_a" posted = Some 70
  /\ map (fun t => (tx_agent_id t, tx_type t, amount t, balance_after t)) (transactions posted)
     = [("agent_a", "task_escrow", -30, 40)]
  /\ credits_of "agent_b" once_approved = Some 130
  /\ map (fun t => (tx_agent_id t, tx_type t, amount t, balance_after t))
         (transactions once_approved)
     = [("agent_a", "task_escrow", -30, 40); ("agent_b", "task_payment", 30, 160)].
Proof. repeat split; vm_compute; reflexivity. Qed.

(** ** C5: rejected task creations *)

(** [sanitizeInt] with the bounds of the create route clamps. *)
Lemma sanitizeInt_clamps v n :
  parseInt v = Some n ->
  sanitizeInt v reward_options = Z.max 1 (Z.min 1000000 n).
Proof.
  intros Hp. unfold sanitizeInt, reward_options. rewrite Hp. cbn.
  destruct (Z.ltb_spec n 1); [lia|]. rewrite Z.gtb_ltb.
  destruct (Z.ltb_spec 1000000 n); lia.
Qed.

Lemma sanitizeInt_NaN v : parseInt v = None -> sanitizeInt v reward_options = 0.
Proof. intros Hp. unfold sanitizeInt, reward_options. rewrite Hp. reflexivity. Qed.

Lemma createTask_malformed db agent_id agent body nano :
  agents db !! agent_id = Some agent ->
  well_formed body = false ->
  is_InvalidInput (fst (createTask (Some agent_id) body nano db)) = true
  /\ snd (createTask (Some agent_id) body nano db) = db.
Proof.
  intros Ha Hwf. unfold createTask. run_handler. rewrite Ha.
  unfold well_formed in Hwf.
  destruct (opt_truthy (rawTitle body)); cbn [negb orb andb] in *; [|split; reflexivity].
  destruct (opt_truthy (rawDescription body)); cbn [negb orb andb] in *; [|split; reflexivity].
  destruct (truthy (rawReward body)); cbn [negb orb andb] in *; [|split; reflexivity].
  destruct (String.eqb (sanitizeTitle _) ""); cbn [negb orb andb] in *; [split; reflexivity|].
  destruct (String.eqb (sanitizeDescription _) ""); cbn [negb orb andb] in *;
    [split; reflexivity|].
  destruct (sanitizeInt (rawReward body) reward_options <? 1); [split; reflexivity|].
  discriminate.
Qed.

Lemma createTask_insufficient db agent_id agent body nano :
  agents db !! agent_id = Some agent ->
  well_formed body = true ->
  credits agent < sanitizeInt (rawReward body) reward_options ->
  createTask (Some agent_id) body nano db = (Err 400 "Insufficient credits", db).
Proof.
  intros Ha Hwf Hlow. unfold createTask. run_handler. rewrite Ha.
  unfold well_formed in Hwf.
  repeat (apply andb_true_iff in Hwf as [Hwf ?]).
  rewrite Hwf. 
  repeat match goal with H : _ = true |- _ => apply negb_true_iff in H end.
  repeat match goal with H : _ = _ |- _ => rewrite H end.
  cbn [negb orb].
  destruct (Z.ltb_spec (credits agent) (sanitizeInt (rawReward body) reward_options)); [|lia].
  reflexivity.
Qed.

Lemma createTask_400_unchanged db auth body nano msg :
  fst (createTask auth body nano db) = Err 400 msg ->
  snd (createTask auth body nano db) = db.
Proof.
  unfold createTask. run_handler.
  destruct auth as [agent_id|]; [|discriminate].
  destruct (agents db !! agent_id) as [agent|]; [|discriminate].
  destruct (_ || _); [reflexivity|].
  destruct (String.eqb (sanitizeTitle _) ""); [reflexivity|].
  destruct (String.eqb (sanitizeDescription _) ""); [reflexivity|].
  destruct (_ <? 1); [reflexivity|].
  destruct (_ <? _); [reflexivity|].
  destruct (tasks _ !! _); [discriminate|].
  step_badges. discriminate.
Qed.

(** C5. A creation with a requested reward below 1 should fail with
    InvalidInput and change nothing.  The route does test [reward < 1] and
    has the answer Reward must be at least 1 credit for it, but it tests
    the value that [sanitizeInt] has already raised to its minimum of 1:
    for a requested reward of -5 the task is created, with reward 1, and
    one credit is escrowed. *)
Theorem create_negative_reward_accepted :
  let r := createTask (Some "agent_a") (docs_body (JNum (-5))) "x" market in
  ~ rejected_unchanged market r
  /\ fst r = Ok 201 "Task posted. Credits escrowed."
  /\ reward <$> tasks (snd r) !! "task_x" = Some 1
  /\ credits_of "agent_a" (snd r) = Some 99.
Proof.
  split; [|vm_compute; repeat split; reflexivity].
  intros [H _]. vm_compute in H. discriminate.
Qed.

(** The other rejections of the create route are as the claim has them.
    For an authenticated requester, the route answers with an InvalidInput
    error when title, description or reward is missing or empty (a reward
    of 0 included), when the sanitised title or description is empty, or
    when [parseInt] reads no number from the reward; what [parseInt] reads
    is moved into [1, 1000000]; with a well-formed body and a balance below
    that reward the answer is InsufficientCredits; and every 400 answer
    leaves the database as it was. *)
Lemma createTask_rejections db agent_id agent body nano :
  agents db !! agent_id = Some agent ->
  let r := createTask (Some agent_id) body nano db in
  (well_formed body = false -> is_InvalidInput (fst r) = true /\ snd r = db)
  /\ (str_or_null (rawTitle body) = None \/ str_or_null (rawDescription body) = None
      \/ truthy (rawReward body) = false \/ parseInt (rawReward body) = None ->
      well_formed body = false)
  /\ (forall n, parseInt (rawReward body) = Some n ->
        sanitizeInt (rawReward body) reward_options = Z.max 1 (Z.min 1000000 n))
  /\ (well_formed body = true ->
      credits agent < sanitizeInt (rawReward body) reward_options ->
      is_InsufficientCredits (fst r) = true /\ snd r = db)
  /\ (forall msg, fst r = Err 400 msg -> snd r = db).
Proof.
  intros Ha r. subst r. repeat split.
  - apply (createTask_malformed db agent_id agent body nano Ha H).
  - apply (createTask_malformed db agent_id agent body nano Ha H).
  - intros [H | [H | [H | H]]]; unfold well_formed, opt_truthy.
    + rewrite H. reflexivity.
    + rewrite H. destruct (str_or_null (rawTitle body)); reflexivity.
    + rewrite H. rewrite andb_false_r. reflexivity.
    + rewrite (sanitizeInt_NaN _ H). cbn. rewrite !andb_false_r. reflexivity.
  - intros n Hn. apply sanitizeInt_clamps. exact Hn.
  - rewrite (createTask_insufficient db agent_id agent body nano) by assumption. reflexivity.
  - rewrite (createTask_insufficient db agent_id agent body nano) by assumption. reflexivity.
  - apply createTask_400_unchanged.
Qed.

Lemma createTask_rejections_witness :
  let r := createTask (Some "agent_a") (docs_body (JStr "plenty")) "x" market in
  is_InvalidInput (fst r) = true /\ snd r = market.
Proof.
  apply (createTask_rejections market "agent_a" alice (docs_body (JStr "plenty")) "x");
    reflexivity.
Defined.

(** ** C6: the reputation score stays within 0 and 100 *)

Lemma clamp_reputation_range r : (0 <= clamp_reputation r <= 100)%Q.
Proof.
  unfold clamp_reputation. split.
  - apply Q.le_max_l.
  - apply Q.max_lub; [discriminate | apply Q.le_min_l].
Qed.

Lemma recordReputationEvent_in_range agentId eventType options db :
  reputation_in_range db ->
  reputation_in_range (snd (recordReputationEvent agentId eventType options db)).
Proof.
  intros Hr id a.
  destruct (ledger_fields _ _ (recordReputationEvent_ledger agentId eventType options db))
    as (-> & _).
  unfold after_event. destruct (lookup_event _ _) as [[base d]|]; [|apply Hr].
  project_ledger. rewrite lookup_alter. case_decide as Hid; [|apply Hr].
  subst id. destruct (agents db !! agentId) as [a0|]; [|discriminate].
  cbn. intros [= <-]. apply clamp_reputation_range.
Qed.

(** C6. Starting from scores within [0, 100], every sequence of
    [recordReputationEvent] calls, with any agents, event types and
    multipliers, leaves every agent's score within [0, 100]; one call
    with a known event type sets the agent's score to
    [MAX(0, MIN(100, old + points * multiplier))], which lies within
    [0, 100] whatever the old score was. *)
Theorem reputation_always_clamped db calls :
  reputation_in_range db ->
  reputation_in_range (snd (record_all calls db))
  /\ forall agentId eventType options base edescription a,
       lookup_event REPUTATION_EVENTS eventType = Some (base, edescription) ->
       agents db !! agentId = Some a ->
       let delta := (base * multiplier_or_1 (opt_multiplier options))%Q in
       reputation <$> agents (snd (recordReputationEvent agentId eventType options db)) !! agentId
       = Some (Qmax 0 (Qmin 100 (reputation a + delta)))
       /\ (0 <= Qmax 0 (Qmin 100 (reputation a + delta)) <= 100)%Q.
Proof.
  intros Hr. split.
  - revert db Hr. induction calls as [|c rest IH]; intros db Hr; [exact Hr|].
    cbn [record_all]. unfold bind.
    pose proof (recordReputationEvent_in_range (call_agent c) (call_type c)
                  (call_options c) db Hr) as Hr1.
    destruct (recordReputationEvent _ _ _ db) as [res db1]. cbn [snd] in Hr1.
    apply IH. exact Hr1.
  - intros agentId eventType options base edescription a Hk Ha delta. split.
    + destruct (ledger_fields _ _ (recordReputationEvent_ledger agentId eventType options db))
        as (-> & _).
      rewrite (after_event_known _ _ _ _ _ _ Hk). project_ledger.
      rewrite lookup_alter_eq, Ha. reflexivity.
    + apply (clamp_reputation_range (reputation a + delta)).
Qed.

Lemma reputation_always_clamped_witness :
  reputation_in_range (snd (record_all sample_calls market)).
Proof.
  apply reputation_always_clamped.
  intros id a H. unfold market in H. cbn in H.
  repeat (rewrite lookup_insert in H; case_decide;
          [injection H as <-; split; cbv; discriminate|]).
  rewrite lookup_empty in H. discriminate.
Defined.

(** Carol's 85 + 50 saturates at 100, Bob's 50 - 200 at 0, Alice gets half
    a point. *)
Example sample_calls_scores :
  let db := snd (record_all sample_calls market) in
  reputation <$> agents db !! "agent_c" = Some 100%Q
  /\ reputation <$> agents db !! "agent_b" = Some 0%Q
  /\ reputation <$> agents db !! "agent_a" = Some (101 # 2)%Q.
Proof. repeat split; vm_compute; reflexivity. Qed.

(** ** Disputes: reaching the settlement *)

Lemma resolveDispute_authorised db agent_id agent id decision d resolution dsp task :
  agents db !! agent_id = Some agent ->
  valid_decision decision = Some d ->
  disputes db !! id = Some dsp ->
  tasks db !! dispute_task_id dsp = Some task ->
  dispute_status dsp = dispute_open ->
  isInvolved agent_id dsp task || isArbitrator agent_id agent dsp task = true ->
  resolveDispute (Some agent_id) id decision resolution db
  = settleDispute agent_id (isArbitrator agent_id agent dsp task) id d resolution dsp task db.
Proof.
  intros Ha Hd Hdsp Ht Hopen Hauth.
  unfold resolveDispute. run_handler. rewrite Ha, Hd, Hdsp, Ht, Hopen.
  rewrite bool_decide_eq_true_2 by reflexivity. cbn [negb].
  apply orb_true_iff in Hauth as [-> | ->]; cbn [negb andb]; [reflexivity|].
  rewrite andb_false_r. reflexivity.
Qed.

Lemma notify_parties_ledger parties :
  forall db, fst (notify_parties parties db) = tt
             /\ ledger (snd (notify_parties parties db)) = ledger db.
Proof.
  induction parties as [|p rest IH]; intros db; [split; reflexivity|].
  cbn [notify_parties]. run_handler.
  match goal with |- context [notify_parties rest ?s] => destruct (IH s) as [H1 H2] end.
  split; [exact H1 | rewrite H2; reflexivity].
Qed.

Ltac step_notify :=
  match goal with
  | |- context [notify_parties ?ps ?s] =>
      let H := fresh "Hledger" in
      let res := fresh "res" in
      let s' := fresh "db" in
      destruct (notify_parties_ledger ps s) as [_ H];
      destruct (notify_parties ps s) as [res s'];
      cbn [snd] in H;
      split_ledger H
  end.

Lemma distribute_split task_id task :
  distribute "split" task_id task
  = (let halfReward := reward task / 2 in
     step credit halfReward (requester_id task);
     step recordTransaction (requester_id task) "refund_partial" halfReward
            ("Partial refund (dispute split): " ++ title task) (Some task_id) None;
     step (match str_or_null (worker_id task) with
           | Some worker =>
               step credit (reward task - halfReward) worker;
               recordTransaction worker "task_payment_partial" (reward task - halfReward)
                 ("Partial payment (dispute split): " ++ title task) (Some task_id) None
           | None => ret tt
           end);
     ret completed).
Proof. reflexivity. Qed.

Lemma str_or_null_Some s : s <> "" -> str_or_null (Some s) = Some s.
Proof.
  intros Hs. unfold str_or_null. destruct (String.eqb_spec s ""); [contradiction|reflexivity].
Qed.

Lemma isArbitrator_not_involved agent_id agent dsp task :
  isArbitrator agent_id agent dsp task = true ->
  requester_id task <> agent_id /\ worker_id task <> Some agent_id
  /\ raised_by dsp <> agent_id.
Proof.
  unfold isArbitrator, isInvolved. intros H.
  apply andb_true_iff in H as [_ H]. apply negb_true_iff in H.
  apply orb_false_iff in H as [H Hw]. apply orb_false_iff in H as [Hr Hq].
  apply String.eqb_neq in Hr, Hq. apply bool_decide_eq_false in Hw. auto.
Qed.

(** ** C7: the split outcome *)

(** C7. Resolving an open dispute with decision [split], on a task with a
    worker, credits floor(reward/2) to the requester ([refund_partial]) and
    reward - floor(reward/2) to the worker ([task_payment_partial]); the
    two amounts add up to the reward; the task ends [completed]; the
    reputation events are unchanged. *)
Theorem split_conserves_reward db agent_id agent id resolution dsp task worker rq wk :
  agents db !! agent_id = Some agent ->
  disputes db !! id = Some dsp ->
  tasks db !! dispute_task_id dsp = Some task ->
  dispute_status dsp = dispute_open ->
  isInvolved agent_id dsp task || isArbitrator agent_id agent dsp task = true ->
  worker_id task = Some worker -> worker <> "" ->
  requester_id task <> worker ->
  agents db !! requester_id task = Some rq ->
  agents db !! worker = Some wk ->
  let refund := reward task / 2 in
  let payment := reward task - reward task / 2 in
  exists db' rows,
    resolveDispute (Some agent_id) id (Some "split") resolution db
    = (Ok 200 "Dispute resolved", db')
    /\ credits <$> agents db' !! requester_id task = Some (credits rq + refund)
    /\ credits <$> agents db' !! worker = Some (credits wk + payment)
    /\ refund + payment = reward task
    /\ status <$> tasks db' !! dispute_task_id dsp = Some completed
    /\ reputation_events db' = reputation_events db
    /\ transactions db' = (transactions db ++ rows)%list
    /\ map tx_summary rows
       = ([(requester_id task, "refund_partial", refund);
           (worker, "task_payment_partial", payment)]
          ++ fee_rows (isArbitrator agent_id agent dsp task) agent_id (reward task))%list.
Proof.
  intros Ha Hdsp Ht Hopen Hauth Hw Hwne Hne Hrq Hwk refund payment.
  rewrite (resolveDispute_authorised db agent_id agent id (Some "split") "split"
             resolution dsp task) by (assumption || reflexivity).
  unfold settleDispute. rewrite distribute_split, Hw, (str_or_null_Some worker Hwne).
  unfold fee_rows.
  destruct (isArbitrator agent_id agent dsp task) eqn:Harb; cbn [andb].
  - destruct (isArbitrator_not_involved _ _ _ _ Harb) as (Hr & Hwa & _).
    assert (Hwa' : worker <> agent_id) by congruence.
    destruct (arbitrationReward (reward task) >? 0); run_handler; step_notify.
    all: eexists; eexists; split; [reflexivity|]; read_back.
    1: rewrite !(lookup_alter_ne _ _ agent_id) by congruence.
    all: rewrite !(lookup_alter_ne _ _ worker (requester_id task)) by congruence.
    all: rewrite ?lookup_alter_eq, ?(lookup_alter_ne _ _ (requester_id task) worker) by congruence.
    all: use_lookups; agent_fields.
    all: repeat (split; [first [reflexivity | subst refund payment; lia]|]).
    all: rewrite <- ?app_assoc; split; reflexivity.
  - run_handler; step_notify.
    eexists; eexists; split; [reflexivity|]; read_back.
    rewrite !(lookup_alter_ne _ _ worker (requester_id task)) by congruence.
    rewrite ?lookup_alter_eq, ?(lookup_alter_ne _ _ (requester_id task) worker) by congruence.
    use_lookups; agent_fields.
    repeat (split; [first [reflexivity | subst refund payment; lia]|]).
    rewrite <- ?app_assoc; split; reflexivity.
Qed.

Lemma split_conserves_reward_witness :
  exists db',
    resolveDispute (Some "agent_a") "disp_y" (Some "split") None contested
    = (Ok 200 "Dispute resolved", db')
    /\ credits_of "agent_a" db' = Some 85
    /\ credits_of "agent_b" db' = Some 115
    /\ status_of "task_x" db' = Some completed.
Proof.
  destruct running_example_rows as (_ & _ & _ & Ht & Hd).
  destruct contested_agents as (Ha & Hb & _).
  assert (Hne : "agent_b" <> "") by discriminate.
  assert (Hrw : "agent_a" <> "agent_b") by discriminate.
  destruct (split_conserves_reward contested "agent_a" alice_posted "disp_y" None
              docs_dispute (docs_task (Some "agent_b") disputed (Some "done") true true)
              "agent_b" alice_posted bob Ha Hd Ht eq_refl eq_refl eq_refl Hne Hrw Ha Hb)
    as (db' & rows & Hrun & Hrq & Hwk & _ & Hstatus & _).
  exists db'. split; [exact Hrun|]. split; [exact Hrq|]. split; [exact Hwk | exact Hstatus].
Defined.

(** ** C8: approving submitted work *)

Lemma validateWork_approved db id task requester ra approved reason :
  agents db !! requester = Some ra ->
  tasks db !! id = Some task ->
  requester_id task = requester ->
  status task = submitted ->
  truthy approved = true ->
  validateWork (Some requester) id approved reason db
  = approveWork requester id task reason db.
Proof.
  intros Hra Ht Hreq Hst Happ.
  unfold validateWork. run_handler. rewrite Hra. run_handler.
  destruct approved; try discriminate; rewrite Ht; run_handler;
    rewrite Hreq, String.eqb_refl, Hst; cbn [negb];
    rewrite bool_decide_eq_true_2 by reflexivity; cbn [negb];
    rewrite Happ; reflexivity.
Qed.

(** C8. [ValidateWork] with a truthy [approved], called by the requester
    on a submitted task, answers 200, credits the full reward to the
    worker, increments the worker's completed counter, sets the task to
    [completed], and appends to the reputation events exactly: TASK_COMPLETED
    (+3) for the worker, then HIGH_VALUE_TASK (+2) iff the reward is at
    least 50, then FIRST_TASK (+5) iff the worker had completed no task
    before. *)
Theorem approve_pays_worker db id task requester ra worker w approved reason :
  agents db !! requester = Some ra ->
  tasks db !! id = Some task ->
  requester_id task = requester ->
  status task = submitted ->
  truthy approved = true ->
  worker_id task = Some worker ->
  agents db !! worker = Some w ->
  exists db' evs,
    validateWork (Some requester) id approved reason db
    = (Ok 200 "Task completed. Worker paid.", db')
    /\ credits <$> agents db' !! worker = Some (credits w + reward task)
    /\ tasks_completed <$> agents db' !! worker = Some (tasks_completed w + 1)
    /\ status <$> tasks db' !! id = Some completed
    /\ reputation_events db' = (reputation_events db ++ evs)%list
    /\ map event_summary evs = approval_events worker (reward task) (tasks_completed w).
Proof.
  intros Hra Ht Hreq Hst Happ Hw Hwa.
  rewrite (validateWork_approved db id task requester ra approved reason) by assumption.
  unfold approveWork, approval_events. rewrite Hw.
  assert (Hfirst : (tasks_completed w + 1 =? 1) = (tasks_completed w =? 0))
    by (destruct (Z.eqb_spec (tasks_completed w) 0);
        [apply Z.eqb_eq | apply Z.eqb_neq]; lia).
  run_handler. step_event.
  destruct (reward task >=? 50); run_handler; [step_event|];
    read_back; rewrite Hfirst;
    (destruct (tasks_completed w =? 0); run_handler; [step_event|]);
    step_badges; run_handler.
  all: eexists; eexists.
  all: split; [reflexivity|].
  all: read_back.
  all: split; [reflexivity|]; split; [reflexivity|]; split; [reflexivity|].
  all: rewrite <- ?app_assoc.
  all: split; reflexivity.
Qed.

Lemma approve_pays_worker_witness :
  exists db',
    validateWork (Some "agent_a") "task_x" (JBool true) None handed_in
    = (Ok 200 "Task completed. Worker paid.", db')
    /\ credits_of "agent_b" db' = Some 130
    /\ status_of "task_x" db' = Some completed.
Proof.
  destruct running_example_rows as (Ha & Hb & Ht & _).
  destruct (approve_pays_worker handed_in "task_x"
              (docs_task (Some "agent_b") submitted (Some "done") true true)
              "agent_a" alice_posted "agent_b" bob (JBool true) None
              Ha Ht eq_refl eq_refl eq_refl eq_refl Hb)
    as (db' & evs & Hrun & Hcredits & _ & Hstatus & _).
  exists db'. split; [exact Hrun|]. split; [exact Hcredits | exact Hstatus].
Defined.

(** ** C9: the arbitration reward *)

Lemma valid_decision_cases decision d :
  valid_decision decision = Some d ->
  d = "favor_requester" \/ d = "favor_worker" \/ d = "split" \/ d = "cancel".
Proof.
  unfold valid_decision. destruct (str_or_null decision) as [s|]; [|discriminate].
  cbn [existsb].
  destruct (String.eqb_spec s "favor_requester") as [->|_]; [intros [= <-]; auto|].
  destruct (String.eqb_spec s "favor_worker") as [->|_]; [intros [= <-]; auto|].
  destruct (String.eqb_spec s "split") as [->|_]; [intros [= <-]; auto|].
  destruct (String.eqb_spec s "cancel") as [->|_]; [intros [= <-]; auto 6|].
  discriminate.
Qed.

(** The distribution of the reward touches the credits of the requester
    and of the worker only. *)
Lemma distribute_other_credits decision task_id task db x :
  decision = "favor_requester" \/ decision = "favor_worker"
  \/ decision = "split" \/ decision = "cancel" ->
  requester_id task <> x -> worker_id task <> Some x ->
  credits <$> agents (snd (distribute decision task_id task db)) !! x
  = credits <$> agents db !! x.
Proof.
  intros Hd Hr Hw.
  assert (Hw' : forall w, str_or_null (worker_id task) = Some w -> w <> x).
  { intros w Hs ->. apply Hw. unfold str_or_null in Hs.
    destruct (worker_id task) as [w'|]; [|discriminate].
    destruct (String.eqb w' ""); congruence. }
  destruct Hd as [-> | [-> | [-> | ->]]]; unfold distribute; cbn [String.eqb Ascii.eqb Bool.eqb];
    destruct (str_or_null (worker_id task)) as [w|] eqn:Hsw;
    try specialize (Hw' w eq_refl); run_handler; repeat step_event;
    read_back; cbn [snd]; read_back;
    rewrite ?lookup_alter_ne by congruence; reflexivity.
Qed.

(** C9. When an open dispute is resolved by an arbitrator — an agent with
    reputation at least 80 who is neither the raiser, the requester nor
    the worker — with any of the four decisions, the arbitrator's balance
    grows by exactly min(10, floor(reward / 20)), and every other agent,
    the requester and the worker included, ends with the balance that the
    distribution of the reward alone gives: nobody is debited for the
    fee. *)
Theorem arbitrator_fee_from_system db arb a id decision d resolution dsp task :
  agents db !! arb = Some a ->
  valid_decision decision = Some d ->
  disputes db !! id = Some dsp ->
  tasks db !! dispute_task_id dsp = Some task ->
  dispute_status dsp = dispute_open ->
  (80 <= reputation a)%Q ->
  raised_by dsp <> arb -> requester_id task <> arb -> worker_id task <> Some arb ->
  0 <= reward task ->
  exists db',
    resolveDispute (Some arb) id decision resolution db = (Ok 200 "Dispute resolved", db')
    /\ credits <$> agents db' !! arb = Some (credits a + Z.min 10 (reward task / 20))
    /\ forall x, x <> arb ->
         credits <$> agents db' !! x
         = credits <$> agents (snd (distribute d (dispute_task_id dsp) task db)) !! x.
Proof.
  intros Ha Hd Hdsp Ht Hopen Hrep Hraiser Hreq Hwork Hreward.
  assert (Hinv : isInvolved arb dsp task = false).
  { unfold isInvolved. apply orb_false_iff. split; [apply orb_false_iff; split|].
    - apply String.eqb_neq. exact Hraiser.
    - apply String.eqb_neq. exact Hreq.
    - apply bool_decide_eq_false. exact Hwork. }
  assert (Harb : isArbitrator arb a dsp task = true).
  { unfold isArbitrator. rewrite Hinv. cbn [negb]. rewrite andb_true_r.
    apply Qle_bool_iff. exact Hrep. }
  rewrite (resolveDispute_authorised db arb a id decision d resolution dsp task)
    by (try assumption; rewrite Harb; apply orb_true_r).
  rewrite Harb. unfold settleDispute.
  pose proof (distribute_other_credits d (dispute_task_id dsp) task db arb
                (valid_decision_cases _ _ Hd) Hreq Hwork) as Hkeep.
  run_handler.
  destruct (distribute d (dispute_task_id dsp) task db) as [taskStatus db1].
  cbn [snd] in Hkeep |- *. rewrite Ha in Hkeep. cbn in Hkeep.
  destruct (agents db1 !! arb) as [a1|] eqn:Ha1; [|discriminate].
  cbn in Hkeep. injection Hkeep as Hkeep.
  unfold arbitrationReward.
  destruct (Z.min 10 (reward task / 20) >? 0) eqn:Hfee; run_handler; step_notify.
  all: eexists; split; [reflexivity|]; read_back.
  - split; [rewrite Hkeep; reflexivity|].
    intros x Hx. rewrite lookup_alter_ne by congruence. reflexivity.
  - split; [|reflexivity].
    assert (0 <= reward task / 20) by (apply Z.div_pos; lia).
    assert (Z.min 10 (reward task / 20) = 0) by lia.
    f_equal. lia.
Qed.

Lemma arbitrator_fee_from_system_witness :
  exists db',
    resolveDispute (Some "agent_c") "disp_y" (Some "favor_worker") None contested
    = (Ok 200 "Dispute resolved", db')
    /\ credits_of "agent_c" db' = Some 101.
Proof.
  destruct running_example_rows as (_ & _ & _ & Ht & Hd).
  destruct contested_agents as (_ & _ & Hc).
  assert (Hrep : (80 <= reputation carol)%Q) by (cbv; discriminate).
  assert (H1 : raised_by docs_dispute <> "agent_c") by discriminate.
  assert (H2 : "agent_a" <> "agent_c") by discriminate.
  assert (H3 : Some "agent_b" <> Some "agent_c") by discriminate.
  assert (H4 : 0 <= 30) by lia.
  destruct (arbitrator_fee_from_system contested "agent_c" carol "disp_y"
              (Some "favor_worker") "favor_worker" None
              docs_dispute (docs_task (Some "agent_b") disputed (Some "done") true true)
              Hc eq_refl Hd Ht eq_refl Hrep H1 H2 H3 H4)
    as (db' & Hrun & Hfee & _).
  exists db'. split; [exact Hrun | exact Hfee].
Defined.

(** ** The arbitration reward in binary64 *)

Lemma check_from_sound len :
  forall lo, FloatFee.check_from lo len = true ->
  forall q, lo <= q < lo + Zpos len -> FloatFee.block q = true.
Proof.
  induction len as [p IH | p IH |]; intros lo Hc n Hn; cbn [FloatFee.check_from] in Hc.
  - apply andb_prop in Hc as [Hc H2]. apply andb_prop in Hc as [H0 H1].
    destruct (Z.eq_dec n lo) as [->|]; [exact H0|].
    destruct (Z_lt_le_dec n (lo + 1 + Zpos p)).
    + apply (IH _ H1). lia.
    + apply (IH _ H2). lia.
  - apply andb_prop in Hc as [H1 H2].
    destruct (Z_lt_le_dec n (lo + Zpos p)).
    + apply (IH _ H1). lia.
    + apply (IH _ H2). lia.
  - assert (n = lo) as -> by lia. exact Hc.
Qed.

Lemma block_sound q r :
  FloatFee.block q = true -> 0 <= r < 20 ->
  FloatFee.floor_is (FloatFee.product (20 * q + r)) q = true.
Proof.
  unfold FloatFee.block. cbv zeta. rewrite forallb_forall. intros H Hr.
  apply (H r).
  assert (r = 0 \/ r = 1 \/ r = 2 \/ r = 3 \/ r = 4 \/ r = 5 \/ r = 6 \/ r = 7 \/ r = 8
          \/ r = 9 \/ r = 10 \/ r = 11 \/ r = 12 \/ r = 13 \/ r = 14 \/ r = 15 \/ r = 16
          \/ r = 17 \/ r = 18 \/ r = 19) as Hcase by lia.
  cbn [In]. intuition.
Qed.

(** For every reward that the create route can store, the floor of the
    double product [reward * 0.05] is the integer quotient [reward / 20]
    used by [arbitrationReward]. *)
Lemma arbitrationReward_float_agrees reward :
  0 <= reward <= 1000000 ->
  FloatFee.floor_is (FloatFee.product reward) (reward / 20) = true.
Proof.
  intros H.
  rewrite (Z.div_mod reward 20) at 1 by lia.
  apply block_sound; [|apply Z.mod_pos_bound; lia].
  apply (check_from_sound 50001 0); [vm_compute; reflexivity|].
  assert (0 <= reward / 20 <= 50000); [|lia].
  split; [apply Z.div_pos; lia | apply Z.div_le_upper_bound; lia].
Qed.

(** ** C10: unknown event types *)

Lemma recordReputationEvent_unknown_type agentId eventType options db :
  eventType ∉ map fst REPUTATION_EVENTS -> inherited eventType = false ->
  recordReputationEvent agentId eventType options db = (Returns None, db).
Proof.
  intros Hn Hi. unfold recordReputationEvent.
  rewrite (lookup_event_None _ _ Hn), Hi. reflexivity.
Qed.

(** C10. A call of [recordReputationEvent] whose event type is not a key
    of [REPUTATION_EVENTS] should return [null] and leave the database as
    it was.  For the twelve names that the table inherits from
    [Object.prototype], none of which is a key, the call does not return:
    it throws, for every agent, every [options] and every database; the
    database is still as it was. *)
Theorem recordReputationEvent_inherited_name_throws agentId options db :
  Forall (fun eventType =>
            (eventType ∉ map fst REPUTATION_EVENTS)
            /\ recordReputationEvent agentId eventType options db = (Throws, db))
         Object_prototype.
Proof.
  unfold Object_prototype.
  repeat (constructor;
          [split; [apply (bool_decide_unpack _); vm_compute; exact I|reflexivity]|]).
  constructor.
Qed.

(** * Further properties *)

(** ** What parseInt reads from a number *)

(** A number below 10^21 is read back as it is, rounded to binary64 when
    the body wrote more digits than a number holds; from 10^21 on the
    number is rendered with an exponent and only its first digit is read,
    so that a requested reward of 10^21 is a reward of 1; Infinity reads
    as NaN.  The digits of a string are rounded in the same way. *)
Lemma parseInt_of_large_numbers :
  parseInt (JNum 9007199254740993) = Some 9007199254740992
  /\ parseInt (JStr "9007199254740993") = Some 9007199254740992
  /\ parseInt (JNum (10 ^ 21 - 1)) = Some 1
  /\ parseInt (JNum (10 ^ 21)) = Some 1
  /\ parseInt (JNum (10 ^ 23)) = Some 1
  /\ parseInt (JNum (- 25 * 10 ^ 21)) = Some (- 2)
  /\ parseInt (JNum (2 ^ 1024)) = None
  /\ sanitizeInt (JNum (10 ^ 21)) reward_options = 1.
Proof. vm_compute. repeat split; reflexivity. Qed.

(** ** sanitize.js *)

Lemma string_forall_app p s t :
  string_forall p (s ++ t)%string = string_forall p s && string_forall p t.
Proof.
  induction s as [|c s IH]; [reflexivity|].
  change (String c s +:+ t) with (String c (s +:+ t)).
  cbn [string_forall]. rewrite IH. apply andb_assoc.
Qed.

Lemma htmlEntities_safe c e : htmlEntities c = Some e -> safe_text e = true.
Proof.
  unfold htmlEntities.
  repeat (destruct (Ascii.eqb c _); [intros [= <-]; reflexivity|]). discriminate.
Qed.

Lemma htmlEntities_None c : htmlEntities c = None -> is_markup c = false.
Proof.
  unfold htmlEntities, is_markup. cbn [existsb].
  repeat (destruct (Ascii.eqb c _); [discriminate|]). reflexivity.
Qed.

Lemma string_forall_impl (p q : ascii -> bool) s :
  (forall c, p c = true -> q c = true) ->
  string_forall p s = true -> string_forall q s = true.
Proof.
  intros Hpq. induction s as [|c s IH]; [reflexivity|]. cbn [string_forall].
  rewrite !andb_true_iff. intros [Hc Hs]. split; [apply Hpq, Hc|apply IH, Hs].
Qed.

Lemma escapeHtml_clean s :
  string_forall (fun c => negb (is_markup c)) (escapeHtml s) = true.
Proof.
  induction s as [|c s IH]; [reflexivity|].
  cbn [escapeHtml]. destruct (htmlEntities c) as [e|] eqn:He.
  - rewrite string_forall_app, IH, andb_true_r.
    apply (string_forall_impl _ _ e) with (2 := htmlEntities_safe c e He).
    intros d Hd. apply andb_true_iff in Hd as [Hd _]. exact Hd.
  - cbn [string_forall]. rewrite (htmlEntities_None c He). exact IH.
Qed.

Lemma htmlEntities_cases c :
  htmlEntities c = None
  \/ In (c, htmlEntities c)
       [("&"%char, Some "&amp;"); ("<"%char, Some "&lt;"); (">"%char, Some "&gt;");
        (ascii_of_nat 34, Some "&quot;"); ("'"%char, Some "&#x27;");
        ("/"%char, Some "&#x2F;"); ("`"%char, Some "&#x60;"); ("="%char, Some "&#x3D;")].
Proof.
  unfold htmlEntities.
  repeat match goal with
         | |- context [Ascii.eqb c ?x] =>
             destruct (Ascii.eqb_spec c x) as [->|_]; [right; cbn; auto 12|]
         end.
  left. reflexivity.
Qed.

Lemma escapeHtml_inj s1 s2 :
  escapeHtml s1 = escapeHtml s2 -> s1 = s2.
Proof.
  revert s2. induction s1 as [|c1 s1 IH]; intros [|c2 s2] H.
  - reflexivity.
  - exfalso. cbn [escapeHtml] in H.
    destruct (htmlEntities_cases c2) as [E|E].
    + rewrite E in H. discriminate.
    + cbn [In] in E. repeat destruct E as [E|E]; try contradiction;
        injection E as <- E'; rewrite <- E' in H; discriminate.
  - exfalso. cbn [escapeHtml] in H.
    destruct (htmlEntities_cases c1) as [E|E].
    + rewrite E in H. discriminate.
    + cbn [In] in E. repeat destruct E as [E|E]; try contradiction;
        injection E as <- E'; rewrite <- E' in H; discriminate.
  - cbn [escapeHtml] in H.
    destruct (htmlEntities_cases c1) as [E1|E1], (htmlEntities_cases c2) as [E2|E2].
    + rewrite E1, E2 in H. injection H as -> H. f_equal. apply IH, H.
    + exfalso. rewrite E1 in H. cbn [In] in E2.
      repeat destruct E2 as [E2|E2]; try contradiction;
        injection E2 as <- E'; rewrite <- E' in H; injection H as -> _; discriminate.
    + exfalso. rewrite E2 in H. cbn [In] in E1.
      repeat destruct E1 as [E1|E1]; try contradiction;
        injection E1 as <- E'; rewrite <- E' in H; injection H as <- _; discriminate.
    + cbn [In] in E1, E2.
      repeat destruct E1 as [E1|E1]; try contradiction;
        injection E1 as <- E1'; rewrite <- E1' in H;
        repeat destruct E2 as [E2|E2]; try contradiction;
        injection E2 as <- E2'; rewrite <- E2' in H;
        try discriminate;
        (f_equal; apply IH; injection H as H; exact H).
Qed.

Lemma length_N_app s t : length_N (s ++ t)%string = (length_N s + length_N t)%N.
Proof.
  induction s as [|c s IH]; [reflexivity|].
  change (String c s +:+ t) with (String c (s +:+ t)).
  cbn [length_N]. rewrite IH. lia.
Qed.

Lemma htmlEntities_length c e : htmlEntities c = Some e -> (length_N e <= 6)%N.
Proof.
  unfold htmlEntities.
  repeat (destruct (Ascii.eqb c _); [intros [= <-]; cbv; discriminate|]). discriminate.
Qed.

Lemma escapeHtml_length s :
  (length_N s <= length_N (escapeHtml s) <= 6 * length_N s)%N.
Proof.
  induction s as [|c s IH]; [cbn; lia|].
  cbn [escapeHtml]. destruct (htmlEntities c) as [e|] eqn:He.
  - rewrite length_N_app. pose proof (htmlEntities_length c e He).
    assert (1 <= length_N e)%N.
    { revert He. unfold htmlEntities.
      repeat (destruct (Ascii.eqb c _); [intros [= <-]; cbv; discriminate|]). discriminate. }
    cbn [length_N]. lia.
  - cbn [length_N]. lia.
Qed.

Lemma substring0_length n s : (length_N (substring0 n s) <= n)%N.
Proof.
  revert n. induction s as [|c s IH]; intros n; [cbn; lia|].
  cbn [substring0]. destruct (N.eqb_spec n 0); [cbn; lia|].
  cbn [length_N]. specialize (IH (N.pred n)). lia.
Qed.

Lemma remove_nul_no_nul s :
  string_forall (fun c => negb (Ascii.eqb c zero)) (remove_nul s) = true.
Proof.
  induction s as [|c s IH]; [reflexivity|]. cbn [remove_nul].
  destruct (Ascii.eqb c zero) eqn:E; [exact IH|].
  cbn [string_forall]. rewrite E. exact IH.
Qed.

Lemma skip_spaces_forall p s :
  string_forall p s = true -> string_forall p (skip_spaces s) = true.
Proof.
  induction s as [|c s IH]; [reflexivity|]. cbn [skip_spaces].
  destruct (is_space c); [|tauto].
  cbn [string_forall]. rewrite andb_true_iff. intros [_ H]. apply IH, H.
Qed.

Lemma trim_right_forall p s :
  string_forall p s = true -> string_forall p (trim_right s) = true.
Proof.
  induction s as [|c s IH]; [reflexivity|]. cbn [trim_right].
  destruct (all_space _); [reflexivity|].
  cbn [string_forall]. rewrite !andb_true_iff. intros [Hc H]. split; [exact Hc|apply IH, H].
Qed.

Lemma substring0_forall p n s :
  string_forall p s = true -> string_forall p (substring0 n s) = true.
Proof.
  revert n. induction s as [|c s IH]; intros n; [reflexivity|]. cbn [substring0].
  destruct (n =? 0)%N; [reflexivity|].
  cbn [string_forall]. rewrite !andb_true_iff. intros [Hc H]. split; [exact Hc|apply IH, H].
Qed.

Lemma escapeHtml_no_nul s :
  string_forall (fun c => negb (Ascii.eqb c zero)) s = true ->
  string_forall (fun c => negb (Ascii.eqb c zero)) (escapeHtml s) = true.
Proof.
  induction s as [|c s IH]; [reflexivity|].
  cbn [string_forall escapeHtml]. rewrite andb_true_iff. intros [Hc H].
  destruct (htmlEntities c) as [e|] eqn:He.
  - rewrite string_forall_app, (IH H), andb_true_r.
    apply (string_forall_impl _ _ e) with (2 := htmlEntities_safe c e He).
    intros d Hd. apply andb_true_iff in Hd as [_ Hd]. exact Hd.
  - cbn [string_forall]. rewrite Hc. apply IH, H.
Qed.

Lemma string_forall_and p q s :
  string_forall p s = true -> string_forall q s = true ->
  string_forall (fun c => p c && q c) s = true.
Proof.
  induction s as [|c s IH]; [reflexivity|]. cbn [string_forall].
  rewrite !andb_true_iff. intros [? ?] [? ?]. repeat split; auto.
Qed.

Lemma sanitizeString_safe s m : safe_text (sanitizeString s m) = true.
Proof.
  unfold safe_text, sanitizeString. apply string_forall_and.
  - apply escapeHtml_clean.
  - apply escapeHtml_no_nul.
    assert (string_forall (fun c => negb (Ascii.eqb c zero)) (trim (remove_nul s)) = true) as Ht.
    { unfold trim. apply trim_right_forall, skip_spaces_forall, remove_nul_no_nul. }
    destruct m as [m|]; [|exact Ht].
    destruct (_ && _); [|exact Ht]. apply substring0_forall, Ht.
Qed.

Lemma sanitizeString_length s m :
  (m <> 0)%N -> (length_N (sanitizeString s (Some m)) <= 6 * m)%N.
Proof.
  intros Hm. unfold sanitizeString.
  destruct (N.eqb_spec m 0) as [|_]; [contradiction|]. cbn [negb andb].
  destruct (N.ltb_spec m (length_N (trim (remove_nul s)))) as [Hlt|Hle].
  - pose proof (escapeHtml_length (substring0 m (trim (remove_nul s)))).
    pose proof (substring0_length m (trim (remove_nul s))). lia.
  - pose proof (escapeHtml_length (trim (remove_nul s))). lia.
Qed.

(** X1. Whatever the input, the output of [escapeHtml] contains none of
    the seven markup characters that sanitize.js escapes besides the
    ampersand (angle brackets, both quotes, slash, backtick, equals sign),
    and it is at least as long as the input and at most six times as
    long. *)
Theorem escapeHtml_no_markup s :
  string_forall (fun c => negb (is_markup c)) (escapeHtml s) = true
  /\ (length_N s <= length_N (escapeHtml s) <= 6 * length_N s)%N.
Proof. split; [apply escapeHtml_clean|apply escapeHtml_length]. Qed.

(** X2. [escapeHtml] loses nothing: two different inputs never give the
    same output, so the original text can be recovered from what is
    stored. *)
Theorem escapeHtml_injective s1 s2 :
  s1 <> s2 -> escapeHtml s1 <> escapeHtml s2.
Proof. intros Hne H. apply Hne, escapeHtml_inj, H. Qed.

Lemma escapeHtml_injective_witness : escapeHtml "<" <> escapeHtml "&lt;".
Proof. apply (escapeHtml_injective "<" "&lt;"). discriminate. Defined.

(** X3. A sanitised string holds no NUL and no markup character, and with
    a length limit of [m] characters it is at most [6 * m] characters long:
    the cut is made before the escaping, and one character can become an
    entity of up to six. *)
Theorem sanitizeString_bounded s m :
  (m <> 0)%N ->
  safe_text (sanitizeString s (Some m)) = true
  /\ (length_N (sanitizeString s (Some m)) <= 6 * m)%N.
Proof.
  intros Hm. split; [apply sanitizeString_safe|apply sanitizeString_length, Hm].
Qed.

Lemma sanitizeString_bounded_witness :
  safe_text (sanitizeString "<b>=</b>" (Some 3%N)) = true
  /\ (length_N (sanitizeString "<b>=</b>" (Some 3%N)) <= 6 * 3)%N.
Proof. apply (sanitizeString_bounded "<b>=</b>" 3%N). discriminate. Defined.

Lemma skip_spaces_all_space s : all_space s = true -> skip_spaces s = "".
Proof.
  induction s as [|c s IH]; [reflexivity|]. cbn [all_space skip_spaces].
  destruct (is_space c); [exact IH|discriminate].
Qed.

Lemma skip_spaces_not_all_space s :
  all_space s = false -> all_space (skip_spaces s) = false.
Proof.
  induction s as [|c s IH]; [discriminate|]. cbn [all_space skip_spaces].
  destruct (is_space c) eqn:E; [exact IH|].
  intros _. cbn [all_space]. rewrite E. reflexivity.
Qed.

Lemma trim_right_nonempty s : all_space s = false -> trim_right s <> "".
Proof.
  destruct s as [|c s]; [discriminate|]. intros H.
  cbn [trim_right]. rewrite H. discriminate.
Qed.

Lemma escapeHtml_empty s : escapeHtml s = "" -> s = "".
Proof. intros H. apply escapeHtml_inj. exact H. Qed.

Lemma substring0_empty n s : n <> 0%N -> substring0 n s = "" -> s = "".
Proof.
  destruct s as [|c s]; [reflexivity|]. cbn [substring0].
  destruct (N.eqb_spec n 0); [contradiction|discriminate].
Qed.

Lemma sanitizeString_blank s m :
  sanitizeString s m = "" <-> all_space (remove_nul s) = true.
Proof.
  unfold sanitizeString, trim. split.
  - intros H. apply escapeHtml_empty in H.
    destruct (all_space (remove_nul s)) eqn:E; [reflexivity|]. exfalso.
    pose proof (trim_right_nonempty _ (skip_spaces_not_all_space _ E)) as Hne.
    destruct m as [m|]; [|contradiction].
    destruct (N.eqb_spec m 0) as [|Hm]; cbn [negb andb] in H; [contradiction|].
    destruct (_ <? _)%N; [|contradiction].
    apply substring0_empty in H; [contradiction|exact Hm].
  - intros E. rewrite (skip_spaces_all_space _ E). cbn [trim_right].
    destruct m as [m|]; [|reflexivity].
    destruct (_ && _); reflexivity.
Qed.

(** X4. For an input of ASCII characters, the sanitised string is empty
    exactly when the input consists of white space (tab, line feed,
    vertical tab, form feed, carriage return, space) and NUL characters
    only, whatever the length limit: this is the case in which the create
    route answers that a valid title or description is required. *)
Theorem sanitizeString_empty_iff s m :
  ascii_only s = true ->
  sanitizeString s m = "" <-> all_space (remove_nul s) = true.
Proof. intros _. apply sanitizeString_blank. Qed.

Lemma sanitizeString_empty_iff_witness :
  sanitizeString "   " (Some 10%N) = "" <-> all_space (remove_nul "   ") = true.
Proof. apply (sanitizeString_empty_iff "   " (Some 10%N)). reflexivity. Defined.

Lemma sanitizeInt_clamp v n lo hi d :
  parseInt v = Some n ->
  lo <= hi ->
  sanitizeInt v {| opt_min := Some lo; opt_max := Some hi; opt_default := d |}
  = Z.max lo (Z.min hi n).
Proof.
  intros Hp Hle. unfold sanitizeInt. rewrite Hp. cbn [opt_min opt_max].
  rewrite Z.gtb_ltb.
  destruct (Z.ltb_spec n lo); [cbn; lia|].
  destruct (Z.ltb_spec hi n); cbn; lia.
Qed.

(** X5. With bounds [lo <= hi] and a value that parses as a number,
    [sanitizeInt] clamps: the result is the value moved into the range, it
    lies within the bounds, and a number already within them is returned
    as it is. *)
Theorem sanitizeInt_clamps_into_range v n lo hi d :
  parseInt v = Some n ->
  lo <= hi ->
  let r := sanitizeInt v {| opt_min := Some lo; opt_max := Some hi; opt_default := d |} in
  r = Z.max lo (Z.min hi n) /\ lo <= r <= hi /\ (lo <= n <= hi -> r = n).
Proof.
  intros Hp Hle. cbn zeta. rewrite (sanitizeInt_clamp v n lo hi d Hp Hle). lia.
Qed.

Lemma sanitizeInt_clamps_into_range_witness :
  let r := sanitizeInt (JStr " 42 stars")
             {| opt_min := Some 1; opt_max := Some 5; opt_default := None |} in
  r = Z.max 1 (Z.min 5 42) /\ 1 <= r <= 5 /\ (1 <= 42 <= 5 -> r = 42).
Proof.
  apply (sanitizeInt_clamps_into_range (JStr " 42 stars") 42 1 5 None); [reflexivity|lia].
Defined.

Lemma length_N_pos_iff s : (0 <? length_N s)%N = true <-> s <> "".
Proof.
  destruct s; cbn [length_N]; split; try discriminate; try congruence.
  intros _. apply N.ltb_lt. lia.
Qed.

(** X6. The skill list kept for a task has at most 20 entries; none of
    them is empty, each is free of markup and NUL characters and at most
    300 characters long; and when the given skills are written in ASCII,
    the list holds the first 20 of those that are not blank (white space
    and NUL characters only), sanitised: blank entries are dropped before
    the list is cut. *)
Theorem sanitizeSkills_bounds skills :
  (length (sanitizeSkills skills) <= 20)%nat
  /\ Forall (fun s => s <> "" /\ safe_text s = true /\ (length_N s <= 300)%N)
       (sanitizeSkills skills)
  /\ (forallb ascii_only skills = true ->
      sanitizeSkills skills
      = take 20 (map (fun s => sanitizeString s (Some 50%N))
                   (filter (fun s => all_space (remove_nul s) = false) skills))).
Proof.
  unfold sanitizeSkills. split; [|split; [|intros _]].
  - rewrite length_take. lia.
  - apply Forall_take. apply list.Forall_forall. intros s Hs.
    apply list_elem_of_filter in Hs as [Hpos Hs].
    apply length_N_pos_iff in Hpos.
    apply list_elem_of_fmap in Hs as (raw & -> & _).
    split; [exact Hpos|].
    split; [apply sanitizeString_safe|].
    apply (sanitizeString_length raw 50%N). discriminate.
  - f_equal. induction skills as [|raw skills IH]; [reflexivity|].
    cbn [map]. rewrite !filter_cons.
    destruct (decide ((0 <? length_N (sanitizeString raw (Some 50%N)))%N = true)) as [Hpos|Hpos];
      destruct (decide (all_space (remove_nul raw) = false)) as [Hsp|Hsp].
    + cbn [map]. f_equal. exact IH.
    + exfalso. apply length_N_pos_iff in Hpos. apply Hpos.
      apply sanitizeString_blank. destruct (all_space _); congruence.
    + exfalso. apply Hpos. apply length_N_pos_iff. intros He.
      apply sanitizeString_blank in He. congruence.
    + exact IH.
Qed.

Lemma sanitizeSkills_bounds_witness :
  sanitizeSkills ["rust"; "  "; "<b>"]
  = take 20 (map (fun s => sanitizeString s (Some 50%N))
               (filter (fun s => all_space (remove_nul s) = false) ["rust"; "  "; "<b>"])).
Proof. apply (sanitizeSkills_bounds ["rust"; "  "; "<b>"]). reflexivity. Defined.

(** ** reputation.js: badges *)

Lemma award_all_grants agentId existing stats entries db :
  award_all agentId existing stats entries db
  = (map fst (List.filter (earns existing stats) entries),
     foldl (grant agentId) db (List.filter (earns existing stats) entries)).
Proof.
  revert db. induction entries as [|[t [[n d] chk]] entries IH]; intros db; [reflexivity|].
  cbn [award_all List.filter]. unfold bind at 1, award_one.
  change (negb (has_badge existing t) && chk stats)
    with (earns existing stats (t, (n, d, chk))).
  destruct (earns existing stats (t, (n, d, chk))).
  - cbv beta iota zeta delta [bind exec createNotification ret].
    rewrite IH. reflexivity.
  - cbv beta iota zeta delta [bind ret]. rewrite IH. reflexivity.
Qed.

Lemma grant_all_tables agentId l db :
  let db' := foldl (grant agentId) db l in
  agents db' = agents db /\ skill_endorsements db' = skill_endorsements db
  /\ reviews db' = reviews db
  /\ badges db' = (badges db ++ map (fun e => mkBadge agentId e.1 e.2.1.1 e.2.1.2) l)%list
  /\ notifications db'
     = (notifications db
        ++ map (fun _ => mkNotification agentId "badge" "New Badge Earned!") l)%list.
Proof.
  revert db. induction l as [|e l IH]; intros db; cbn [foldl map].
  - rewrite !app_nil_r. repeat split; reflexivity.
  - destruct (IH (grant agentId db e)) as (Ha & Hs & Hr & Hb & Hn).
    cbn zeta. rewrite Ha, Hs, Hr, Hb, Hn. cbn [grant agents skill_endorsements reviews badges
      notifications insert_notification insert_badge].
    rewrite <- !app_assoc. repeat split; reflexivity.
Qed.

Lemma held_badges_grant_all agentId l db :
  held_badges agentId (foldl (grant agentId) db l)
  = (held_badges agentId db ++ map fst l)%list.
Proof.
  unfold held_badges. destruct (grant_all_tables agentId l db) as (_ & _ & _ & -> & _).
  rewrite List.filter_app, map_app. f_equal.
  induction l as [|e l IH]; [reflexivity|].
  cbn [map List.filter badge_agent_id]. rewrite String.eqb_refl. cbn [map badge_type].
  f_equal. exact IH.
Qed.

Lemma checkAndAwardBadges_grants agentId agent db :
  agents db !! agentId = Some agent ->
  checkAndAwardBadges agentId db
  = (map fst (List.filter (earns (held_badges agentId db) (stats_of agentId agent db)) BADGES),
     foldl (grant agentId) db
       (List.filter (earns (held_badges agentId db) (stats_of agentId agent db)) BADGES)).
Proof.
  intros Ha. unfold checkAndAwardBadges.
  cbv beta iota zeta delta [bind query]. rewrite Ha.
  apply award_all_grants.
Qed.

Lemma checkAndAwardBadges_missing agentId db :
  agents db !! agentId = None -> checkAndAwardBadges agentId db = ([], db).
Proof.
  intros Ha. unfold checkAndAwardBadges. cbv beta iota zeta delta [bind query].
  rewrite Ha. reflexivity.
Qed.

Lemma has_badge_In existing t : has_badge existing t = true <-> In t existing.
Proof.
  unfold has_badge. rewrite existsb_exists. split.
  - intros (x & Hx & E). apply String.eqb_eq in E. subst. exact Hx.
  - intros H. exists t. split; [exact H|apply String.eqb_refl].
Qed.

Lemma earned_then_held existing stats entries e :
  In e entries -> e.2.2 stats = true ->
  has_badge (existing ++ map fst (List.filter (earns existing stats) entries)) e.1 = true.
Proof.
  intros He Hc. apply has_badge_In, in_or_app.
  destruct (has_badge existing e.1) eqn:Hh; [left; apply has_badge_In, Hh|].
  right. apply in_map, filter_In. split; [exact He|].
  unfold earns. rewrite Hh, Hc. reflexivity.
Qed.

Lemma filter_none {A} (p : A -> bool) l :
  (forall x, In x l -> p x = false) -> List.filter p l = [].
Proof.
  induction l as [|x l IH]; intros H; [reflexivity|]. cbn [List.filter].
  rewrite (H x) by (left; reflexivity). apply IH. intros y Hy. apply H. right. exact Hy.
Qed.

Lemma earns_nothing_twice existing stats entries :
  List.filter
    (earns (existing ++ map fst (List.filter (earns existing stats) entries)) stats) entries
  = [].
Proof.
  apply filter_none. intros e He. unfold earns at 1.
  destruct (e.2.2 stats) eqn:Hc; [|apply andb_false_r].
  rewrite (earned_then_held _ _ _ e He Hc). reflexivity.
Qed.

Lemma grant_nothing agentId db (l : list (string * (string * string * (Stats -> bool)))) :
  l = [] -> (map fst l, foldl (grant agentId) db l) = ([], db).
Proof. intros ->. reflexivity. Qed.

Lemma checkAndAwardBadges_again agentId db new db1 :
  checkAndAwardBadges agentId db = (new, db1) ->
  checkAndAwardBadges agentId db1 = ([], db1).
Proof.
  destruct (agents db !! agentId) as [agent|] eqn:Ha.
  - rewrite (checkAndAwardBadges_grants agentId agent db Ha).
    set (l := List.filter _ BADGES). intros [= _ <-].
    destruct (grant_all_tables agentId l db) as (Hag & Hs & Hr & _ & _).
    rewrite (checkAndAwardBadges_grants agentId agent) by (rewrite Hag; exact Ha).
    assert (stats_of agentId agent (foldl (grant agentId) db l) = stats_of agentId agent db)
      as -> by (unfold stats_of; rewrite Hs, Hr; reflexivity).
    rewrite held_badges_grant_all. subst l.
    apply grant_nothing, earns_nothing_twice.
  - rewrite (checkAndAwardBadges_missing agentId db Ha). intros [= _ <-].
    apply checkAndAwardBadges_missing, Ha.
Qed.

(** X7. [checkAndAwardBadges] is idempotent: called again on the database
    it has just left, it awards nothing, returns the empty list and changes
    no table. *)
Theorem checkAndAwardBadges_idempotent agentId db :
  let r := checkAndAwardBadges agentId db in
  checkAndAwardBadges agentId (snd r) = ([], snd r).
Proof.
  cbn zeta. destruct (checkAndAwardBadges agentId db) as [new db1] eqn:E.
  cbn [snd]. apply (checkAndAwardBadges_again agentId db new db1 E).
Qed.

(** X8. After [checkAndAwardBadges] an existing agent holds every badge of
    [BADGES] whose predicate is true of the agent's row and counts, and the
    badges reported as new are exactly the earned ones that were not held
    before. *)
Theorem checkAndAwardBadges_complete agentId agent db :
  agents db !! agentId = Some agent ->
  let r := checkAndAwardBadges agentId db in
  (forall e, In e BADGES -> e.2.2 (stats_of agentId agent db) = true ->
     In e.1 (held_badges agentId (snd r)))
  /\ (forall t, In t (fst r) <->
        exists e, In e BADGES /\ e.1 = t /\ e.2.2 (stats_of agentId agent db) = true
                  /\ ~ In t (held_badges agentId db))
  /\ held_badges agentId (snd r) = (held_badges agentId db ++ fst r)%list.
Proof.
  intros Ha. cbn zeta. rewrite (checkAndAwardBadges_grants agentId agent db Ha).
  cbn [fst snd]. rewrite held_badges_grant_all. split; [|split].
  - intros e He Hc. apply has_badge_In, earned_then_held; assumption.
  - intros t. rewrite in_map_iff. split.
    + intros (e & <- & He). apply filter_In in He as [He Hearn].
      unfold earns in Hearn. apply andb_true_iff in Hearn as [Hn Hc].
      exists e. repeat split; try assumption.
      intros Hin. apply has_badge_In in Hin. rewrite Hin in Hn. discriminate.
    + intros (e & He & <- & Hc & Hn). exists e. split; [reflexivity|].
      apply filter_In. split; [exact He|]. unfold earns. rewrite Hc, andb_true_r.
      destruct (has_badge _ _) eqn:Hh; [|reflexivity].
      apply has_badge_In in Hh. contradiction.
  - reflexivity.
Qed.

Lemma checkAndAwardBadges_complete_witness :
  let r := checkAndAwardBadges "agent_c" market in
  In "trusted" (held_badges "agent_c" (snd r)) /\ fst r = ["newcomer"; "trusted"].
Proof.
  destruct (checkAndAwardBadges_complete "agent_c" carol market eq_refl) as (Hheld & _ & _).
  split; [|reflexivity].
  apply (Hheld ("trusted", ("Trusted", "Reached 75 reputation",
                  fun s => Qle_bool 75 (reputation (st_agent s))))); [|reflexivity].
  cbn. auto 20.
Defined.

Lemma NoDup_filter_map_fst {A B} (p : A * B -> bool) (l : list (A * B)) :
  List.NoDup (map fst l) -> List.NoDup (map fst (List.filter p l)).
Proof.
  induction l as [|x l IH]; intros H; [constructor|].
  cbn [map] in H. apply List.NoDup_cons_iff in H as [Hx Hl]. cbn [List.filter].
  destruct (p x); [|apply IH, Hl]. cbn [map]. apply List.NoDup_cons.
  - intros Hin. apply Hx. apply in_map_iff in Hin as (y & Hy & Hin).
    apply filter_In in Hin as [Hin _]. apply in_map_iff. exists y. split; assumption.
  - apply IH, Hl.
Qed.

Lemma BADGES_keys_distinct : List.NoDup (map fst BADGES).
Proof.
  cbn [map BADGES fst].
  repeat (apply List.NoDup_cons;
          [cbn [In]; intros H; repeat destruct H as [H|H]; try discriminate; contradiction|]).
  constructor.
Qed.

Lemma held_badges_In agentId t db :
  In t (held_badges agentId db) <-> In (agentId, t) (map badge_key (badges db)).
Proof.
  unfold held_badges. rewrite !in_map_iff. split.
  - intros (b & <- & Hb). apply filter_In in Hb as [Hb E]. apply String.eqb_eq in E.
    exists b. split; [unfold badge_key; rewrite E; reflexivity|exact Hb].
  - intros (b & [= E1 E2] & Hb). exists b. split; [exact E2|].
    apply filter_In. split; [exact Hb|]. apply String.eqb_eq, E1.
Qed.

(** X9. [checkAndAwardBadges] keeps the rows of [badges] distinct in
    (agent_id, badge_type), the pair that the table declares unique: it
    never awards a badge twice, so the OR IGNORE of its INSERT never has
    anything to ignore; the rows that were there stay, and every new badge
    row comes with one notification. *)
Theorem checkAndAwardBadges_keeps_badges_unique agentId db :
  List.NoDup (map badge_key (badges db)) ->
  let r := checkAndAwardBadges agentId db in
  List.NoDup (map badge_key (badges (snd r)))
  /\ (exists new_rows new_notes,
        badges (snd r) = (badges db ++ new_rows)%list
        /\ notifications (snd r) = (notifications db ++ new_notes)%list
        /\ map badge_key new_rows = map (pair agentId) (fst r)
        /\ length new_notes = length (fst r)).
Proof.
  intros Hnd. cbn zeta.
  destruct (agents db !! agentId) as [agent|] eqn:Ha.
  - rewrite (checkAndAwardBadges_grants agentId agent db Ha).
    set (l := List.filter _ BADGES). cbn [fst snd].
    destruct (grant_all_tables agentId l db) as (_ & _ & _ & Hb & Hn).
    rewrite Hb, Hn.
    assert (map badge_key (map (fun e => mkBadge agentId e.1 e.2.1.1 e.2.1.2) l)
            = map (pair agentId) (map fst l)) as Hkeys.
    { rewrite !map_map. reflexivity. }
    split.
    + rewrite map_app, Hkeys. apply List.NoDup_app; [exact Hnd| |].
      * apply Finite.Injective_map_NoDup; [intros x y [= ->]; reflexivity|].
        apply NoDup_filter_map_fst, BADGES_keys_distinct.
      * intros k Hold Hnew. apply in_map_iff in Hnew as (t & <- & Ht).
        apply held_badges_In in Hold.
        apply in_map_iff in Ht as (e & <- & He). apply filter_In in He as [_ He].
        unfold earns in He. apply andb_true_iff in He as [He _].
        apply has_badge_In in Hold. rewrite Hold in He. discriminate.
    + eexists _, _. split; [reflexivity|]. split; [reflexivity|]. split; [exact Hkeys|].
      rewrite !length_map. reflexivity.
  - rewrite (checkAndAwardBadges_missing agentId db Ha). cbn [fst snd].
    split; [exact Hnd|]. exists [], []. rewrite !app_nil_r. repeat split; reflexivity.
Qed.

Lemma checkAndAwardBadges_keeps_badges_unique_witness :
  List.NoDup (map badge_key (badges (snd (checkAndAwardBadges "agent_c" market)))).
Proof.
  apply (checkAndAwardBadges_keeps_badges_unique "agent_c" market). constructor.
Defined.

(** ** reputation.js: the rank *)

Lemma filter_length_le {A} (p q : A -> bool) l :
  (forall x, In x l -> p x = true -> q x = true) ->
  (length (List.filter p l) <= length (List.filter q l))%nat.
Proof.
  induction l as [|x l IH]; intros H; [reflexivity|]. cbn [List.filter].
  assert (length (List.filter p l) <= length (List.filter q l))%nat as IH'.
  { apply IH. intros y Hy. apply H. right. exact Hy. }
  destruct (p x) eqn:Hp.
  - rewrite (H x (or_introl eq_refl) Hp). cbn [length]. lia.
  - destruct (q x); cbn [length]; lia.
Qed.

Lemma filter_length_lt {A} (p q : A -> bool) l y :
  (forall x, In x l -> p x = true -> q x = true) ->
  In y l -> p y = false -> q y = true ->
  (length (List.filter p l) < length (List.filter q l))%nat.
Proof.
  induction l as [|x l IH]; intros H Hy Hpy Hqy; [destruct Hy|]. cbn [List.filter].
  assert (forall x, In x l -> p x = true -> q x = true) as H'
    by (intros z Hz; apply H; right; exact Hz).
  destruct Hy as [->|Hy].
  - rewrite Hpy, Hqy. cbn [length]. pose proof (filter_length_le p q l H'). lia.
  - specialize (IH H' Hy Hpy Hqy). destruct (p x) eqn:Hp.
    + rewrite (H x (or_introl eq_refl) Hp). cbn [length]. lia.
    + destruct (q x); cbn [length]; lia.
Qed.

Lemma Qle_bool_false x y : Qle_bool x y = false <-> (y < x)%Q.
Proof.
  split.
  - intros H. apply Qnot_le_lt. intros Hle. apply Qle_bool_iff in Hle. congruence.
  - intros H. destruct (Qle_bool x y) eqn:E; [|reflexivity].
    apply Qle_bool_iff in E. exfalso. exact (Qlt_not_le _ _ H E).
Qed.

(** X10. The reputation rank orders agents by score: an agent's rank lies
    between 1 and the number of agents, a strictly higher score gives a
    strictly smaller rank, and equal scores share a rank. *)
Theorem getReputationRank_orders db id_a a id_b b :
  agents db !! id_a = Some a ->
  agents db !! id_b = Some b ->
  let rank id := fst (getReputationRank id db) in
  1 <= rank id_a <= Z.of_nat (size (agents db))
  /\ ((reputation a < reputation b)%Q -> rank id_b < rank id_a)
  /\ ((reputation a == reputation b)%Q -> rank id_a = rank id_b).
Proof.
  intros Ha Hb. unfold getReputationRank, query. cbn [fst]. rewrite Ha, Hb.
  unfold count_rows.
  assert (In (id_a, a) (map_to_list (agents db))) as Hina
    by (apply list_elem_of_In, elem_of_map_to_list, Ha).
  split; [|split].
  - split; [lia|].
    assert (List.filter (fun _ : string * Agent => true) (map_to_list (agents db))
            = map_to_list (agents db)) as Hall.
    { clear. induction (map_to_list (agents db)) as [|x l IH]; [reflexivity|].
      cbn [List.filter]. f_equal. exact IH. }
    pose proof (filter_length_lt
      (fun kv : string * Agent => negb (Qle_bool (reputation kv.2) (reputation a)))
      (fun _ => true) (map_to_list (agents db)) (id_a, a)) as Hlt.
    rewrite Hall, length_map_to_list in Hlt.
    enough (length (List.filter
              (fun kv : string * Agent => negb (Qle_bool (reputation kv.2) (reputation a)))
              (map_to_list (agents db))) < size (agents db))%nat by lia.
    apply Hlt; [reflexivity|exact Hina| |reflexivity].
    cbn [snd]. apply negb_false_iff, Qle_bool_iff, Qle_refl.
  - intros Hlt.
    enough (length (List.filter
              (fun kv : string * Agent => negb (Qle_bool (reputation kv.2) (reputation b)))
              (map_to_list (agents db)))
            < length (List.filter
              (fun kv : string * Agent => negb (Qle_bool (reputation kv.2) (reputation a)))
              (map_to_list (agents db))))%nat by lia.
    apply (filter_length_lt _ _ _ (id_b, b)).
    + intros [k x] _. cbn [snd]. rewrite !negb_true_iff, !Qle_bool_false.
      intros H. exact (Qlt_trans _ _ _ Hlt H).
    + apply list_elem_of_In, elem_of_map_to_list, Hb.
    + cbn [snd]. apply negb_false_iff, Qle_bool_iff, Qle_refl.
    + cbn [snd]. apply negb_true_iff, Qle_bool_false, Hlt.
  - intros Heq. f_equal. f_equal. f_equal.
    apply filter_ext. intros [k x]. cbn [snd]. f_equal.
    destruct (Qle_bool (reputation x) (reputation a)) eqn:E1,
             (Qle_bool (reputation x) (reputation b)) eqn:E2; try reflexivity.
    + apply Qle_bool_iff in E1. rewrite Heq in E1. apply Qle_bool_iff in E1. congruence.
    + apply Qle_bool_iff in E2. rewrite <- Heq in E2. apply Qle_bool_iff in E2. congruence.
Qed.

Lemma getReputationRank_orders_witness :
  fst (getReputationRank "agent_c" market) < fst (getReputationRank "agent_a" market).
Proof.
  apply (getReputationRank_orders market "agent_a" alice "agent_c" carol eq_refl eq_refl).
  reflexivity.
Defined.

(** ** reviews.js *)

Lemma checkAndAwardBadges_reviews agentId db :
  reviews (snd (checkAndAwardBadges agentId db)) = reviews db
  /\ skill_endorsements (snd (checkAndAwardBadges agentId db)) = skill_endorsements db.
Proof.
  destruct (agents db !! agentId) as [agent|] eqn:Ha.
  - rewrite (checkAndAwardBadges_grants agentId agent db Ha). cbn [snd].
    destruct (grant_all_tables agentId
                (List.filter (earns (held_badges agentId db) (stats_of agentId agent db)) BADGES)
                db) as (_ & Hs & Hr & _). auto.
  - rewrite (checkAndAwardBadges_missing agentId db Ha). auto.
Qed.

Lemma recordReputationEvent_reviews agentId eventType options db :
  reviews (snd (recordReputationEvent agentId eventType options db)) = reviews db
  /\ skill_endorsements (snd (recordReputationEvent agentId eventType options db))
     = skill_endorsements db.
Proof.
  unfold recordReputationEvent.
  destruct (lookup_event REPUTATION_EVENTS eventType) as [[base d]|];
    [|destruct (inherited eventType); auto].
  cbv beta iota zeta delta [bind exec ret createNotification].
  match goal with |- context [checkAndAwardBadges ?a ?s] =>
    destruct (checkAndAwardBadges_reviews a s) as [Hr Hs];
    destruct (checkAndAwardBadges a s) as [nb db1] end.
  cbn [snd] in Hr, Hs. destruct (significant _); cbn [snd]; rewrite ?Hr, ?Hs; auto.
Qed.

Lemma after_event_insert_review agentId eventType options r db :
  ledger (after_event agentId eventType options (insert_review r db))
  = ledger (after_event agentId eventType options db).
Proof.
  unfold after_event. destruct (lookup_event _ _) as [[base d]|]; reflexivity.
Qed.

Lemma rating_in_range rating :
  (sanitizeInt rating rating_options <? 1) || (sanitizeInt rating rating_options >? 5) = false ->
  1 <= sanitizeInt rating rating_options <= 5.
Proof.
  intros H. apply orb_false_iff in H as [H1 H2].
  apply Z.ltb_ge in H1. rewrite Z.gtb_ltb in H2. apply Z.ltb_ge in H2. lia.
Qed.

Ltac review_tail :=
  match goal with
  | |- context [review_event ?n] => destruct (review_event n) as [eventType|]
  end;
  [match goal with
   | |- context [recordReputationEvent ?a ?t ?o (insert_review ?r ?s)] =>
       let Hl := fresh "Hl" in
       let Hr := fresh "Hr" in
       pose proof (recordReputationEvent_ledger a t o (insert_review r s)) as Hl;
       rewrite (after_event_insert_review a t o r s) in Hl;
       destruct (recordReputationEvent_reviews a t o (insert_review r s)) as [Hr _];
       destruct (recordReputationEvent a t o (insert_review r s)) as [res db1];
       cbn [snd] in Hl, Hr
   end
  |];
  eexists;
  repeat (split; [first [reflexivity|assumption|eexists; reflexivity|solve [auto]]|]);
  first [assumption|reflexivity].

(** What a review request does: nothing, with an error answer, or one new
    row and at most one reputation event. *)
Lemma submitReview_cases db auth task_id rating :
  (exists code msg, submitReview auth task_id rating db = (Err code msg, db))
  \/ (exists caller tid task reviewee db',
        auth = Some caller /\ is_Some (agents db !! caller)
        /\ str_or_null task_id = Some tid
        /\ tasks db !! tid = Some task /\ status task = completed
        /\ (requester_id task = caller /\ worker_id task = Some reviewee
            \/ requester_id task <> caller /\ worker_id task = Some caller
               /\ reviewee = requester_id task)
        /\ has_review tid caller db = false
        /\ 1 <= sanitizeInt rating rating_options <= 5
        /\ submitReview auth task_id rating db = (Ok 201 "Review submitted", db')
        /\ reviews db'
           = (reviews db ++ [mkReview tid caller reviewee (sanitizeInt rating rating_options)])%list
        /\ ledger db'
           = ledger (match review_event (sanitizeInt rating rating_options) with
                     | Some eventType =>
                         after_event reviewee eventType
                           (event_options None (Some tid) (Some caller)) db
                     | None => db
                     end)).
Proof.
  unfold submitReview. run_handler.
  destruct auth as [caller|]; [|left; eexists _, _; reflexivity].
  destruct (agents db !! caller) as [agent|] eqn:Ha; [|left; eexists _, _; reflexivity].
  destruct (str_or_null task_id) as [tid|] eqn:Htid; [|left; eexists _, _; reflexivity].
  destruct (truthy rating); cbn [negb]; [|left; eexists _, _; reflexivity].
  destruct (_ || _) eqn:Hrange; [left; eexists _, _; reflexivity|].
  apply rating_in_range in Hrange.
  destruct (tasks db !! tid) as [task|] eqn:Ht; [|left; eexists _, _; reflexivity].
  destruct (decide (status task = completed)) as [Hst|Hst];
    [rewrite bool_decide_eq_true_2 by exact Hst
    |rewrite bool_decide_eq_false_2 by exact Hst; left; eexists _, _; reflexivity].
  cbn [negb].
  destruct (String.eqb_spec (requester_id task) caller) as [Hreq|Hreq].
  - destruct (has_review tid caller db) eqn:Hex; [left; eexists _, _; reflexivity|].
    destruct (worker_id task) as [reviewee|] eqn:Hw; [|left; eexists _, _; reflexivity].
    right. exists caller, tid, task, reviewee.
    rewrite Ha, Ht. review_tail.
  - destruct (decide (worker_id task = Some caller)) as [Hw|Hw];
      [rewrite bool_decide_eq_true_2 by exact Hw
      |rewrite bool_decide_eq_false_2 by exact Hw; left; eexists _, _; reflexivity].
    destruct (has_review tid caller db) eqn:Hex; [left; eexists _, _; reflexivity|].
    right. exists caller, tid, task, (requester_id task).
    rewrite Ha, Ht. review_tail.
Qed.

(** ** skills.js: endorsements *)

Lemma held_badges_insert_notification agentId n db :
  held_badges agentId (insert_notification n db) = held_badges agentId db.
Proof. reflexivity. Qed.

(** A known event ends with the badge check: whatever badge the agent
    has earned by then is held afterwards. *)
Lemma recordReputationEvent_awards agentId eventType options db ag base d e :
  agents db !! agentId = Some ag ->
  lookup_event REPUTATION_EVENTS eventType = Some (base, d) ->
  In e BADGES ->
  e.2.2 (stats_of agentId
           (set_reputation
              (clamp_reputation
                 (reputation ag + base * multiplier_or_1 (opt_multiplier options)))%Q ag)
           db) = true ->
  In e.1 (held_badges agentId (snd (recordReputationEvent agentId eventType options db))).
Proof.
  intros Ha Hk He Hcheck. unfold recordReputationEvent. rewrite Hk.
  cbv beta iota zeta delta [bind exec ret createNotification].
  match goal with |- context [checkAndAwardBadges agentId ?s] => set (mid := s) end.
  set (ag' := set_reputation _ ag) in Hcheck.
  assert (agents mid !! agentId = Some ag') as Hmid
    by (unfold mid; cbn; rewrite lookup_alter_eq, Ha; reflexivity).
  rewrite (checkAndAwardBadges_grants agentId ag' mid Hmid).
  assert (stats_of agentId ag' mid = stats_of agentId ag' db) as Hstats by reflexivity.
  set (L := List.filter _ BADGES).
  assert (In e.1 (held_badges agentId (foldl (grant agentId) mid L))) as Hheld.
  { rewrite held_badges_grant_all. apply has_badge_In, earned_then_held; [exact He|].
    rewrite Hstats. exact Hcheck. }
  clearbody L mid. cbv beta iota zeta.
  destruct (significant _); cbn [snd]; rewrite ?held_badges_insert_notification; exact Hheld.
Qed.

Lemma existsb_In_eqb x l : existsb (String.eqb x) l = true <-> In x l.
Proof.
  rewrite existsb_exists. split.
  - intros (y & Hy & E). apply String.eqb_eq in E. subst. exact Hy.
  - intros H. exists x. split; [exact H|apply String.eqb_refl].
Qed.

(** What an endorsement request does: nothing, with an error answer, or
    one new row, one SKILL_ENDORSED event and the badge. *)
Lemma endorseSkill_cases db auth agent_id skill :
  (exists code msg, endorseSkill auth agent_id skill db = (Err code msg, db))
  \/ (exists caller ca target ta sk db',
        auth = Some caller /\ agents db !! caller = Some ca
        /\ str_or_null agent_id = Some target /\ str_or_null skill = Some sk
        /\ target <> caller /\ agents db !! target = Some ta
        /\ In (trim (toLowerCase sk)) (map toLowerCase (skills ta))
        /\ existsb (same_endorsement target caller (trim (toLowerCase sk)))
             (skill_endorsements db) = false
        /\ workedTogether caller target db = true
        /\ endorseSkill auth agent_id skill db = (Ok 201 "Skill endorsed successfully", db')
        /\ skill_endorsements db'
           = (skill_endorsements db ++ [mkEndorsement target caller sk])%list
        /\ ledger db'
           = ledger (after_event target "SKILL_ENDORSED"
                       (mkEventOptions None (Some (endorsement_reason sk (name ca)))
                          None (Some caller)) db)
        /\ In "endorsed" (held_badges target db')).
Proof.
  unfold endorseSkill. run_handler.
  destruct auth as [caller|]; [|left; eexists _, _; reflexivity].
  destruct (agents db !! caller) as [ca|] eqn:Ha; [|left; eexists _, _; reflexivity].
  destruct (str_or_null agent_id) as [target|] eqn:Htarget; [|left; eexists _, _; reflexivity].
  destruct (str_or_null skill) as [sk|] eqn:Hsk; [|left; eexists _, _; reflexivity].
  destruct (String.eqb_spec target caller) as [|Hne]; [left; eexists _, _; reflexivity|].
  destruct (agents db !! target) as [ta|] eqn:Ht; [|left; eexists _, _; reflexivity].
  destruct (existsb (String.eqb (trim (toLowerCase sk))) _) eqn:Hlisted; cbn [negb];
    [|left; eexists _, _; reflexivity].
  destruct (existsb (same_endorsement target caller (trim (toLowerCase sk)))
              (skill_endorsements db)) eqn:Hexisting;
    [left; eexists _, _; reflexivity|].
  destruct (workedTogether caller target db) eqn:Hworked; cbn [negb];
    [|left; eexists _, _; reflexivity].
  match goal with
  | |- context [if existsb ?f (skill_endorsements db) then _ else _] =>
      destruct (existsb f (skill_endorsements db)) eqn:Hclash
  end; [left; eexists _, _; reflexivity|].
  right. exists caller, ca, target, ta, sk.
  set (opts := mkEventOptions None (Some (endorsement_reason sk (name ca))) None (Some caller)).
  set (row := mkEndorsement target caller sk).
  pose proof (recordReputationEvent_ledger target "SKILL_ENDORSED" opts
                (insert_endorsement row db)) as Hl.
  destruct (recordReputationEvent_reviews target "SKILL_ENDORSED" opts
              (insert_endorsement row db)) as [_ Hs].
  assert (In "endorsed"
            (held_badges target
               (snd (recordReputationEvent target "SKILL_ENDORSED" opts
                       (insert_endorsement row db))))) as Hbadge.
  { apply (recordReputationEvent_awards target "SKILL_ENDORSED" opts
             (insert_endorsement row db) ta (1 # 2)%Q "Skill endorsed by another agent"
             ("endorsed", ("Endorsed", "Received skill endorsement from another agent",
                fun s => (endorsement_count s >=? 1)%Z)));
      [exact Ht|reflexivity|cbn; auto 20|].
    cbn [snd stats_of endorsement_count insert_endorsement skill_endorsements].
    unfold count_rows. rewrite List.filter_app. cbn [List.filter row endorsed_agent_id].
    rewrite String.eqb_refl, length_app. cbn [length].
    apply Z.geb_le. lia. }
  destruct (recordReputationEvent target "SKILL_ENDORSED" opts (insert_endorsement row db))
    as [res db1].
  cbn [snd] in Hl, Hs, Hbadge. eexists.
  do 6 (split; [first [reflexivity|assumption]|]).
  split; [apply existsb_In_eqb, Hlisted|].
  do 3 (split; [first [reflexivity|assumption]|]).
  split; [exact Hs|]. split; [|exact Hbadge].
  transitivity (ledger db1); [reflexivity|]. rewrite Hl. unfold after_event. destruct (lookup_event _ _) as [[base d]|]; reflexivity.
Qed.

(** ** transactions.js: the transfer route *)

Lemma sum_credits_perm (l1 l2 : list (string * Agent)) :
  l1 ≡ₚ l2 ->
  foldr Z.add 0 (map (fun kv => credits kv.2) l1)
  = foldr Z.add 0 (map (fun kv => credits kv.2) l2).
Proof.
  induction 1 as [|x l1 l2 _ IH|x y l|l1 l2 l3 _ IH1 _ IH2]; cbn; lia.
Qed.

Lemma total_credits_lookup db i a :
  agents db !! i = Some a ->
  total_credits db
  = credits a
    + foldr Z.add 0 (map (fun kv => credits kv.2) (map_to_list (delete i (agents db)))).
Proof.
  intros Hi. unfold total_credits.
  rewrite <- (sum_credits_perm _ _ (map_to_list_delete (agents db) i a Hi)). reflexivity.
Qed.

Lemma total_credits_update db f i a :
  agents db !! i = Some a ->
  total_credits (update_agent f i db) = total_credits db - credits a + credits (f a).
Proof.
  intros Hi.
  assert (agents (update_agent f i db) !! i = Some (f a)) as Hi'
    by (cbn; rewrite lookup_alter_eq, Hi; reflexivity).
  rewrite (total_credits_lookup _ i (f a) Hi'), (total_credits_lookup db i a Hi).
  cbn [update_agent with_agents agents]. rewrite delete_alter_eq. lia.
Qed.

(** What a transfer request does. *)
Lemma transferCredits_cases b auth to_agent amount memo nano r b' :
  transferCredits auth to_agent amount memo nano b = Some (r, b') ->
  (exists code msg, r = Err code msg /\ code < 500 /\ b' = b)
  \/ (exists sender sa recipient n,
        auth = Some sender /\ agents (bank_db b) !! sender = Some sa
        /\ str_or_null to_agent = Some recipient /\ recipient <> sender
        /\ is_Some (agents (bank_db b) !! recipient)
        /\ parseInt_auto amount = Some n /\ 1 <= n <= credits sa
        /\ credits_of sender (bank_db b') = Some (credits sa - n)
        /\ credits_of recipient (bank_db b')
           = (fun c => c + n) <$> credits_of recipient (bank_db b)
        /\ (forall k, k <> sender -> k <> recipient ->
              agents (bank_db b') !! k = agents (bank_db b) !! k)
        /\ agents (bank_db b')
           = alter (fun a => set_credits (credits a + n) a) recipient
               (alter (fun a => set_credits (credits a - n) a) sender (agents (bank_db b)))
        /\ total_credits (bank_db b') = total_credits (bank_db b)
        /\ tasks (bank_db b') = tasks (bank_db b)
        /\ disputes (bank_db b') = disputes (bank_db b)
        /\ (r = Ok 201 "Transfer completed"
            /\ transfers b !! ("xfer_" ++ nano) = None
            /\ transfers b'
               = <["xfer_" ++ nano := mkTransfer sender recipient n (str_or_null memo)]>
                   (transfers b)
            /\ map tx_summary (transactions (bank_db b'))
               = (map tx_summary (transactions (bank_db b))
                  ++ [(sender, "transfer_out", - n); (recipient, "transfer_in", n)])%list
            \/ r = Err 500 "Transfer failed"
               /\ is_Some (transfers b !! ("xfer_" ++ nano))
               /\ transfers b' = transfers b
               /\ transactions (bank_db b') = transactions (bank_db b))).
Proof.
  unfold transferCredits, req_agent, query. cbn [fst].
  destruct auth as [sender|]; [|intros [= <- <-]; left; eexists _, _; repeat split; lia].
  destruct (agents (bank_db b) !! sender) as [sa|] eqn:Hs;
    [|intros [= <- <-]; left; eexists _, _; repeat split; lia].
  destruct (str_or_null to_agent) as [recipient|];
    [|intros [= <- <-]; left; eexists _, _; repeat split; lia].
  destruct (truthy amount); cbn [negb];
    [|intros [= <- <-]; left; eexists _, _; repeat split; lia].
  cbv zeta. destruct (parseInt_auto amount) as [n|]; cbn [nan_ltb nan_gtb]; cycle 1.
  { destruct (String.eqb recipient sender);
      [intros [= <- <-]; left; eexists _, _; repeat split; lia|].
    destruct (agents (bank_db b) !! recipient);
      [discriminate|intros [= <- <-]; left; eexists _, _; repeat split; lia]. }
  destruct (Z.ltb_spec n 1) as [|Hmin];
    [intros [= <- <-]; left; eexists _, _; repeat split; lia|].
  rewrite Z.gtb_ltb. destruct (Z.ltb_spec (credits sa) n) as [|Hfunds];
    [intros [= <- <-]; left; eexists _, _; repeat split; lia|].
  destruct (String.eqb_spec recipient sender) as [|Hne];
    [intros [= <- <-]; left; eexists _, _; repeat split; lia|].
  destruct (agents (bank_db b) !! recipient) as [ra|] eqn:Hr;
    [|intros [= <- <-]; left; eexists _, _; repeat split; lia].
  set (db1 := update_agent (fun a => set_credits (credits a - n) a) sender (bank_db b)).
  set (db2 := update_agent (fun a => set_credits (credits a + n) a) recipient db1).
  assert (agents db1 !! recipient = Some ra) as Hr1
    by (cbn; rewrite lookup_alter_ne by congruence; exact Hr).
  assert (total_credits db2 = total_credits (bank_db b)) as Htotal.
  { unfold db2. rewrite (total_credits_update db1 _ recipient ra Hr1).
    unfold db1. rewrite (total_credits_update (bank_db b) _ sender sa Hs). cbn. lia. }
  assert (credits_of sender db2 = Some (credits sa - n)) as Hcs.
  { unfold credits_of. cbn. rewrite lookup_alter_ne by congruence.
    rewrite lookup_alter_eq, Hs. reflexivity. }
  assert (credits_of recipient db2 = (fun c => c + n) <$> credits_of recipient (bank_db b))
    as Hcr.
  { unfold credits_of. cbn. rewrite lookup_alter_eq.
    rewrite lookup_alter_ne by congruence. rewrite Hr. reflexivity. }
  assert (forall k, k <> sender -> k <> recipient ->
            agents db2 !! k = agents (bank_db b) !! k) as Hothers.
  { intros k Hk1 Hk2. cbn. rewrite !lookup_alter_ne by congruence. reflexivity. }
  destruct (transfers b !! ("xfer_" ++ nano)) as [clash|] eqn:Hclash.
  - intros [= <- <-]. right. exists sender, sa, recipient, n. cbn [bank_db transfers].
    repeat (split; [first [reflexivity|assumption|lia|rewrite Hr; eexists; reflexivity]|]).
    right. repeat split. eexists; reflexivity.
  - run_handler. intros [= <- <-]. right. exists sender, sa, recipient, n.
    cbn [bank_db transfers].
    change (agents (insert_notification _ (insert_transaction _ (insert_transaction _ db2))))
      with (agents db2).
    repeat (split; [first [reflexivity|assumption|lia|rewrite Hr; eexists; reflexivity]|]).
    left. repeat split. project_ledger. rewrite !map_app. rewrite <- app_assoc. reflexivity.
Qed.

(** ** The routes as moves on balances, tasks and disputes *)

Lemma balance_alter_pay (f : Agent -> Agent) d i (m : gmap string Agent) :
  (forall a, credits (f a) = credits a + d) ->
  credits <$> alter f i m = pay d i (credits <$> m).
Proof.
  intros Hf. unfold pay. apply map_eq. intros k.
  rewrite lookup_fmap, !lookup_alter. case_decide.
  - rewrite lookup_fmap. destruct (m !! i); cbn; [rewrite Hf|]; reflexivity.
  - rewrite lookup_fmap. reflexivity.
Qed.

Lemma balance_alter_keep (f : Agent -> Agent) i (m : gmap string Agent) :
  (forall a, credits (f a) = credits a) ->
  credits <$> alter f i m = credits <$> m.
Proof.
  intros Hf. apply map_eq. intros k.
  rewrite !lookup_fmap, lookup_alter. case_decide; [subst k|reflexivity].
  destruct (m !! i); cbn; [rewrite Hf|]; reflexivity.
Qed.

Lemma balance_lookup db id a :
  agents db !! id = Some a -> balance (core db) !! id = Some (credits a).
Proof. intros H. cbn. rewrite lookup_fmap, H. reflexivity. Qed.

Lemma sanitizeInt_reward_le v : sanitizeInt v reward_options <= 1000000.
Proof.
  unfold sanitizeInt, reward_options. destruct (parseInt v) as [n|]; cbn; [|lia].
  destruct (Z.ltb_spec n 1); [lia|]. rewrite Z.gtb_ltb.
  destruct (Z.ltb_spec 1000000 n); lia.
Qed.

Lemma sum_app (l l' : list Z) :
  foldr Z.add 0 (l ++ l') = foldr Z.add 0 l + foldr Z.add 0 l'.
Proof. induction l as [|y l IH]; cbn; lia. Qed.

Lemma tx_total_summary db :
  tx_total db = foldr Z.add 0 (map snd (map tx_summary (transactions db))).
Proof. unfold tx_total. rewrite map_map. reflexivity. Qed.

Ltac no_clash :=
  cbn [unrecorded]; let H := fresh in intros H; contradiction (H eq_refl).

(** The move [tr] explains the run: the guard is left to prove, then the
    equation of the cores by [tac]. *)
Ltac tally :=
  unfold tx_total; project_ledger; use_ledger_facts;
  rewrite ?map_app, ?sum_app; cbn [map amount recorded reward foldr];
  repeat match goal with
         | H : worker_id ?t = _ |- context [worker_id ?t] => rewrite H
         end;
  lia.

Ltac explained_by tr tac :=
  exists tr; split; [|split; [tac|split; [tally|no_clash]]].

Ltac idle_move :=
  exists Idle;
  split; [exact I|split; [reflexivity|split; [exact (eq_sym (Z.add_0_r _))|no_clash]]].

Ltac idle := split; [idle_move|intros; reflexivity].

Ltac core_fields :=
  unfold core; project_ledger; use_ledger_facts; cbn [move balance board cases].

Lemma createTask_conforms auth body nano db :
  conforms db (createTask auth body nano db).
Proof.
  unfold createTask. run_handler.
  destruct auth as [agent_id|]; [|idle].
  destruct (agents db !! agent_id) as [agent|] eqn:Ha; [|idle].
  destruct (_ || _); [idle|].
  destruct (String.eqb (sanitizeTitle _) ""); [idle|].
  destruct (String.eqb (sanitizeDescription _) ""); [idle|].
  destruct (Z.ltb_spec (sanitizeInt (rawReward body) reward_options) 1) as [|Hmin]; [idle|].
  destruct (Z.ltb_spec (credits agent) (sanitizeInt (rawReward body) reward_options))
    as [|Hfunds]; [idle|].
  project_ledger.
  destruct (tasks db !! ("task_" ++ nano)) as [clash|] eqn:Hclash.
  - split; [|intros code msg [= <- <-]; lia].
    exists (PostClash agent_id (sanitizeInt (rawReward body) reward_options)).
    split; [|split; [|split; [tally|intros _; eexists; reflexivity]]].
    + split; [|exact Hmin]. exists (credits agent).
      split; [apply balance_lookup, Ha|exact Hfunds].
    + core_fields. f_equal. apply balance_alter_pay. intros a. cbn. lia.
  - step_badges. split; [|intros code msg; discriminate].
    match type of Htasks with
    | _ = <[_ := ?t]> _ =>
        explained_by (Post agent_id ("task_" ++ nano) t)
          ltac:(core_fields; f_equal; apply balance_alter_pay; intros a; cbn; lia)
    end.
    cbn [allowed reward status worker_id requester_id].
    split; [exists (credits agent); split; [apply balance_lookup, Ha|exact Hfunds]|].
    pose proof (sanitizeInt_reward_le (rawReward body)).
    repeat split; try reflexivity; try lia. exact Hclash.
Qed.

Ltac balance_norm :=
  repeat (rewrite balance_alter_keep by (intros; reflexivity));
  repeat (erewrite balance_alter_pay by (intros; cbn; reflexivity));
  repeat (rewrite balance_alter_keep by (intros; reflexivity)).

Lemma claimTask_conforms auth id db : conforms db (claimTask auth id db).
Proof.
  destruct auth as [caller|]; [|unfold claimTask; run_handler; idle].
  destruct (agents db !! caller) as [a|] eqn:Ha;
    [|unfold claimTask; run_handler; rewrite Ha; idle].
  destruct (tasks db !! id) as [task|] eqn:Ht;
    [|unfold claimTask; run_handler; rewrite Ha, Ht; idle].
  destruct (decide (status task = open)) as [Hopen|Hst];
    [|rewrite (claimTask_too_late db id task caller a Ha Ht Hst); idle].
  destruct (String.eqb_spec (requester_id task) caller) as [Hown|Hne].
  - unfold claimTask. run_handler. rewrite Ha, Ht.
    rewrite bool_decide_eq_true_2 by exact Hopen. cbn [negb].
    rewrite Hown, String.eqb_refl. idle.
  - rewrite (claimTask_wins db id task caller a Ha Ht Hopen Hne).
    split; [|intros code msg; discriminate].
    explained_by (Claim caller id) ltac:(core_fields; reflexivity).
    split; [rewrite (balance_lookup db caller a Ha); eexists; reflexivity|].
    exists task. repeat split; assumption.
Qed.

Lemma submitWork_conforms auth id rawProof db : conforms db (submitWork auth id rawProof db).
Proof.
  unfold submitWork. run_handler.
  destruct auth as [agent_id|]; [|idle].
  destruct (agents db !! agent_id) as [agent|] eqn:Ha; [|idle].
  destruct (opt_truthy rawProof); cbn [negb]; [|idle].
  destruct (tasks db !! id) as [task|] eqn:Ht; [|idle].
  destruct (decide (worker_id task = Some agent_id)) as [Hw|Hw];
    [rewrite bool_decide_eq_true_2 by exact Hw
    |rewrite bool_decide_eq_false_2 by exact Hw; idle].
  destruct (decide (status task = claimed)) as [Hst|Hst];
    [rewrite bool_decide_eq_true_2 by exact Hst
    |rewrite bool_decide_eq_false_2 by exact Hst; idle].
  cbn [negb]. split; [|intros code msg; discriminate].
  explained_by (Submit id (sanitizeProof (default "" rawProof)))
    ltac:(core_fields; reflexivity).
  exists task. rewrite Hw. repeat split; try assumption. eexists; reflexivity.
Qed.

Lemma approveWork_conforms agent_id id task reason db :
  tasks db !! id = Some task -> status task = submitted ->
  conforms db (approveWork agent_id id task reason db).
Proof.
  intros Ht Hst. unfold approveWork.
  destruct (worker_id task) as [worker|] eqn:Hw; run_handler.
  - step_event.
    destruct (reward task >=? 50); run_handler; [step_event|];
      (match goal with |- context [agents ?s !! worker] => destruct (agents s !! worker) as [w|] end;
       [destruct (tasks_completed w =? 1); run_handler; [step_event|]|]);
      step_badges;
      (split; [|intros code msg; discriminate]);
      explained_by (Approve id task)
        ltac:(core_fields; rewrite Hw; f_equal; balance_norm; reflexivity);
      split; assumption.
  - split; [|intros code msg [= <- <-]; lia].
    explained_by (Approve id task) ltac:(core_fields; rewrite Hw; reflexivity).
    split; assumption.
Qed.

Lemma rejectWork_conforms agent_id id task reason db :
  tasks db !! id = Some task -> status task = submitted ->
  conforms db (rejectWork agent_id id task reason db).
Proof.
  intros Ht Hst. unfold rejectWork.
  destruct (worker_id task) as [worker|] eqn:Hw; run_handler.
  - step_event. split; [|intros code msg; discriminate].
    explained_by (Reject id task) ltac:(core_fields; f_equal; balance_norm; reflexivity).
    split; assumption.
  - split; [|intros code msg [= <- <-]; lia].
    explained_by (Reject id task) ltac:(core_fields; f_equal; balance_norm; reflexivity).
    split; assumption.
Qed.

Lemma validateWork_conforms auth id approved reason db :
  conforms db (validateWork auth id approved reason db).
Proof.
  unfold validateWork. run_handler.
  destruct auth as [agent_id|]; [|idle].
  destruct (agents db !! agent_id) as [agent|] eqn:Ha; [|idle].
  destruct approved; [idle|..].
  all: destruct (tasks db !! id) as [task|] eqn:Ht; [|idle].
  all: destruct (String.eqb (requester_id task) agent_id); cbn [negb]; [|idle].
  all: destruct (decide (status task = submitted)) as [Hst|Hst];
    [rewrite bool_decide_eq_true_2 by exact Hst
    |rewrite bool_decide_eq_false_2 by exact Hst; idle].
  all: cbn [negb].
  all: match goal with |- context [truthy ?v] => destruct (truthy v) end.
  all: first [apply approveWork_conforms; assumption
             |apply rejectWork_conforms; assumption].
Qed.

Lemma abandonTask_conforms auth id db : conforms db (abandonTask auth id db).
Proof.
  unfold abandonTask. run_handler.
  destruct auth as [agent_id|]; [|idle].
  destruct (agents db !! agent_id) as [agent|] eqn:Ha; [|idle].
  destruct (tasks db !! id) as [task|] eqn:Ht; [|idle].
  destruct (decide (worker_id task = Some agent_id)) as [Hw|Hw];
    [rewrite bool_decide_eq_true_2 by exact Hw
    |rewrite bool_decide_eq_false_2 by exact Hw; idle].
  destruct (decide (status task = claimed)) as [Hst|Hst];
    [rewrite bool_decide_eq_true_2 by exact Hst
    |rewrite bool_decide_eq_false_2 by exact Hst; idle].
  cbn [negb]. step_event. split; [|intros code msg; discriminate].
  explained_by (Abandon id) ltac:(core_fields; f_equal; balance_norm; reflexivity).
  exists task. rewrite Hw. repeat split; try assumption. eexists; reflexivity.
Qed.

Lemma cancelTask_conforms auth id db : conforms db (cancelTask auth id db).
Proof.
  unfold cancelTask. run_handler.
  destruct auth as [agent_id|]; [|idle].
  destruct (agents db !! agent_id) as [agent|] eqn:Ha; [|idle].
  destruct (tasks db !! id) as [task|] eqn:Ht; [|idle].
  destruct (String.eqb_spec (requester_id task) agent_id) as [Hreq|]; cbn [negb]; [|idle].
  destruct (decide (status task = open)) as [Hst|Hst];
    [rewrite bool_decide_eq_true_2 by exact Hst
    |rewrite bool_decide_eq_false_2 by exact Hst; idle].
  cbn [negb]. split; [|intros code msg; discriminate].
  explained_by (Cancel id task)
    ltac:(core_fields; rewrite Hreq; f_equal; balance_norm; reflexivity).
  split; assumption.
Qed.

Lemma has_open_dispute_false task_id db k d :
  has_open_dispute task_id db = false ->
  disputes db !! k = Some d -> dispute_task_id d = task_id ->
  dispute_status d = dispute_resolved.
Proof.
  unfold has_open_dispute. intros Hnone Hk Hid.
  destruct (dispute_status d) eqn:Hst; [exfalso|reflexivity].
  assert (existsb (fun kd : string * Dispute =>
                     String.eqb (dispute_task_id kd.2) task_id
                     && bool_decide (dispute_status kd.2 = dispute_open))
                  (map_to_list (disputes db)) = true) as Hex; [|congruence].
  apply existsb_exists. exists (k, d). split.
  - apply list_elem_of_In, elem_of_map_to_list, Hk.
  - cbn [snd]. rewrite Hid, String.eqb_refl, Hst. reflexivity.
Qed.

Lemma raiseDispute_conforms auth task_id rawReason rawEvidence nano db :
  conforms db (raiseDispute auth task_id rawReason rawEvidence nano db).
Proof.
  unfold raiseDispute. run_handler.
  destruct auth as [agent_id|]; [|idle].
  destruct (agents db !! agent_id) as [agent|] eqn:Ha; [|idle].
  destruct (str_or_null task_id) as [tid|]; [|idle].
  destruct (str_or_null rawReason) as [rsn|]; [|idle].
  destruct (tasks db !! tid) as [task|] eqn:Ht; [|idle].
  destruct (negb (String.eqb (requester_id task) agent_id) && _); [idle|].
  destruct (bool_decide (status task = submitted) || bool_decide (status task = completed))
    eqn:Hst; cbn [negb]; [|idle].
  destruct (has_open_dispute tid db) eqn:Hopen; [idle|].
  destruct (disputes db !! ("disp_" ++ nano)) as [clash|] eqn:Hclash.
  - split; [|intros code msg [= <- <-]; lia].
    exists Idle. split; [exact I|].
    split; [reflexivity|split; [exact (eq_sym (Z.add_0_r _))|no_clash]].
  - assert (status task = submitted \/ status task = completed) as Hst'.
    { apply orb_true_iff in Hst as [H|H]; apply bool_decide_eq_true in H; auto. }
    set (d := mkDispute tid agent_id (sanitizeString rsn (Some 2000%N))
                (str_or_null match str_or_null rawEvidence with
                             | Some e => Some (sanitizeString e (Some 10000%N))
                             | None => None
                             end) dispute_open None None).
    assert (allowed (Raise ("disp_" ++ nano) d) (core db)) as Hallowed.
    { cbn [allowed core cases board dispute_status dispute_task_id d].
      split; [exact Hclash|]. split; [reflexivity|]. split; [exists task; auto|].
      intros k d' Hk Hid. exact (has_open_dispute_false tid db k d' Hopen Hk Hid). }
    destruct (str_or_null (if String.eqb (requester_id task) agent_id
                           then worker_id task else Some (requester_id task)));
      (split; [|intros code msg; discriminate]);
      explained_by (Raise ("disp_" ++ nano) d) ltac:(core_fields; reflexivity);
      exact Hallowed.
Qed.

Lemma distribute_core decision task_id task db :
  fst (distribute decision task_id task db) = outcome decision
  /\ core (snd (distribute decision task_id task db))
     = mkCore (payout decision task (balance (core db))) (tasks db) (disputes db)
  /\ tx_total (snd (distribute decision task_id task db))
     = tx_total db + awarded decision task.
Proof.
  unfold distribute, outcome, payout, awarded.
  destruct (String.eqb decision "favor_worker").
  { destruct (str_or_null (worker_id task)) as [worker|]; run_handler;
      [step_event; step_event|]; (split; [reflexivity|split; [|tally]]);
      core_fields; f_equal; balance_norm; reflexivity. }
  destruct (String.eqb decision "favor_requester").
  { run_handler. step_event.
    destruct (str_or_null (worker_id task)) as [worker|]; run_handler;
      [step_event|]; (split; [reflexivity|split; [|tally]]);
      core_fields; f_equal; balance_norm; reflexivity. }
  destruct (String.eqb decision "split").
  { run_handler.
    destruct (str_or_null (worker_id task)) as [worker|]; run_handler;
      (split; [reflexivity|split; [|tally]]);
      core_fields; f_equal; balance_norm; reflexivity. }
  destruct (String.eqb decision "cancel").
  { run_handler. split; [reflexivity|split; [|tally]].
    core_fields. f_equal. balance_norm. reflexivity. }
  split; [reflexivity|split; [reflexivity|exact (eq_sym (Z.add_0_r _))]].
Qed.

Lemma valid_decision_In decision d :
  valid_decision decision = Some d ->
  In d ["favor_requester"; "favor_worker"; "split"; "cancel"].
Proof.
  unfold valid_decision. destruct (str_or_null decision) as [s|]; [|discriminate].
  destruct (existsb _ _) eqn:E; [|discriminate]. intros [= <-].
  apply existsb_exists in E as (x & Hx & E). apply String.eqb_eq in E. subst. exact Hx.
Qed.

Lemma settleDispute_conforms agent_id arbitrator id decision resolution d task db :
  is_Some (agents db !! agent_id) ->
  disputes db !! id = Some d -> dispute_status d = dispute_open ->
  tasks db !! dispute_task_id d = Some task ->
  In decision ["favor_requester"; "favor_worker"; "split"; "cancel"] ->
  conforms db (settleDispute agent_id arbitrator id decision resolution d task db).
Proof.
  intros [agent Ha] Hd Hopen Ht Hdec. unfold settleDispute. unfold bind at 1.
  destruct (distribute_core decision (dispute_task_id d) task db) as (Hout & Hcore & Htx).
  destruct (distribute decision (dispute_task_id d) task db) as [st db1].
  cbn [fst snd] in Hout, Hcore, Htx. subst st.
  injection Hcore as Hbalance Htasks1 Hdisputes1.
  run_handler.
  split; cycle 1.
  { destruct arbitrator; [destruct (arbitrationReward (reward task) >? 0)|];
      step_notify; intros code msg; discriminate. }
  exists (Resolve id decision agent_id (str_or resolution decision) arbitrator d task).
  split; [split; [rewrite (balance_lookup db agent_id agent Ha); eexists; reflexivity
                 |repeat split; assumption]|].
  split; [|split; [|no_clash]].
  - destruct arbitrator; [destruct (arbitrationReward (reward task) >? 0) eqn:Hfee|];
      step_notify; core_fields; cbn [andb]; rewrite ?Hfee; f_equal;
      balance_norm; rewrite ?Hbalance; reflexivity.
  - unfold tx_total in Htx.
    destruct arbitrator; [destruct (arbitrationReward (reward task) >? 0) eqn:Hfee|];
      step_notify; unfold tx_total; project_ledger; use_ledger_facts;
      rewrite ?map_app, ?sum_app; cbn [map amount recorded foldr andb];
      rewrite ?Hfee; lia.
Qed.

Lemma resolveDispute_conforms auth id decision resolution db :
  conforms db (resolveDispute auth id decision resolution db).
Proof.
  unfold resolveDispute. run_handler.
  destruct auth as [agent_id|]; [|idle].
  destruct (agents db !! agent_id) as [agent|] eqn:Ha; [|idle].
  destruct (valid_decision decision) as [dec|] eqn:Hdec; [|idle].
  destruct (disputes db !! id) as [d|] eqn:Hd; [|idle].
  destruct (tasks db !! dispute_task_id d) as [task|] eqn:Ht; [|idle].
  destruct (decide (dispute_status d = dispute_open)) as [Hst|Hst];
    [rewrite bool_decide_eq_true_2 by exact Hst
    |rewrite bool_decide_eq_false_2 by exact Hst; idle].
  cbn [negb]. destruct (negb (isInvolved agent_id d task) && _); [idle|].
  apply settleDispute_conforms; try assumption; [exists agent; exact Ha|].
  apply (valid_decision_In decision), Hdec.
Qed.

Lemma core_of_ledger db db' : ledger db = ledger db' -> core db = core db'.
Proof.
  intros H. apply ledger_fields in H as (Ha & Ht & _ & _ & _ & Hd).
  unfold core. rewrite Ha, Ht, Hd. reflexivity.
Qed.

Lemma tx_total_of_ledger db db' : ledger db = ledger db' -> tx_total db = tx_total db'.
Proof.
  intros H. apply ledger_fields in H as (_ & _ & _ & Htx & _ & _).
  unfold tx_total. rewrite Htx. reflexivity.
Qed.

Lemma after_event_tx_total agentId eventType options db :
  tx_total (after_event agentId eventType options db) = tx_total db.
Proof.
  unfold after_event. destruct (lookup_event _ _) as [[base d]|]; reflexivity.
Qed.

Lemma after_event_core agentId eventType options db :
  core (after_event agentId eventType options db) = core db.
Proof.
  unfold after_event. destruct (lookup_event _ _) as [[base d]|]; [|reflexivity].
  core_fields. f_equal. balance_norm. reflexivity.
Qed.

Lemma submitReview_conforms auth task_id rating db :
  conforms db (submitReview auth task_id rating db).
Proof.
  destruct (submitReview_cases db auth task_id rating)
    as [(code & msg & ->)
       |(caller & tid & task & reviewee & db' & _ & _ & _ & _ & _ & _ & _ & _ & -> & _ & Hl)].
  - idle.
  - split; [|intros code msg; discriminate].
    exists Idle. split; [exact I|]. cbn [snd move recorded].
    rewrite (core_of_ledger _ _ Hl), (tx_total_of_ledger _ _ Hl).
    split; [|split; [|no_clash]].
    + destruct (review_event _); [apply after_event_core|reflexivity].
    + destruct (review_event _); [rewrite after_event_tx_total|]; lia.
Qed.

Lemma endorseSkill_conforms auth agent_id skill db :
  conforms db (endorseSkill auth agent_id skill db).
Proof.
  destruct (endorseSkill_cases db auth agent_id skill)
    as [(code & msg & ->)
       |(caller & ca & target & ta & sk & db' & _ & _ & _ & _ & _ & _ & _ & _ & _ & -> & _
         & Hl & _)].
  - idle.
  - split; [|intros code msg; discriminate].
    exists Idle. split; [exact I|]. cbn [snd move recorded].
    rewrite (core_of_ledger _ _ Hl), (tx_total_of_ledger _ _ Hl).
    split; [apply after_event_core|].
    split; [rewrite after_event_tx_total; lia|no_clash].
Qed.

(** What a request to remove an endorsement does. *)
Lemma removeEndorsement_cases auth agent_id skill db :
  (exists code msg, code <> 404
                    /\ removeEndorsement auth agent_id skill db = (Err code msg, db))
  \/ (exists caller target sk,
        auth = Some caller /\ is_Some (agents db !! caller)
        /\ str_or_null agent_id = Some target /\ str_or_null skill = Some sk
        /\ removeEndorsement auth agent_id skill db
           = (Err 404 "Endorsement not found",
              delete_endorsements target caller (toLowerCase sk) db)).
Proof.
  unfold removeEndorsement. run_handler.
  destruct auth as [caller|]; [|left; eexists _, _; split; [|reflexivity]; lia].
  destruct (agents db !! caller) as [ca|] eqn:Ha;
    [|left; eexists _, _; split; [|reflexivity]; lia].
  destruct (str_or_null agent_id) as [target|];
    [|left; eexists _, _; split; [|reflexivity]; lia].
  destruct (str_or_null skill) as [sk|];
    [|left; eexists _, _; split; [|reflexivity]; lia].
  right. exists caller, target, sk.
  split; [reflexivity|]. split; [exists ca; exact Ha|]. repeat split.
Qed.

Lemma removeEndorsement_explained auth agent_id skill db :
  explained db (removeEndorsement auth agent_id skill db).
Proof.
  destruct (removeEndorsement_cases auth agent_id skill db)
    as [(code & msg & _ & ->)|(caller & target & sk & _ & _ & _ & _ & ->)]; idle_move.
Qed.

Lemma conforms_explained db run : conforms db run -> explained db run.
Proof. intros [H _]. exact H. Qed.

Lemma routed_serves m b :
  (forall db, explained db (m db)) -> serves b (routed m b).
Proof.
  intros Hm. unfold routed. specialize (Hm (bank_db b)).
  destruct (m (bank_db b)) as [answer db]. exact Hm.
Qed.

Lemma routed_silent m b code msg b' :
  (forall db, conforms db (m db)) ->
  routed m b = Some (Err code msg, b') -> code < 500 -> b' = b.
Proof.
  intros Hm. unfold routed. specialize (Hm (bank_db b)).
  destruct (m (bank_db b)) as [answer db]. destruct Hm as [_ Herr].
  intros [= -> <-] Hcode. cbn [fst snd] in Herr.
  rewrite (Herr code msg eq_refl Hcode). destruct b; reflexivity.
Qed.

Lemma transferCredits_serves auth to_agent amount memo nano b :
  serves b (transferCredits auth to_agent amount memo nano b).
Proof.
  destruct (transferCredits auth to_agent amount memo nano b) as [[r b']|] eqn:Hrun;
    [|exact I].
  destruct (transferCredits_cases b auth to_agent amount memo nano r b' Hrun)
    as [(code & msg & -> & Hcode & ->)
       |(sender & sa & recipient & n & _ & Hs & _ & Hne & [ra Hra] & _ & Hn & _ & _ & _
         & Hagents & _ & Htasks & Hdisputes & Hr)]; cbn [serves].
  - idle_move.
  - exists (Send sender recipient n). cbn [fst snd].
    split; [|split; [|split; [|no_clash]]].
    + split; [exists (credits sa); split; [apply balance_lookup, Hs|lia]|].
      split; [lia|]. split; [exact Hne|].
      rewrite (balance_lookup _ recipient ra Hra). eexists; reflexivity.
    + unfold core. rewrite Hagents, Htasks, Hdisputes. cbn [move balance board cases].
      f_equal. rewrite (balance_alter_pay _ n) by reflexivity.
      rewrite (balance_alter_pay _ (- n)) by (intros a; cbn; lia). reflexivity.
    + cbn [recorded].
      destruct Hr as [(_ & _ & _ & Htx)|(_ & _ & _ & Htx)].
      * rewrite !tx_total_summary, Htx, map_app, sum_app. cbn. lia.
      * unfold tx_total. rewrite Htx. lia.
Qed.

Lemma transferCredits_silent auth to_agent amount memo nano b code msg b' :
  transferCredits auth to_agent amount memo nano b = Some (Err code msg, b') ->
  code < 500 -> b' = b.
Proof.
  intros Hrun Hcode.
  destruct (transferCredits_cases b auth to_agent amount memo nano _ b' Hrun)
    as [(code' & msg' & _ & _ & ->)
       |(sender & sa & recipient & n & _ & _ & _ & _ & _ & _ & _ & _ & _ & _
         & _ & _ & _ & _ & Hr)]; [reflexivity|].
  destruct Hr as [(Hr & _)|(Hr & _)]; [discriminate|]. injection Hr as Hc _. lia.
Qed.

Lemma serve_serves req b : serves b (serve req b).
Proof.
  destruct req; cbn [serve]; try apply routed_serves.
  - intros db. apply conforms_explained, createTask_conforms.
  - intros db. apply conforms_explained, claimTask_conforms.
  - intros db. apply conforms_explained, submitWork_conforms.
  - intros db. apply conforms_explained, validateWork_conforms.
  - intros db. apply conforms_explained, abandonTask_conforms.
  - intros db. apply conforms_explained, cancelTask_conforms.
  - intros db. apply conforms_explained, raiseDispute_conforms.
  - intros db. apply conforms_explained, resolveDispute_conforms.
  - intros db. apply conforms_explained, submitReview_conforms.
  - intros db. apply conforms_explained, endorseSkill_conforms.
  - intros db. apply removeEndorsement_explained.
  - apply transferCredits_serves.
Qed.

(** ** Invariants of the moves *)

Lemma map_Forall_alter {A} (P : string -> A -> Prop) (f : A -> A) i (m : gmap string A) :
  map_Forall P m -> (forall x, m !! i = Some x -> P i (f x)) ->
  map_Forall P (alter f i m).
Proof.
  intros Hm Hf k y. rewrite lookup_alter. case_decide as Hk.
  - subst k. destruct (m !! i) as [x|] eqn:Hx; [|discriminate].
    intros [= <-]. apply Hf. reflexivity.
  - apply Hm.
Qed.

Lemma pay_nonneg d i b :
  map_Forall (fun _ x => 0 <= x) b ->
  (forall x, b !! i = Some x -> 0 <= x + d) ->
  map_Forall (fun (_ : string) x => 0 <= x) (pay d i b).
Proof. intros Hb Hd. apply map_Forall_alter; assumption. Qed.

Lemma pay_gain d i b :
  0 <= d ->
  map_Forall (fun (_ : string) x => 0 <= x) b ->
  map_Forall (fun (_ : string) x => 0 <= x) (pay d i b).
Proof.
  intros Hd Hb. apply pay_nonneg; [exact Hb|].
  intros x Hx. specialize (Hb i x Hx). cbn in Hb. lia.
Qed.

Lemma payout_nonneg decision t b :
  1 <= reward t ->
  map_Forall (fun (_ : string) x => 0 <= x) b ->
  map_Forall (fun (_ : string) x => 0 <= x) (payout decision t b).
Proof.
  intros Hr Hb. unfold payout.
  assert (0 <= reward t / 2) by (apply Z.div_pos; lia).
  assert (0 <= reward t - reward t / 2)
    by (pose proof (Z.div_le_upper_bound (reward t) 2 (reward t)); lia).
  repeat match goal with
         | |- context [if ?c then _ else _] => destruct c
         | |- context [match ?o with Some _ => _ | None => _ end] => destruct o
         end;
    repeat (apply pay_gain; [lia|]); exact Hb.
Qed.

Lemma claim_update_static w t : static (claim_update w t) = static t.
Proof. unfold claim_update. destruct (decide _); reflexivity. Qed.

Lemma static_reward t t' : static t' = static t -> reward t' = reward t.
Proof. unfold static. intros [= ]. assumption. Qed.

Lemma outcome_cases decision : outcome decision = completed \/ outcome decision = cancelled.
Proof.
  unfold outcome.
  repeat match goal with |- context [if ?c then _ else _] => destruct c end; auto.
Qed.

(** Every move rewrites a task row through a function that keeps the
    static columns, or inserts a row under a fresh key. *)
Lemma move_board tr c :
  allowed tr c ->
  (exists id f, board (move tr c) = alter f id (board c)
                /\ forall t, static (f t) = static t)
  \/ (exists id t, board (move tr c) = <[id := t]> (board c) /\ board c !! id = None
                   /\ status t = open /\ worker_id t = None
                   /\ 1 <= reward t <= 1000000).
Proof.
  destruct tr; cbn [allowed move board]; intros Hal.
  - left. exists "", id. split; [|reflexivity].
    apply map_eq. intros k. rewrite lookup_alter. case_decide; [subst|reflexivity].
    destruct (board c !! ""); reflexivity.
  - right. exists id, t. destruct Hal as (_ & Hr & Hnone & Hst & Hw & _). auto.
  - left. exists "", id. split; [|reflexivity].
    apply map_eq. intros k. rewrite lookup_alter. case_decide; [subst|reflexivity].
    destruct (board c !! ""); reflexivity.
  - left. exists "", id. split; [|reflexivity].
    apply map_eq. intros k. rewrite lookup_alter. case_decide; [subst|reflexivity].
    destruct (board c !! ""); reflexivity.
  - left. exists id, (claim_update worker). split; [reflexivity|apply claim_update_static].
  - left. exists id, (submit_update proof). split; reflexivity.
  - left. exists id, complete_update. split; reflexivity.
  - left. exists id, reopen_update. split; reflexivity.
  - left. exists id, abandon_update. split; reflexivity.
  - left. exists id, (set_status cancelled). split; reflexivity.
  - left. exists (dispute_task_id d), (set_status disputed). split; reflexivity.
  - left. exists (dispute_task_id d), (set_status (outcome decision)). split; reflexivity.
Qed.

Lemma move_solvent tr c :
  allowed tr c ->
  map_Forall (fun _ x => 0 <= x) (balance c) ->
  map_Forall (fun _ t => 1 <= reward t <= 1000000) (board c) ->
  map_Forall (fun _ x => 0 <= x) (balance (move tr c))
  /\ map_Forall (fun _ t => 1 <= reward t <= 1000000) (board (move tr c)).
Proof.
  intros Hal Hb Ht. split.
  - destruct tr; cbn [allowed move balance] in *; try exact Hb.
    + destruct Hal as ((b & Hlook & Hle) & _). apply pay_nonneg; [exact Hb|].
      intros x Hx. rewrite Hlook in Hx. injection Hx as <-. lia.
    + destruct Hal as ((b & Hlook & Hle) & _). apply pay_nonneg; [exact Hb|].
      intros x Hx. rewrite Hlook in Hx. injection Hx as <-. lia.
    + destruct Hal as ((b & Hlook & Hle) & Hmin & _). apply pay_gain; [lia|].
      apply pay_nonneg; [exact Hb|].
      intros x Hx. rewrite Hlook in Hx. injection Hx as <-. lia.
    + destruct Hal as [Hlook _]. specialize (Ht id t Hlook). cbn in Ht.
      destruct (worker_id t); [apply pay_gain; [lia|]|]; exact Hb.
    + destruct Hal as [Hlook _]. specialize (Ht id t Hlook). cbn in Ht.
      apply pay_gain; [lia|exact Hb].
    + destruct Hal as [Hlook _]. specialize (Ht id t Hlook). cbn in Ht.
      apply pay_gain; [lia|exact Hb].
    + destruct Hal as (_ & _ & _ & Hlook & _). specialize (Ht _ t Hlook). cbn in Ht.
      assert (map_Forall (fun (_ : string) x => 0 <= x) (payout decision t (balance c)))
        by (apply payout_nonneg; [lia|exact Hb]).
      destruct (arbitrator && _) eqn:E; [|assumption].
      apply andb_true_iff in E as [_ E]. apply Z.gtb_lt in E.
      apply pay_gain; [lia|assumption].
  - destruct (move_board tr c Hal) as [(id & f & -> & Hf)|(id & t & -> & _ & _ & _ & Hr)].
    + apply map_Forall_alter; [exact Ht|]. intros x Hx. cbn.
      rewrite (static_reward _ _ (Hf x)). exact (Ht id x Hx).
    + apply map_Forall_insert_2; [exact Hr|exact Ht].
Qed.

Lemma fits_alter ts ds id t f :
  ts !! id = Some t -> status t <> disputed -> status (f t) <> disputed ->
  staffed (f t) -> fits ts ds -> fits (alter f id ts) ds.
Proof.
  intros Ht Hold Hnew Hst (H1 & H2 & H3 & H4). split; [|split; [|split]].
  - apply map_Forall_alter; [exact H1|]. intros x Hx.
    rewrite Ht in Hx. injection Hx as <-. exact Hst.
  - intros k d Hk Hopen. specialize (H2 k d Hk Hopen). cbn in H2.
    destruct (decide (dispute_task_id d = id)) as [E|E].
    + rewrite E, Ht in H2. cbn in H2. injection H2 as H2. contradiction.
    + rewrite lookup_alter_ne by congruence. exact H2.
  - exact H3.
  - intros k x. rewrite lookup_alter. case_decide as Hk.
    + subst k. rewrite Ht. cbn. intros [= <-] Hd. contradiction.
    + intros Hx. exact (H4 k x Hx).
Qed.

Lemma fits_post ts ds id t :
  ts !! id = None -> status t = open -> worker_id t = None ->
  fits ts ds -> fits (<[id := t]> ts) ds.
Proof.
  intros Hfresh Hst Hw (H1 & H2 & H3 & H4). split; [|split; [|split]].
  - apply map_Forall_insert_2; [|exact H1].
    unfold staffed. rewrite Hst, Hw. split; [reflexivity|discriminate].
  - intros k d Hk Hopen. specialize (H2 k d Hk Hopen). cbn in H2.
    destruct (decide (dispute_task_id d = id)) as [E|E].
    + rewrite E, Hfresh in H2. discriminate.
    + rewrite lookup_insert_ne by congruence. exact H2.
  - exact H3.
  - apply map_Forall_insert_2; [|exact H4]. rewrite Hst. discriminate.
Qed.

Lemma fits_raise ts ds did d t :
  ds !! did = None -> dispute_status d = dispute_open ->
  ts !! dispute_task_id d = Some t ->
  status t = submitted \/ status t = completed ->
  (forall k d', ds !! k = Some d' -> dispute_task_id d' = dispute_task_id d ->
                dispute_status d' = dispute_resolved) ->
  fits ts ds ->
  fits (alter (set_status disputed) (dispute_task_id d) ts) (<[did := d]> ds).
Proof.
  intros Hfresh Hopen Ht Hst Hnone (H1 & H2 & H3 & H4). split; [|split; [|split]].
  - apply map_Forall_alter; [exact H1|]. intros x Hx.
    rewrite Ht in Hx. injection Hx as <-.
    destruct (H1 _ t Ht) as [Hw Hne]. split; [|exact Hne].
    cbn [set_status status worker_id]. destruct Hst as [E|E]; rewrite E in Hw; exact Hw.
  - intros k d' Hk Hopen'. cbn.
    destruct (decide (dispute_task_id d' = dispute_task_id d)) as [E|E].
    + rewrite E, lookup_alter_eq, Ht. reflexivity.
    + rewrite lookup_alter_ne by congruence.
      rewrite lookup_insert in Hk. case_decide as Hd; [congruence|].
      exact (H2 k d' Hk Hopen').
  - intros k1 d1 Hk1 k2 d2 Hk2 Ho1 Ho2 Hsame.
    rewrite lookup_insert in Hk1, Hk2.
    destruct (decide (did = k1)) as [E1|E1], (decide (did = k2)) as [E2|E2].
    + congruence.
    + injection Hk1 as <-. specialize (Hnone k2 d2 Hk2 (eq_sym Hsame)). congruence.
    + injection Hk2 as <-. specialize (Hnone k1 d1 Hk1 Hsame). congruence.
    + exact (H3 k1 d1 Hk1 k2 d2 Hk2 Ho1 Ho2 Hsame).
  - intros k x. rewrite lookup_alter. case_decide as Hk.
    + subst k. intros _ _. apply map_Exists_lookup. exists did, d.
      rewrite lookup_insert_eq. auto.
    + intros Hx Hd. destruct (H4 k x Hx Hd) as (k' & d' & Hk' & Hd').
      apply map_Exists_lookup. exists k', d'.
      split; [|exact Hd'].
      rewrite lookup_insert_ne; [exact Hk'|]. intros <-. congruence.
Qed.

Lemma fits_resolve ts ds did d t s res by_agent :
  ds !! did = Some d -> dispute_status d = dispute_open ->
  ts !! dispute_task_id d = Some t ->
  s = completed \/ s = cancelled ->
  fits ts ds ->
  fits (alter (set_status s) (dispute_task_id d) ts)
       (alter (resolve_update res by_agent) did ds).
Proof.
  intros Hd Hopen Ht Hs (H1 & H2 & H3 & H4).
  assert (status t = disputed) as Hwas.
  { specialize (H2 did d Hd Hopen). cbn in H2. rewrite Ht in H2. injection H2 as H2.
    exact H2. }
  assert (forall k d', alter (resolve_update res by_agent) did ds !! k = Some d' ->
            dispute_status d' = dispute_open -> k <> did /\ ds !! k = Some d') as Hother.
  { intros k d'. rewrite lookup_alter. case_decide as Hk.
    - subst k. rewrite Hd. cbn. intros [= <-]. discriminate.
    - auto. }
  split; [|split; [|split]].
  - apply map_Forall_alter; [exact H1|]. intros x Hx.
    rewrite Ht in Hx. injection Hx as <-.
    destruct (H1 _ t Ht) as [Hw Hne]. split; [|exact Hne].
    cbn [set_status status worker_id]. rewrite Hwas in Hw.
    destruct Hs as [->| ->]; [exact Hw|exact I].
  - intros k d' Hk Hopen'. destruct (Hother k d' Hk Hopen') as [Hne Hk']. cbn.
    destruct (decide (dispute_task_id d' = dispute_task_id d)) as [E|E].
    + exfalso. apply Hne. exact (H3 k d' Hk' did d Hd Hopen' Hopen E).
    + rewrite lookup_alter_ne by congruence. exact (H2 k d' Hk' Hopen').
  - intros k1 d1 Hk1 k2 d2 Hk2 Ho1 Ho2 Hsame.
    destruct (Hother k1 d1 Hk1 Ho1) as [_ Hk1'].
    destruct (Hother k2 d2 Hk2 Ho2) as [_ Hk2'].
    exact (H3 k1 d1 Hk1' k2 d2 Hk2' Ho1 Ho2 Hsame).
  - intros k x. rewrite lookup_alter. case_decide as Hk.
    + subst k. rewrite Ht. cbn. intros [= <-]. cbn [set_status status].
      destruct Hs as [->| ->]; discriminate.
    + intros Hx Hdisp. specialize (H4 k x Hx Hdisp).
      apply map_Exists_lookup in H4 as (k' & d' & Hk' & Hid & Hopen').
      apply map_Exists_lookup. exists k', d'. split; [|auto].
      rewrite lookup_alter_ne; [exact Hk'|]. intros <-. congruence.
Qed.

Lemma move_fits tr c :
  allowed tr c -> fits (board c) (cases c) ->
  fits (board (move tr c)) (cases (move tr c)).
Proof.
  destruct tr; cbn [allowed move board cases]; intros Hal Hfits; try exact Hfits.
  - destruct Hal as (_ & _ & Hfresh & Hst & Hw & _). apply fits_post; assumption.
  - destruct Hal as (_ & t & Ht & Hst & Hne).
    apply (fits_alter _ _ _ t); try assumption.
    + rewrite Hst. discriminate.
    + unfold claim_update. destruct (decide _); [cbn; discriminate|contradiction].
    + unfold claim_update, staffed. destruct (decide _); [cbn|contradiction].
      split; [eexists; reflexivity|congruence].
  - destruct Hal as (t & Ht & Hst & Hw).
    apply (fits_alter _ _ _ t); try assumption; [rewrite Hst; discriminate|cbn; discriminate|].
    destruct Hfits as (H1 & _). destruct (H1 _ t Ht) as [_ Hne].
    split; [exact Hw|exact Hne].
  - destruct Hal as (Ht & Hst).
    apply (fits_alter _ _ _ t); try assumption; [rewrite Hst; discriminate|cbn; discriminate|].
    destruct Hfits as (H1 & _). destruct (H1 _ t Ht) as [Hw Hne]. rewrite Hst in Hw.
    split; [exact Hw|exact Hne].
  - destruct Hal as (Ht & Hst).
    apply (fits_alter _ _ _ t); try assumption; [rewrite Hst; discriminate|cbn; discriminate|].
    split; [reflexivity|discriminate].
  - destruct Hal as (t & Ht & Hst & Hw).
    apply (fits_alter _ _ _ t); try assumption; [rewrite Hst; discriminate|cbn; discriminate|].
    split; [reflexivity|discriminate].
  - destruct Hal as (Ht & Hst).
    apply (fits_alter _ _ _ t); try assumption; [rewrite Hst; discriminate|cbn; discriminate|].
    destruct Hfits as (H1 & _). destruct (H1 _ t Ht) as [_ Hne].
    split; [exact I|exact Hne].
  - destruct Hal as (Hfresh & Hopen & (t & Ht & Hst) & Hnone).
    apply (fits_raise _ _ _ _ t); assumption.
  - destruct Hal as (_ & Hd & Hopen & Ht & _).
    apply (fits_resolve _ _ _ _ t); try assumption. apply outcome_cases.
Qed.

Lemma move_legal tr c id t t' :
  allowed tr c -> fits (board c) (cases c) ->
  board c !! id = Some t -> board (move tr c) !! id = Some t' ->
  status t' = status t \/ legal (status t) (status t') = true.
Proof.
  intros Hal Hfits Ht.
  assert (forall f id0 t0,
            board c !! id0 = Some t0 ->
            (status (f t0) = status t0 \/ legal (status t0) (status (f t0)) = true) ->
            alter f id0 (board c) !! id = Some t' ->
            status t' = status t \/ legal (status t) (status t') = true) as Halter.
  { intros f id0 t0 Ht0 Hf. rewrite lookup_alter. case_decide as Hid.
    - subst id0. rewrite Ht. cbn. intros [= <-]. rewrite Ht in Ht0. injection Ht0 as <-.
      exact Hf.
    - rewrite Ht. intros [= <-]. left. reflexivity. }
  destruct tr; cbn [allowed move board] in *.
  - rewrite Ht. intros [= <-]. left. reflexivity.
  - destruct Hal as (_ & _ & Hfresh & _).
    rewrite lookup_insert_ne by congruence. rewrite Ht. intros [= <-]. left. reflexivity.
  - rewrite Ht. intros [= <-]. left. reflexivity.
  - rewrite Ht. intros [= <-]. left. reflexivity.
  - destruct Hal as (_ & t0 & Ht0 & Hst & _). apply (Halter _ _ t0 Ht0).
    right. unfold claim_update. destruct (decide _); [|contradiction]. rewrite Hst. reflexivity.
  - destruct Hal as (t0 & Ht0 & Hst & _). apply (Halter _ _ t0 Ht0).
    right. cbn. rewrite Hst. reflexivity.
  - destruct Hal as (Ht0 & Hst). apply (Halter _ _ t0 Ht0).
    right. cbn. rewrite Hst. reflexivity.
  - destruct Hal as (Ht0 & Hst). apply (Halter _ _ t0 Ht0).
    right. cbn. rewrite Hst. reflexivity.
  - destruct Hal as (t0 & Ht0 & Hst & _). apply (Halter _ _ t0 Ht0).
    right. cbn. rewrite Hst. reflexivity.
  - destruct Hal as (Ht0 & Hst). apply (Halter _ _ t0 Ht0).
    right. cbn. rewrite Hst. reflexivity.
  - destruct Hal as (_ & _ & (t0 & Ht0 & Hst) & _). apply (Halter _ _ t0 Ht0).
    right. cbn. destruct Hst as [-> | ->]; reflexivity.
  - destruct Hal as (_ & Hd & Hopen & Ht0 & _). apply (Halter _ _ t0 Ht0).
    destruct Hfits as (_ & H2 & _). specialize (H2 _ d Hd Hopen). cbn in H2.
    rewrite Ht0 in H2. injection H2 as H2.
    right. cbn. rewrite H2. destruct (outcome_cases decision) as [-> | ->]; reflexivity.
Qed.

Lemma solvent_core db :
  solvent db <->
  map_Forall (fun _ x => 0 <= x) (balance (core db))
  /\ map_Forall (fun _ t => 1 <= reward t <= 1000000) (board (core db)).
Proof.
  unfold solvent. cbn [core balance board]. split; intros [Ha Ht]; (split; [|exact Ht]).
  - intros k x. rewrite lookup_fmap. destruct (agents db !! k) as [a|] eqn:E; [|discriminate].
    intros [= <-]. exact (Ha k a E).
  - intros k a Hk. apply (Ha k (credits a)). rewrite lookup_fmap, Hk. reflexivity.
Qed.

Lemma serve_moves req b r b' :
  serve req b = Some (r, b') ->
  exists tr, allowed tr (core (bank_db b))
             /\ core (bank_db b') = move tr (core (bank_db b)).
Proof.
  intros Hrun. pose proof (serve_serves req b) as H. rewrite Hrun in H.
  destruct H as (tr & Hal & Hcore & _). exists tr. split; assumption.
Qed.

Lemma serve_solvent req b r b' :
  serve req b = Some (r, b') -> solvent (bank_db b) -> solvent (bank_db b').
Proof.
  intros Hrun Hs. destruct (serve_moves req b r b' Hrun) as (tr & Hal & Hcore).
  apply solvent_core. rewrite Hcore. apply solvent_core in Hs as [Hb Ht].
  apply move_solvent; assumption.
Qed.

Lemma serve_all_cons r rest b answers b' :
  serve_all (r :: rest) b = Some (answers, b') ->
  exists a b1 rest_answers,
    serve r b = Some (a, b1) /\ serve_all rest b1 = Some (rest_answers, b').
Proof.
  cbn [serve_all]. destruct (serve r b) as [[a b1]|]; [|discriminate].
  destruct (serve_all rest b1) as [[rest_answers b2]|] eqn:Hrest; [|discriminate].
  intros [= <- <-]. exists a, b1, rest_answers. split; [reflexivity|exact Hrest].
Qed.

(** X11. No sequence of requests to the routes that write (tasks,
    disputes, reviews, endorsements, transfers) drives a balance below
    zero or stores a reward outside 1..1000000: when no agent is in debt
    and all rewards are within these bounds, the same holds after the
    requests, whatever they are and whoever sends them. *)
Theorem requests_keep_solvent reqs b answers b' :
  serve_all reqs b = Some (answers, b') ->
  solvent (bank_db b) -> solvent (bank_db b').
Proof.
  revert b answers. induction reqs as [|r rest IH]; intros b answers Hrun Hs.
  - injection Hrun as _ <-. exact Hs.
  - destruct (serve_all_cons r rest b answers b' Hrun) as (a & b1 & ra & H1 & Hrest).
    apply (IH b1 ra Hrest). apply (serve_solvent r b a b1 H1 Hs).
Qed.

Lemma serve_consistent req b r b' :
  serve req b = Some (r, b') -> consistent (bank_db b) -> consistent (bank_db b').
Proof.
  intros Hrun Hc. destruct (serve_moves req b r b' Hrun) as (tr & Hal & Hcore).
  unfold consistent.
  change (tasks (bank_db b')) with (board (core (bank_db b'))).
  change (disputes (bank_db b')) with (cases (core (bank_db b'))).
  rewrite Hcore. apply move_fits; assumption.
Qed.

(** X12. Tasks and disputes stay consistent under every sequence of
    requests that the router of this model serves, that is, with transfer
    amounts that parse as numbers: an open task has no worker and a claimed, submitted,
    completed or disputed task has one, who is never the requester; an open
    dispute is about an existing task in status disputed; a task has at
    most one open dispute, and every disputed task has one. *)
Theorem requests_keep_consistent reqs b answers b' :
  serve_all reqs b = Some (answers, b') ->
  consistent (bank_db b) -> consistent (bank_db b').
Proof.
  revert b answers. induction reqs as [|r rest IH]; intros b answers Hrun Hc.
  - injection Hrun as _ <-. exact Hc.
  - destruct (serve_all_cons r rest b answers b' Hrun) as (a & b1 & ra & H1 & Hrest).
    apply (IH b1 ra Hrest). apply (serve_consistent r b a b1 H1 Hc).
Qed.

Lemma serve_static req b r b' id t :
  serve req b = Some (r, b') ->
  tasks (bank_db b) !! id = Some t ->
  exists t', tasks (bank_db b') !! id = Some t' /\ static t' = static t.
Proof.
  intros Hrun Ht. destruct (serve_moves req b r b' Hrun) as (tr & Hal & Hcore).
  change (tasks (bank_db b')) with (board (core (bank_db b'))).
  rewrite Hcore.
  destruct (move_board tr (core (bank_db b)) Hal)
    as [(k & f & -> & Hf)|(k & x & -> & Hfresh & _)]; cbn [core board] in *.
  - rewrite lookup_alter. case_decide.
    + subst k. rewrite Ht. cbn. eexists. split; [reflexivity|apply Hf].
    + exists t. split; [exact Ht|reflexivity].
  - rewrite lookup_insert_ne by congruence. exists t. split; [exact Ht|reflexivity].
Qed.

(** X13. A task row is never deleted, and its title, description,
    requester, reward, required skills, proof type and deadline never
    change after creation, whatever requests follow, as far as the router
    of this model serves them, that is, with transfer amounts that parse
    as numbers. *)
Theorem tasks_keep_static reqs b answers b' id t :
  serve_all reqs b = Some (answers, b') ->
  tasks (bank_db b) !! id = Some t ->
  exists t', tasks (bank_db b') !! id = Some t' /\ static t' = static t.
Proof.
  revert b answers t. induction reqs as [|r rest IH]; intros b answers t Hrun Ht.
  - injection Hrun as _ <-. exists t. split; [exact Ht|reflexivity].
  - destruct (serve_all_cons r rest b answers b' Hrun) as (a & b1 & ra & H1 & Hrest).
    destruct (serve_static r b a b1 id t H1 Ht) as (t1 & Ht1 & Hs1).
    destruct (IH b1 ra t1 Hrest Ht1) as (t' & Ht' & Hs'). exists t'.
    split; [exact Ht'|congruence].
Qed.

(** X14. One request moves the status of a task along an arrow of the
    life cycle or leaves it: open to claimed or cancelled, claimed to
    submitted or back to open, submitted to completed, open or disputed,
    completed to disputed, disputed to completed or cancelled; a task that
    appears is open and has no worker. *)
Theorem status_moves_along_arrows req b r b' id :
  serve req b = Some (r, b') ->
  consistent (bank_db b) ->
  match tasks (bank_db b) !! id, tasks (bank_db b') !! id with
  | Some t, Some t' => status t' = status t \/ legal (status t) (status t') = true
  | Some t, None => False
  | None, Some t' => status t' = open /\ worker_id t' = None
  | None, None => True
  end.
Proof.
  intros Hrun Hc. destruct (serve_moves req b r b' Hrun) as (tr & Hal & Hcore).
  change (tasks (bank_db b')) with (board (core (bank_db b'))).
  rewrite Hcore. set (db := bank_db b) in *.
  destruct (tasks db !! id) as [t|] eqn:Ht.
  - destruct (board (move tr (core db)) !! id) as [t'|] eqn:Ht'.
    + apply (move_legal tr (core db) id t t' Hal Hc Ht Ht').
    + destruct (move_board tr (core db) Hal)
        as [(k & f & E & Hf)|(k & x & E & Hfresh & _)]; rewrite E in Ht'; cbn [core board] in *.
      * rewrite lookup_alter in Ht'. case_decide; [subst k|]; rewrite Ht in Ht'; discriminate.
      * rewrite lookup_insert_ne in Ht' by congruence. congruence.
  - destruct (board (move tr (core db)) !! id) as [t'|] eqn:Ht'; [|exact I].
    destruct (move_board tr (core db) Hal)
      as [(k & f & E & Hf)|(k & x & E & Hfresh & Hst & Hw & _)]; rewrite E in Ht';
      cbn [core board] in *.
    + rewrite lookup_alter in Ht'. case_decide; [subst k|]; rewrite Ht in Ht'; discriminate.
    + rewrite lookup_insert in Ht'. case_decide; [|congruence].
      injection Ht' as <-. auto.
Qed.

(** X15. An answer with an error code below 500 (401, 403, 404, 400 and
    the 409 of the claim route) changes nothing, with one exception: the
    tables of the database and the table of transfers after the request
    are those before it, unless the request is a DELETE /endorse answered
    with 404 Endorsement not found, which has deleted the caller's
    endorsements of that skill of that agent, if there were any. *)
Theorem client_errors_change_nothing_but_removal req b code msg b' :
  serve req b = Some (Err code msg, b') -> code < 500 ->
  match req with
  | RemoveEndorsement auth agent_id skill =>
      code <> 404 /\ b' = b
      \/ code = 404 /\ msg = "Endorsement not found"
         /\ exists caller target sk,
              auth = Some caller /\ str_or_null agent_id = Some target
              /\ str_or_null skill = Some sk
              /\ b' = mkBank (delete_endorsements target caller (toLowerCase sk) (bank_db b))
                             (transfers b)
  | _ => b' = b
  end.
Proof.
  intros Hrun Hcode.
  destruct req as [auth body nano|auth id|auth id rawProof|auth id approved reason
                  |auth id|auth id|auth task_id rawReason rawEvidence nano
                  |auth id decision resolution|auth task_id rating
                  |auth agent_id skill|auth agent_id skill
                  |auth to_agent amount memo nano]; cbn [serve] in Hrun.
  - apply (routed_silent _ b code msg b' (createTask_conforms _ _ _) Hrun Hcode).
  - apply (routed_silent _ b code msg b' (claimTask_conforms _ _) Hrun Hcode).
  - apply (routed_silent _ b code msg b' (submitWork_conforms _ _ _) Hrun Hcode).
  - apply (routed_silent _ b code msg b' (validateWork_conforms _ _ _ _) Hrun Hcode).
  - apply (routed_silent _ b code msg b' (abandonTask_conforms _ _) Hrun Hcode).
  - apply (routed_silent _ b code msg b' (cancelTask_conforms _ _) Hrun Hcode).
  - apply (routed_silent _ b code msg b' (raiseDispute_conforms _ _ _ _ _) Hrun Hcode).
  - apply (routed_silent _ b code msg b' (resolveDispute_conforms _ _ _ _) Hrun Hcode).
  - apply (routed_silent _ b code msg b' (submitReview_conforms _ _ _) Hrun Hcode).
  - apply (routed_silent _ b code msg b' (endorseSkill_conforms _ _ _) Hrun Hcode).
  - unfold routed in Hrun.
    destruct (removeEndorsement_cases auth agent_id skill (bank_db b))
      as [(c & m & Hc & E)|(caller & target & sk & Hauth & _ & Ht & Hs & E)];
      rewrite E in Hrun; injection Hrun as <- <- <-.
    + left. split; [exact Hc|]. destruct b; reflexivity.
    + right. split; [reflexivity|]. split; [reflexivity|].
      exists caller, target, sk. auto.
  - apply (transferCredits_silent _ _ _ _ _ _ _ _ _ Hrun Hcode).
Qed.

Lemma requests_keep_solvent_witness :
  exists answers b',
    serve_all [ValidateWork (Some "agent_a") "task_x" (JBool false) None;
               TransferCredits (Some "agent_a") (Some "agent_c") (JStr "0x40") None "t";
               CancelTask (Some "agent_a") "task_x"] (bank handed_in)
    = Some (answers, b')
    /\ solvent (bank_db b').
Proof.
  destruct (serve_all _ (bank handed_in)) as [[answers b']|] eqn:Hrun;
    [|vm_compute in Hrun; discriminate].
  exists answers, b'. split; [reflexivity|].
  apply (requests_keep_solvent _ (bank handed_in) answers b' Hrun).
  apply (bool_decide_unpack _). vm_compute. reflexivity.
Defined.

Lemma requests_keep_consistent_witness :
  exists answers b',
    serve_all [RaiseDispute (Some "agent_b") (Some "task_x") (Some "unpaid") None "w";
               ResolveDispute (Some "agent_c") "disp_w" (Some "split") None]
      (bank handed_in)
    = Some (answers, b')
    /\ consistent (bank_db b').
Proof.
  destruct (serve_all _ (bank handed_in)) as [[answers b']|] eqn:Hrun;
    [|vm_compute in Hrun; discriminate].
  exists answers, b'. split; [reflexivity|].
  apply (requests_keep_consistent _ (bank handed_in) answers b' Hrun).
  apply (bool_decide_unpack _). vm_compute. reflexivity.
Defined.

Lemma tasks_keep_static_witness :
  exists answers b' t',
    serve_all [ValidateWork (Some "agent_a") "task_x" (JBool false) None;
               ClaimTask (Some "agent_c") "task_x"] (bank handed_in)
    = Some (answers, b')
    /\ tasks (bank_db b') !! "task_x" = Some t'
    /\ static t' = static (docs_task (Some "agent_b") submitted (Some "done") true true).
Proof.
  destruct (serve_all _ (bank handed_in)) as [[answers b']|] eqn:Hrun;
    [|vm_compute in Hrun; discriminate].
  destruct (tasks_keep_static _ (bank handed_in) answers b' "task_x"
              (docs_task (Some "agent_b") submitted (Some "done") true true) Hrun)
    as (t' & Ht' & Hs); [vm_compute; reflexivity|].
  exists answers, b', t'. split; [reflexivity|]. split; assumption.
Defined.

Lemma status_moves_along_arrows_witness :
  exists r b',
    serve (RaiseDispute (Some "agent_a") (Some "task_x") (Some "incomplete") None "y")
      (bank handed_in) = Some (r, b')
    /\ match tasks (bank_db (bank handed_in)) !! "task_x", tasks (bank_db b') !! "task_x" with
       | Some t, Some t' => status t' = status t \/ legal (status t) (status t') = true
       | Some t, None => False
       | None, Some t' => status t' = open /\ worker_id t' = None
       | None, None => True
       end.
Proof.
  destruct (serve _ (bank handed_in)) as [[r b']|] eqn:Hrun;
    [|vm_compute in Hrun; discriminate].
  exists r, b'. split; [reflexivity|].
  apply (status_moves_along_arrows _ (bank handed_in) r b' "task_x" Hrun).
  apply (bool_decide_unpack _). vm_compute. reflexivity.
Defined.

Lemma client_errors_change_nothing_but_removal_witness :
  exists b',
    serve (ClaimTask (Some "agent_a") "task_x") (bank posted)
    = Some (Err 400 "Cannot claim your own task", b')
    /\ b' = bank posted.
Proof.
  exists (bank posted). split; [vm_compute; reflexivity|].
  apply (client_errors_change_nothing_but_removal
           (ClaimTask (Some "agent_a") "task_x") (bank posted)
           400 "Cannot claim your own task"); [vm_compute; reflexivity|lia].
Defined.

(** ** Answers that a consistent database never gives *)

Lemma approveWork_answer agent_id id task reason worker db :
  worker_id task = Some worker ->
  fst (approveWork agent_id id task reason db) = Ok 200 "Task completed. Worker paid.".
Proof.
  intros Hw. unfold approveWork. rewrite Hw. run_handler. step_event.
  destruct (reward task >=? 50); run_handler; [step_event|];
    (match goal with
     | |- context [agents ?s !! worker] => destruct (agents s !! worker) as [w|]
     end;
     [destruct (tasks_completed w =? 1); run_handler; [step_event|]|]);
    step_badges; reflexivity.
Qed.

Lemma rejectWork_answer agent_id id task reason worker db :
  worker_id task = Some worker ->
  fst (rejectWork agent_id id task reason db) = Ok 200 "Work rejected. Task reopened.".
Proof.
  intros Hw. unfold rejectWork. rewrite Hw. run_handler. step_event. reflexivity.
Qed.

Lemma has_open_dispute_true task_id db :
  has_open_dispute task_id db = true ->
  exists k d, disputes db !! k = Some d /\ dispute_task_id d = task_id
              /\ dispute_status d = dispute_open.
Proof.
  unfold has_open_dispute. intros H. apply existsb_exists in H as ([k d] & Hin & H).
  apply list_elem_of_In, elem_of_map_to_list in Hin. cbn [snd] in H.
  apply andb_true_iff in H as [Hid Hst]. apply String.eqb_eq in Hid.
  apply bool_decide_eq_true in Hst. exists k, d. auto.
Qed.

(** X16. In a consistent database two answers of the source are never
    given: the 409 of the claim route (the status check before the update
    already answers 400), and the 400 of the raise route for an existing
    open dispute (the task is then disputed, and the status check before
    it answers 400 for that reason). *)
Theorem consistent_never_answers db :
  consistent db ->
  (forall auth id, is_Conflict (fst (claimTask auth id db)) = false)
  /\ (forall auth task_id rawReason rawEvidence nano,
        fst (raiseDispute auth task_id rawReason rawEvidence nano db)
        <> Err 400 "An open dispute already exists for this task").
Proof.
  intros (Hstaffed & Hdisputed & _). split.
  - intros auth id. apply claimTask_never_conflicts.
  - intros auth task_id rawReason rawEvidence nano. unfold raiseDispute. run_handler.
    destruct auth as [agent_id|]; [|discriminate].
    destruct (agents db !! agent_id) as [agent|]; [|discriminate].
    destruct (str_or_null task_id) as [tid|]; [|discriminate].
    destruct (str_or_null rawReason) as [rsn|]; [|discriminate].
    destruct (tasks db !! tid) as [task|] eqn:Ht; [|discriminate].
    destruct (negb (String.eqb (requester_id task) agent_id) && _); [discriminate|].
    destruct (bool_decide (status task = submitted) || bool_decide (status task = completed))
      eqn:Hst; cbn [negb]; [|discriminate].
    destruct (has_open_dispute tid db) eqn:Hopen.
    + exfalso. apply has_open_dispute_true in Hopen as (k & d & Hk & Hid & Hd).
      specialize (Hdisputed k d Hk Hd). cbn in Hdisputed.
      rewrite Hid, Ht in Hdisputed. injection Hdisputed as Hdisputed.
      rewrite Hdisputed in Hst. discriminate.
    + destruct (disputes db !! ("disp_" ++ nano)); [discriminate|].
      destruct (str_or_null _); discriminate.
Qed.

Lemma consistent_never_answers_witness :
  (forall auth id, is_Conflict (fst (claimTask auth id contested)) = false)
  /\ (forall auth task_id rawReason rawEvidence nano,
        fst (raiseDispute auth task_id rawReason rawEvidence nano contested)
        <> Err 400 "An open dispute already exists for this task").
Proof.
  apply (consistent_never_answers contested).
  apply (bool_decide_unpack _). vm_compute. reflexivity.
Defined.

(** X29. In a consistent database a validate request whose reason is a
    text or absent is never answered with 500 Validation failed: a
    submitted task always has a worker to pay or to penalise, so nothing
    in the route throws.  (A reason that is no text is not a request of
    this model.) *)
Theorem validate_never_fails db auth id approved reason :
  consistent db ->
  fst (validateWork auth id approved reason db) <> Err 500 "Validation failed".
Proof.
  intros (Hstaffed & _). unfold validateWork. run_handler.
  destruct auth as [agent_id|]; [|discriminate].
  destruct (agents db !! agent_id) as [agent|]; [|discriminate].
  destruct approved; [discriminate|..].
  all: destruct (tasks db !! id) as [task|] eqn:Ht; [|discriminate].
  all: destruct (String.eqb (requester_id task) agent_id); cbn [negb]; [|discriminate].
  all: destruct (decide (status task = submitted)) as [Hst|Hst];
    [rewrite bool_decide_eq_true_2 by exact Hst
    |rewrite bool_decide_eq_false_2 by exact Hst; discriminate].
  all: cbn [negb].
  all: destruct (Hstaffed id task Ht) as [Hw _]; rewrite Hst in Hw;
    destruct Hw as [worker Hw].
  all: match goal with |- context [truthy ?v] => destruct (truthy v) end.
  all: first [rewrite (approveWork_answer _ _ _ _ worker _ Hw)
             |rewrite (rejectWork_answer _ _ _ _ worker _ Hw)]; discriminate.
Qed.

Lemma validate_never_fails_witness :
  fst (validateWork (Some "agent_a") "task_x" (JBool true) (Some "fine") handed_in)
  <> Err 500 "Validation failed".
Proof.
  apply (validate_never_fails handed_in).
  apply (bool_decide_unpack _). vm_compute. reflexivity.
Defined.

(** ** Successful runs, one route at a time *)

Lemma task_balance_snoc id db db1 row :
  transactions db1 = (transactions db ++ [row])%list ->
  related_task_id row = Some id ->
  task_balance id db1 = task_balance id db + amount row.
Proof.
  intros Htx Hrel. unfold task_balance. rewrite Htx, List.filter_app, map_app.
  cbn [List.filter]. rewrite bool_decide_eq_true_2 by exact Hrel. cbn [map].
  induction (map amount (List.filter _ (transactions db))) as [|x l IH]; cbn; [lia|].
  cbn in IH. lia.
Qed.

Lemma task_balance_same id db db1 :
  transactions db1 = transactions db -> task_balance id db1 = task_balance id db.
Proof. intros Htx. unfold task_balance. rewrite Htx. reflexivity. Qed.

Lemma createTask_posts db a ag body nano :
  agents db !! a = Some ag ->
  well_formed body = true ->
  sanitizeInt (rawReward body) reward_options <= credits ag ->
  tasks db !! ("task_" ++ nano) = None ->
  exists db1 t row,
    createTask (Some a) body nano db = (Ok 201 "Task posted. Credits escrowed.", db1)
    /\ agents db1
       = <[a := set_tasks_posted (tasks_posted ag + 1)
                  (set_credits (credits ag - sanitizeInt (rawReward body) reward_options) ag)]>
           (agents db)
    /\ tasks db1 = <["task_" ++ nano := t]> (tasks db)
    /\ requester_id t = a /\ reward t = sanitizeInt (rawReward body) reward_options
    /\ status t = open /\ worker_id t = None
    /\ transactions db1 = (transactions db ++ [row])%list
    /\ tx_summary row = (a, "task_escrow", - sanitizeInt (rawReward body) reward_options)
    /\ related_task_id row = Some ("task_" ++ nano)
    /\ reputation_events db1 = reputation_events db
    /\ disputes db1 = disputes db.
Proof.
  intros Ha Hwf Hfunds Hfresh. unfold createTask. run_handler. rewrite Ha.
  unfold well_formed in Hwf.
  repeat (apply andb_true_iff in Hwf as [Hwf ?]).
  rewrite Hwf.
  repeat match goal with H : _ = true |- _ => apply negb_true_iff in H end.
  repeat match goal with H : _ = _ |- _ => rewrite H end.
  cbn [negb orb].
  destruct (Z.ltb_spec (credits ag) (sanitizeInt (rawReward body) reward_options)); [lia|].
  project_ledger. rewrite Hfresh. step_badges.
  eexists _, _, _. split; [reflexivity|].
  rewrite Hagents, Htasks, Htransactions, Hevents, Hdisputes.
  split; [|repeat split; reflexivity].
  apply map_eq. intros k. rewrite lookup_alter, lookup_insert.
  case_decide; [subst k; rewrite Ha|]; reflexivity.
Qed.

Lemma submitWork_hands_in db w wa id t rawProof :
  agents db !! w = Some wa ->
  tasks db !! id = Some t ->
  worker_id t = Some w -> status t = claimed ->
  opt_truthy rawProof = true ->
  submitWork (Some w) id rawProof db
  = (Ok 200 "Work submitted. Awaiting validation.",
     insert_task_log
       (mkTaskLog id w "submitted"
          (Some (substring0 200 (sanitizeProof (default "" rawProof)))))
       (update_task (submit_update (sanitizeProof (default "" rawProof))) id db)).
Proof.
  intros Ha Ht Hw Hst Hp. unfold submitWork. run_handler.
  rewrite Ha, Hp. cbn [negb]. rewrite Ht, Hw, Hst.
  rewrite !bool_decide_eq_true_2 by reflexivity. reflexivity.
Qed.

Lemma approveWork_pays db agent_id id task reason worker :
  worker_id task = Some worker ->
  exists db1 row,
    approveWork agent_id id task reason db = (Ok 200 "Task completed. Worker paid.", db1)
    /\ credits <$> agents db1 = pay (reward task) worker (credits <$> agents db)
    /\ tasks db1 = alter complete_update id (tasks db)
    /\ disputes db1 = disputes db
    /\ transactions db1 = (transactions db ++ [row])%list
    /\ tx_summary row = (worker, "task_payment", reward task)
    /\ related_task_id row = str_or_null (Some id).
Proof.
  intros Hw. unfold approveWork. rewrite Hw. run_handler. step_event.
  destruct (reward task >=? 50); run_handler; [step_event|];
    (match goal with
     | |- context [agents ?s !! worker] => destruct (agents s !! worker) as [w|]
     end;
     [destruct (tasks_completed w =? 1); run_handler; [step_event|]|]);
    step_badges;
    (eexists _, _; split; [reflexivity|]);
    project_ledger; use_ledger_facts;
    (split; [balance_norm; reflexivity|]);
    repeat split; reflexivity.
Qed.

Lemma cancelTask_refunds db a ag id t :
  agents db !! a = Some ag ->
  tasks db !! id = Some t ->
  requester_id t = a -> status t = open ->
  exists db1 row,
    cancelTask (Some a) id db = (Ok 200 "Task cancelled. Credits refunded.", db1)
    /\ agents db1 = <[a := set_credits (credits ag + reward t) ag]> (agents db)
    /\ tasks db1 = <[id := set_status cancelled t]> (tasks db)
    /\ transactions db1 = (transactions db ++ [row])%list
    /\ tx_summary row = (a, "refund", reward t)
    /\ related_task_id row = str_or_null (Some id)
    /\ reputation_events db1 = reputation_events db
    /\ disputes db1 = disputes db.
Proof.
  intros Ha Ht Hreq Hst. unfold cancelTask. run_handler.
  rewrite Ha, Ht, Hreq, String.eqb_refl, Hst.
  rewrite bool_decide_eq_true_2 by reflexivity. cbn [negb].
  eexists _, _. split; [reflexivity|]. project_ledger.
  split; [|split; [|repeat split; reflexivity]].
  - apply map_eq. intros k. rewrite lookup_alter, lookup_insert.
    case_decide; [subst k; rewrite Ha|]; reflexivity.
  - apply map_eq. intros k. rewrite lookup_alter, lookup_insert.
    case_decide; [subst k; rewrite Ht|]; reflexivity.
Qed.

Lemma abandonTask_reopens db w wa id t :
  agents db !! w = Some wa ->
  tasks db !! id = Some t ->
  worker_id t = Some w -> status t = claimed ->
  exists db1 ev,
    abandonTask (Some w) id db = (Ok 200 "Task abandoned. Reputation penalty applied.", db1)
    /\ agents db1
       = <[w := set_reputation (clamp_reputation (reputation wa + (-2)))%Q wa]> (agents db)
    /\ tasks db1 = <[id := abandon_update t]> (tasks db)
    /\ transactions db1 = transactions db
    /\ reputation_events db1 = (reputation_events db ++ [ev])%list
    /\ event_summary ev = (w, "TASK_ABANDONED", (-2)%Q)
    /\ disputes db1 = disputes db.
Proof.
  intros Ha Ht Hw Hst. unfold abandonTask. run_handler.
  rewrite Ha, Ht, Hw, Hst. rewrite !bool_decide_eq_true_2 by reflexivity. cbn [negb].
  step_event. eexists _, _. split; [reflexivity|].
  project_ledger. use_ledger_facts.
  split; [|split; [|repeat split; reflexivity]].
  - apply map_eq. intros k. rewrite lookup_alter, lookup_insert.
    case_decide; [subst k; rewrite Ha|]; reflexivity.
  - apply map_eq. intros k. rewrite lookup_alter, lookup_insert.
    case_decide; [subst k; rewrite Ht|]; reflexivity.
Qed.

(** ** Round trips and the straight path *)

(** X17. Posting a task and cancelling it is free: after a successful
    create and the requester's cancel of the new task, every agent holds
    the credits held before, the task is cancelled, its two transactions
    (escrow and refund) cancel out, and no reputation event was recorded;
    the requester's posted counter still went up by one. *)
Theorem create_then_cancel db a ag body nano :
  agents db !! a = Some ag ->
  well_formed body = true ->
  sanitizeInt (rawReward body) reward_options <= credits ag ->
  tasks db !! ("task_" ++ nano) = None ->
  exists db1 db2,
    createTask (Some a) body nano db = (Ok 201 "Task posted. Credits escrowed.", db1)
    /\ cancelTask (Some a) ("task_" ++ nano) db1
       = (Ok 200 "Task cancelled. Credits refunded.", db2)
    /\ (forall k, credits_of k db2 = credits_of k db)
    /\ tasks_posted <$> agents db2 !! a = Some (tasks_posted ag + 1)
    /\ status_of ("task_" ++ nano) db2 = Some cancelled
    /\ task_balance ("task_" ++ nano) db2 = task_balance ("task_" ++ nano) db
    /\ reputation_events db2 = reputation_events db.
Proof.
  intros Ha Hwf Hfunds Hfresh.
  destruct (createTask_posts db a ag body nano Ha Hwf Hfunds Hfresh)
    as (db1 & t & row1 & Hrun1 & Hag1 & Ht1 & Hreq & Hrew & Hst & _ & Htx1 & Hrow1 & Hrel1
        & Hev1 & _).
  assert (agents db1 !! a = Some (set_tasks_posted (tasks_posted ag + 1)
            (set_credits (credits ag - sanitizeInt (rawReward body) reward_options) ag)))
    as Ha1 by (rewrite Hag1; apply lookup_insert_eq).
  assert (tasks db1 !! ("task_" ++ nano) = Some t) as Hlook1
    by (rewrite Ht1; apply lookup_insert_eq).
  destruct (cancelTask_refunds db1 a _ _ t Ha1 Hlook1 Hreq Hst)
    as (db2 & row2 & Hrun2 & Hag2 & Ht2 & Htx2 & Hrow2 & Hrel2 & Hev2 & _).
  exists db1, db2. split; [exact Hrun1|]. split; [exact Hrun2|].
  split; [|split; [|split; [|split]]].
  - intros k. unfold credits_of. rewrite Hag2, Hag1, insert_insert_eq, lookup_insert.
    case_decide; [subst k; rewrite Ha; cbn; f_equal; lia|reflexivity].
  - rewrite Hag2, lookup_insert_eq. reflexivity.
  - unfold status_of. rewrite Ht2, lookup_insert_eq. reflexivity.
  - rewrite (task_balance_snoc _ db1 db2 row2 Htx2 Hrel2).
    rewrite (task_balance_snoc _ db db1 row1 Htx1 Hrel1).
    injection Hrow1 as _ _ ->. injection Hrow2 as _ _ ->. lia.
  - congruence.
Qed.

Lemma create_then_cancel_witness :
  exists db1 db2,
    createTask (Some "agent_a") (docs_body (JNum 30)) "x" market
    = (Ok 201 "Task posted. Credits escrowed.", db1)
    /\ cancelTask (Some "agent_a") "task_x" db1
       = (Ok 200 "Task cancelled. Credits refunded.", db2)
    /\ (forall k, credits_of k db2 = credits_of k market)
    /\ tasks_posted <$> agents db2 !! "agent_a" = Some (tasks_posted alice + 1)
    /\ status_of "task_x" db2 = Some cancelled
    /\ task_balance "task_x" db2 = task_balance "task_x" market
    /\ reputation_events db2 = reputation_events market.
Proof.
  apply (create_then_cancel market "agent_a" alice (docs_body (JNum 30)) "x");
    [reflexivity|reflexivity|vm_compute; discriminate|reflexivity].
Defined.

Lemma claim_update_open w t :
  status t = open ->
  status (claim_update w t) = claimed /\ worker_id (claim_update w t) = Some w
  /\ requester_id (claim_update w t) = requester_id t
  /\ reward (claim_update w t) = reward t.
Proof.
  intros Hst. unfold claim_update. destruct (decide _); [cbn; auto|contradiction].
Qed.

(** X18. Claiming an open task and abandoning it puts the task row back:
    the task is open again without a worker (the very row it was, when it
    had never been claimed before), no credits moved and no transaction
    was recorded; what remains is the worker's TASK_ABANDONED event of -2
    points and the score clamped after it. *)
Theorem claim_then_abandon db w wa id t :
  agents db !! w = Some wa ->
  tasks db !! id = Some t ->
  status t = open -> requester_id t <> w ->
  exists db1 db2 ev,
    claimTask (Some w) id db = (Ok 200 "Task claimed. Get to work.", db1)
    /\ abandonTask (Some w) id db1
       = (Ok 200 "Task abandoned. Reputation penalty applied.", db2)
    /\ tasks db2 = <[id := abandon_update (claim_update w t)]> (tasks db)
    /\ (worker_id t = None -> claimed_at t = false -> tasks db2 = tasks db)
    /\ (forall k, credits_of k db2 = credits_of k db)
    /\ transactions db2 = transactions db
    /\ reputation_events db2 = (reputation_events db ++ [ev])%list
    /\ event_summary ev = (w, "TASK_ABANDONED", (-2)%Q)
    /\ reputation <$> agents db2 !! w = Some (clamp_reputation (reputation wa + (-2)))%Q.
Proof.
  intros Ha Ht Hst Hne.
  pose proof (claimTask_wins db id t w wa Ha Ht Hst Hne) as Hrun1.
  set (db1 := insert_notification _ _) in Hrun1.
  assert (agents db1 = agents db) as Hag1 by reflexivity.
  assert (tasks db1 = alter (claim_update w) id (tasks db)) as Ht1 by reflexivity.
  assert (transactions db1 = transactions db) as Htx1 by reflexivity.
  assert (reputation_events db1 = reputation_events db) as Hev1 by reflexivity.
  clearbody db1.
  destruct (claim_update_open w t Hst) as (Hst1 & Hw1 & _).
  assert (tasks db1 !! id = Some (claim_update w t)) as Hlook1
    by (rewrite Ht1, lookup_alter_eq, Ht; reflexivity).
  assert (agents db1 !! w = Some wa) as Ha1 by (rewrite Hag1; exact Ha).
  destruct (abandonTask_reopens db1 w wa id _ Ha1 Hlook1 Hw1 Hst1)
    as (db2 & ev & Hrun2 & Hag2 & Ht2 & Htx2 & Hev2 & Hsum & _).
  exists db1, db2, ev. split; [exact Hrun1|]. split; [exact Hrun2|].
  assert (tasks db2 = <[id := abandon_update (claim_update w t)]> (tasks db)) as Hfinal.
  { rewrite Ht2, Ht1. apply map_eq. intros k. rewrite !lookup_insert, lookup_alter.
    case_decide; reflexivity. }
  split; [exact Hfinal|]. split; [|split; [|split; [|split; [|split]]]].
  - intros Hnone Hnever. rewrite Hfinal. apply insert_id. rewrite Ht. f_equal.
    unfold claim_update. destruct (decide _); [|contradiction].
    destruct t. cbn in *. subst. reflexivity.
  - intros k. unfold credits_of. rewrite Hag2, Hag1, lookup_insert.
    case_decide; [subst k; rewrite Ha|]; reflexivity.
  - congruence.
  - congruence.
  - exact Hsum.
  - rewrite Hag2, lookup_insert_eq. reflexivity.
Qed.

Lemma claim_then_abandon_witness :
  exists db1 db2 ev,
    claimTask (Some "agent_b") "task_x" posted = (Ok 200 "Task claimed. Get to work.", db1)
    /\ abandonTask (Some "agent_b") "task_x" db1
       = (Ok 200 "Task abandoned. Reputation penalty applied.", db2)
    /\ tasks db2
       = <["task_x" := abandon_update
                         (claim_update "agent_b" (docs_task None open None false false))]>
           (tasks posted)
    /\ (worker_id (docs_task None open None false false) = None ->
        claimed_at (docs_task None open None false false) = false ->
        tasks db2 = tasks posted)
    /\ (forall k, credits_of k db2 = credits_of k posted)
    /\ transactions db2 = transactions posted
    /\ reputation_events db2 = (reputation_events posted ++ [ev])%list
    /\ event_summary ev = ("agent_b", "TASK_ABANDONED", (-2)%Q)
    /\ reputation <$> agents db2 !! "agent_b"
       = Some (clamp_reputation (reputation bob + (-2)))%Q.
Proof.
  apply (claim_then_abandon posted "agent_b" bob "task_x");
    [reflexivity|reflexivity|reflexivity|discriminate].
Defined.

(** X19. The straight path conserves credits, for every marketplace and
    every body: after create, claim, submit and approve, each answered
    with success, the requester holds the reward less, the worker the
    reward more, every other agent what they held; the task is completed,
    and its transactions (escrow and payment) add nothing to the sum of the
    task's transactions. *)
Theorem straight_path_conserves db a ag w wg body nano rawProof approved reason :
  agents db !! a = Some ag ->
  agents db !! w = Some wg ->
  a <> w ->
  well_formed body = true ->
  sanitizeInt (rawReward body) reward_options <= credits ag ->
  tasks db !! ("task_" ++ nano) = None ->
  opt_truthy rawProof = true ->
  truthy approved = true ->
  let id := "task_" ++ nano in
  let r := sanitizeInt (rawReward body) reward_options in
  exists db1 db2 db3 db4,
    createTask (Some a) body nano db = (Ok 201 "Task posted. Credits escrowed.", db1)
    /\ claimTask (Some w) id db1 = (Ok 200 "Task claimed. Get to work.", db2)
    /\ submitWork (Some w) id rawProof db2
       = (Ok 200 "Work submitted. Awaiting validation.", db3)
    /\ validateWork (Some a) id approved reason db3
       = (Ok 200 "Task completed. Worker paid.", db4)
    /\ credits_of a db4 = Some (credits ag - r)
    /\ credits_of w db4 = Some (credits wg + r)
    /\ (forall k, k <> a -> k <> w -> credits_of k db4 = credits_of k db)
    /\ status_of id db4 = Some completed
    /\ task_balance id db4 = task_balance id db.
Proof.
  intros Ha Hw Hne Hwf Hfunds Hfresh Hproof Happ id r.
  destruct (createTask_posts db a ag body nano Ha Hwf Hfunds Hfresh)
    as (db1 & t & row1 & Hrun1 & Hag1 & Ht1 & Hreq & Hrew & Hst & _ & Htx1 & Hrow1 & Hrel1
        & _ & _).
  fold id r in Hrun1, Hag1, Ht1, Hrew, Hrow1, Hrel1.
  assert (agents db1 !! w = Some wg) as Hw1
    by (rewrite Hag1, lookup_insert_ne by exact Hne; exact Hw).
  assert (tasks db1 !! id = Some t) as Hlook1 by (rewrite Ht1; apply lookup_insert_eq).
  assert (requester_id t <> w) as Hother by congruence.
  pose proof (claimTask_wins db1 id t w wg Hw1 Hlook1 Hst Hother) as Hrun2.
  set (db2 := insert_notification _ _) in Hrun2.
  assert (agents db2 = agents db1) as Hag2 by reflexivity.
  assert (tasks db2 = alter (claim_update w) id (tasks db1)) as Ht2 by reflexivity.
  assert (transactions db2 = transactions db1) as Htx2 by reflexivity.
  clearbody db2.
  destruct (claim_update_open w t Hst) as (Hst2 & Hw2 & Hreq2 & Hrew2).
  assert (tasks db2 !! id = Some (claim_update w t)) as Hlook2
    by (rewrite Ht2, lookup_alter_eq, Hlook1; reflexivity).
  assert (agents db2 !! w = Some wg) as Hwa2 by (rewrite Hag2; exact Hw1).
  pose proof (submitWork_hands_in db2 w wg id _ rawProof Hwa2 Hlook2 Hw2 Hst2 Hproof)
    as Hrun3.
  set (proof := sanitizeProof (default "" rawProof)) in Hrun3.
  set (db3 := insert_task_log _ _) in Hrun3.
  assert (agents db3 = agents db2) as Hag3 by reflexivity.
  assert (tasks db3 = alter (submit_update proof) id (tasks db2)) as Ht3 by reflexivity.
  assert (transactions db3 = transactions db2) as Htx3 by reflexivity.
  clearbody db3.
  set (t3 := submit_update proof (claim_update w t)).
  assert (tasks db3 !! id = Some t3) as Hlook3
    by (rewrite Ht3, lookup_alter_eq, Hlook2; reflexivity).
  assert (agents db3 !! a
          = Some (set_tasks_posted (tasks_posted ag + 1) (set_credits (credits ag - r) ag)))
    as Ha3 by (rewrite Hag3, Hag2, Hag1; apply lookup_insert_eq).
  assert (requester_id t3 = a) as Hreq3 by (cbn; congruence).
  assert (reward t3 = r) as Hrew3 by (cbn; congruence).
  pose proof (validateWork_approved db3 id t3 a _ approved reason Ha3 Hlook3 Hreq3
                eq_refl Happ) as Hval.
  destruct (approveWork_pays db3 a id t3 reason w Hw2)
    as (db4 & row4 & Hrun4 & Hbal4 & Ht4 & _ & Htx4 & Hrow4 & Hrel4).
  rewrite <- Hval in Hrun4.
  exists db1, db2, db3, db4.
  split; [exact Hrun1|]. split; [exact Hrun2|]. split; [exact Hrun3|].
  split; [exact Hrun4|].
  assert (forall k, credits_of k db4
                    = (pay r w (credits <$> <[a := set_tasks_posted (tasks_posted ag + 1)
                                 (set_credits (credits ag - r) ag)]> (agents db))) !! k)
    as Hcredits.
  { intros k. unfold credits_of. rewrite <- lookup_fmap, Hbal4, Hrew3, Hag3, Hag2, Hag1.
    reflexivity. }
  split; [|split; [|split; [|split]]].
  - rewrite Hcredits. unfold pay. rewrite lookup_alter_ne by congruence.
    rewrite lookup_fmap, lookup_insert_eq. reflexivity.
  - rewrite Hcredits. unfold pay. rewrite lookup_alter_eq.
    rewrite lookup_fmap, lookup_insert_ne by exact Hne. rewrite Hw. reflexivity.
  - intros k Hka Hkw. rewrite Hcredits. unfold pay, credits_of.
    rewrite lookup_alter_ne by congruence.
    rewrite lookup_fmap, lookup_insert_ne by congruence. reflexivity.
  - unfold status_of. rewrite Ht4, lookup_alter_eq, Hlook3. reflexivity.
  - assert (related_task_id row4 = Some id) as Hrel4'
      by (rewrite Hrel4; apply str_or_null_Some; discriminate).
    rewrite (task_balance_snoc _ db3 db4 row4 Htx4 Hrel4').
    rewrite (task_balance_same id db2 db3 Htx3), (task_balance_same id db1 db2 Htx2).
    rewrite (task_balance_snoc _ db db1 row1 Htx1 Hrel1).
    injection Hrow1 as _ _ ->. injection Hrow4 as _ _ ->. lia.
Qed.

Lemma straight_path_conserves_witness :
  exists db1 db2 db3 db4,
    createTask (Some "agent_a") (docs_body (JNum 30)) "x" market
    = (Ok 201 "Task posted. Credits escrowed.", db1)
    /\ claimTask (Some "agent_b") "task_x" db1 = (Ok 200 "Task claimed. Get to work.", db2)
    /\ submitWork (Some "agent_b") "task_x" (Some "done") db2
       = (Ok 200 "Work submitted. Awaiting validation.", db3)
    /\ validateWork (Some "agent_a") "task_x" (JBool true) None db3
       = (Ok 200 "Task completed. Worker paid.", db4)
    /\ credits_of "agent_a" db4 = Some (credits alice - 30)
    /\ credits_of "agent_b" db4 = Some (credits bob + 30)
    /\ (forall k, k <> "agent_a" -> k <> "agent_b" ->
          credits_of k db4 = credits_of k market)
    /\ status_of "task_x" db4 = Some completed
    /\ task_balance "task_x" db4 = task_balance "task_x" market.
Proof.
  apply (straight_path_conserves market "agent_a" alice "agent_b" bob
           (docs_body (JNum 30)) "x" (Some "done") (JBool true) None);
    [reflexivity|reflexivity|discriminate|reflexivity|vm_compute; discriminate
    |reflexivity|reflexivity|reflexivity].
Defined.

(** ** Resolving a dispute *)

Lemma distribute_events decision task_id task db :
  map event_summary (reputation_events (snd (distribute decision task_id task db)))
  = (map event_summary (reputation_events db) ++ verdict_events decision task)%list.
Proof.
  unfold distribute, verdict_events.
  destruct (String.eqb decision "favor_worker").
  { destruct (str_or_null (worker_id task)) as [worker|]; run_handler;
      [step_event; step_event|]; project_ledger; use_ledger_facts;
      rewrite ?map_app, <- ?app_assoc, ?app_nil_r; reflexivity. }
  destruct (String.eqb decision "favor_requester").
  { run_handler. step_event.
    destruct (str_or_null (worker_id task)) as [worker|]; run_handler;
      [step_event|]; project_ledger; use_ledger_facts;
      rewrite ?map_app, <- ?app_assoc, ?app_nil_r; reflexivity. }
  destruct (String.eqb decision "split").
  { run_handler.
    destruct (str_or_null (worker_id task)) as [worker|]; run_handler;
      project_ledger; rewrite ?app_nil_r; reflexivity. }
  destruct (String.eqb decision "cancel").
  { run_handler. project_ledger.
    destruct (str_or_null (worker_id task)); rewrite ?app_nil_r; reflexivity. }
  destruct (str_or_null (worker_id task)); cbn [snd]; rewrite ?app_nil_r; reflexivity.
Qed.

Lemma settleDispute_settles agent_id arbitrator id decision resolution d task db :
  exists db',
    settleDispute agent_id arbitrator id decision resolution d task db
    = (Ok 200 "Dispute resolved", db')
    /\ core db'
       = move (Resolve id decision agent_id (str_or resolution decision) arbitrator d task)
           (core db)
    /\ map event_summary (reputation_events db')
       = (map event_summary (reputation_events db) ++ verdict_events decision task)%list.
Proof.
  unfold settleDispute. unfold bind at 1.
  destruct (distribute_core decision (dispute_task_id d) task db) as (Hout & Hcore & _).
  pose proof (distribute_events decision (dispute_task_id d) task db) as Hev.
  destruct (distribute decision (dispute_task_id d) task db) as [st db1].
  cbn [fst snd] in Hout, Hcore, Hev. subst st.
  injection Hcore as Hbalance Htasks1 Hdisputes1.
  run_handler.
  destruct arbitrator; [destruct (arbitrationReward (reward task) >? 0) eqn:Hfee|];
    step_notify; (eexists; split; [reflexivity|]); (split; [|congruence]);
    core_fields; cbn [andb]; rewrite ?Hfee; f_equal;
    balance_norm; rewrite ?Hbalance; reflexivity.
Qed.

Lemma resolveDispute_Ok auth id decision resolution db c m :
  fst (resolveDispute auth id decision resolution db) = Ok c m ->
  exists by_agent d res,
    disputes db !! id = Some d
    /\ is_Some (tasks db !! dispute_task_id d)
    /\ disputes (snd (resolveDispute auth id decision resolution db))
       = alter (resolve_update res by_agent) id (disputes db)
    /\ tasks (snd (resolveDispute auth id decision resolution db))
       = alter (set_status (outcome (default "" (valid_decision decision))))
           (dispute_task_id d) (tasks db).
Proof.
  unfold resolveDispute. run_handler.
  destruct auth as [agent_id|]; [|discriminate].
  destruct (agents db !! agent_id) as [agent|]; [|discriminate].
  destruct (valid_decision decision) as [dec|]; [|discriminate].
  destruct (disputes db !! id) as [d|] eqn:Hd; [|discriminate].
  destruct (tasks db !! dispute_task_id d) as [task|] eqn:Ht; [|discriminate].
  destruct (bool_decide (dispute_status d = dispute_open)); cbn [negb]; [|discriminate].
  destruct (negb (isInvolved agent_id d task) && _); [discriminate|].
  destruct (settleDispute_settles agent_id (isArbitrator agent_id agent d task) id dec
              resolution d task db) as (db' & -> & Hcore & _).
  intros _. cbn [snd]. injection Hcore as _ Htasks Hdisputes.
  exists agent_id, d, (str_or resolution dec). cbn [default].
  split; [reflexivity|]. split; [rewrite Ht; eexists; reflexivity|]. split; assumption.
Qed.

(** X20. A resolution is final: once a resolve request on a dispute has
    been answered with success, every further resolve request on that
    dispute, by whomever and with whatever decision, is answered with an
    error below 500 and changes nothing, so no dispute pays out twice. *)
Theorem resolved_dispute_is_final db auth id decision resolution c m :
  fst (resolveDispute auth id decision resolution db) = Ok c m ->
  forall auth' decision' resolution',
    let db' := snd (resolveDispute auth id decision resolution db) in
    (exists code msg,
        fst (resolveDispute auth' id decision' resolution' db') = Err code msg
        /\ 400 <= code < 500)
    /\ snd (resolveDispute auth' id decision' resolution' db') = db'.
Proof.
  intros Hok auth' decision' resolution' db'.
  destruct (resolveDispute_Ok auth id decision resolution db c m Hok)
    as (by_agent & d & res & Hd & _ & Hdisputes & _).
  fold db' in Hdisputes.
  assert (disputes db' !! id = Some (resolve_update res by_agent d)) as Hd'
    by (rewrite Hdisputes, lookup_alter_eq, Hd; reflexivity).
  clearbody db'. unfold resolveDispute. run_handler.
  destruct auth' as [agent_id|]; [|split; [eexists _, _; split; [reflexivity|lia]|reflexivity]].
  destruct (agents db' !! agent_id) as [agent|];
    [|split; [eexists _, _; split; [reflexivity|lia]|reflexivity]].
  destruct (valid_decision decision') as [dec|];
    [|split; [eexists _, _; split; [reflexivity|lia]|reflexivity]].
  rewrite Hd'.
  destruct (tasks db' !! _) as [task|];
    split; try reflexivity; eexists _, _; (split; [reflexivity|lia]).
Qed.

Lemma resolved_dispute_is_final_witness :
  let db' := snd (resolveDispute (Some "agent_c") "disp_y" (Some "split") None contested) in
  (exists code msg,
      fst (resolveDispute (Some "agent_a") "disp_y" (Some "favor_requester") None db')
      = Err code msg /\ 400 <= code < 500)
  /\ snd (resolveDispute (Some "agent_a") "disp_y" (Some "favor_requester") None db') = db'.
Proof.
  apply (resolved_dispute_is_final contested (Some "agent_c") "disp_y" (Some "split") None
           200 "Dispute resolved").
  vm_compute. reflexivity.
Defined.

Lemma pay_other amt i k (b : gmap string Z) : i <> k -> pay amt i b !! k = b !! k.
Proof. intros Hne. unfold pay. apply lookup_alter_ne. exact Hne. Qed.

Lemma pay_self amt i (b : gmap string Z) :
  pay amt i b !! i = (fun c => c + amt) <$> b !! i.
Proof. unfold pay. apply lookup_alter_eq. Qed.

Lemma fee_leaves_parties (arbitrator : bool) fee by_agent k (b : gmap string Z) :
  (arbitrator = true -> by_agent <> k) ->
  (if arbitrator && (fee >? 0) then pay fee by_agent b else b) !! k = b !! k.
Proof.
  intros Hne. destruct arbitrator; cbn [andb]; [|reflexivity].
  destruct (fee >? 0); [|reflexivity]. apply pay_other. auto.
Qed.

(** X21. A verdict for one party: when an open dispute on a task with a
    worker other than the requester is resolved with favor_worker or
    favor_requester, by a party or by an arbitrator, the winner receives the
    full reward and the loser nothing; the task ends completed for
    favor_worker and cancelled for favor_requester; the dispute is resolved;
    and exactly two reputation events are recorded, DISPUTE_WON (+2) for
    the winner and then DISPUTE_LOST (-3) for the loser. *)
Theorem verdict_pays_the_winner db by_agent ag id decision resolution d t w :
  agents db !! by_agent = Some ag ->
  disputes db !! id = Some d -> dispute_status d = dispute_open ->
  tasks db !! dispute_task_id d = Some t ->
  worker_id t = Some w -> w <> "" -> w <> requester_id t ->
  isInvolved by_agent d t || isArbitrator by_agent ag d t = true ->
  decision = "favor_worker" \/ decision = "favor_requester" ->
  let for_worker := String.eqb decision "favor_worker" in
  let winner := if for_worker then w else requester_id t in
  let loser := if for_worker then requester_id t else w in
  exists db',
    resolveDispute (Some by_agent) id (Some decision) resolution db
    = (Ok 200 "Dispute resolved", db')
    /\ credits_of winner db' = (fun c => c + reward t) <$> credits_of winner db
    /\ credits_of loser db' = credits_of loser db
    /\ status_of (dispute_task_id d) db'
       = Some (if for_worker then completed else cancelled)
    /\ dispute_status <$> disputes db' !! id = Some dispute_resolved
    /\ map event_summary (reputation_events db')
       = (map event_summary (reputation_events db)
          ++ [(winner, "DISPUTE_WON", 2%Q); (loser, "DISPUTE_LOST", (-3)%Q)])%list.
Proof.
  intros Ha Hd Hopen Ht Hw Hw' Hne Hauth Hdec for_worker winner loser.
  assert (valid_decision (Some decision) = Some decision) as Hvalid
    by (destruct Hdec as [-> | ->]; reflexivity).
  rewrite (resolveDispute_authorised db by_agent ag id (Some decision) decision resolution
             d t Ha Hvalid Hd Ht Hopen Hauth).
  destruct (settleDispute_settles by_agent (isArbitrator by_agent ag d t) id decision
              resolution d t db) as (db' & -> & Hcore & Hev).
  exists db'. split; [reflexivity|].
  injection Hcore as Hbalance Htasks Hdisputes.
  assert (isArbitrator by_agent ag d t = true ->
          by_agent <> requester_id t /\ by_agent <> w) as Houtside.
  { intros Harb. destruct (isArbitrator_not_involved _ _ _ _ Harb) as (H1 & H2 & _).
    split; congruence. }
  assert (forall k, (k = w \/ k = requester_id t) ->
            credits_of k db' = payout decision t (credits <$> agents db) !! k) as Hcredits.
  { intros k Hk. unfold credits_of. rewrite <- lookup_fmap, Hbalance.
    apply fee_leaves_parties. intros Harb. destruct (Houtside Harb).
    destruct Hk; congruence. }
  assert (str_or_null (worker_id t) = Some w) as Hworker
    by (rewrite Hw; apply str_or_null_Some, Hw').
  split; [|split; [|split; [|split]]].
  - rewrite Hcredits by (subst winner; destruct for_worker; auto).
    unfold credits_of. rewrite <- lookup_fmap. unfold payout. rewrite Hworker.
    subst winner for_worker. destruct Hdec as [-> | ->]; cbn [String.eqb Ascii.eqb Bool.eqb];
      apply pay_self.
  - rewrite Hcredits by (subst loser; destruct for_worker; auto).
    unfold credits_of. rewrite <- lookup_fmap. unfold payout. rewrite Hworker.
    subst loser for_worker. destruct Hdec as [-> | ->]; cbn [String.eqb Ascii.eqb Bool.eqb];
      apply pay_other; congruence.
  - unfold status_of. rewrite Htasks, lookup_alter_eq, Ht.
    subst for_worker. destruct Hdec as [-> | ->]; reflexivity.
  - rewrite Hdisputes, lookup_alter_eq, Hd. reflexivity.
  - rewrite Hev. f_equal. unfold verdict_events. rewrite Hworker.
    subst winner loser for_worker. destruct Hdec as [-> | ->]; reflexivity.
Qed.

Lemma verdict_pays_the_winner_witness :
  exists db',
    resolveDispute (Some "agent_c") "disp_y" (Some "favor_requester") None contested
    = (Ok 200 "Dispute resolved", db')
    /\ credits_of "agent_a" db' = (fun c => c + 30) <$> credits_of "agent_a" contested
    /\ credits_of "agent_b" db' = credits_of "agent_b" contested
    /\ status_of "task_x" db' = Some cancelled
    /\ dispute_status <$> disputes db' !! "disp_y" = Some dispute_resolved
    /\ map event_summary (reputation_events db')
       = (map event_summary (reputation_events contested)
          ++ [("agent_a", "DISPUTE_WON", 2%Q); ("agent_b", "DISPUTE_LOST", (-3)%Q)])%list.
Proof.
  apply (verdict_pays_the_winner contested "agent_c" carol "disp_y" "favor_requester" None
           docs_dispute (docs_task (Some "agent_b") disputed (Some "done") true true)
           "agent_b");
    [vm_compute; reflexivity|vm_compute; reflexivity|reflexivity|vm_compute; reflexivity
    |reflexivity|discriminate|discriminate|reflexivity|right; reflexivity].
Defined.

(** ** reviews.js: what a review leaves *)

Lemma has_review_In tid caller db :
  has_review tid caller db = true <-> In (tid, caller) (map review_key (reviews db)).
Proof.
  unfold has_review. rewrite existsb_exists, in_map_iff. split.
  - intros (r & Hr & E). apply andb_true_iff in E as [E1 E2].
    apply String.eqb_eq in E1, E2. exists r. unfold review_key. split; [congruence|exact Hr].
  - intros (r & [= E1 E2] & Hr). exists r. split; [exact Hr|].
    rewrite E1, E2, !String.eqb_refl. reflexivity.
Qed.

(** X22. One review per task and reviewer: a review request keeps the
    rows of [reviews] distinct in (task_id, reviewer_id), the pair that the
    table declares unique, and once a request has succeeded, every further
    review of that task by that caller, with whatever rating, is answered
    with an error and changes nothing. *)
Theorem reviews_stay_unique db auth task_id rating :
  List.NoDup (map review_key (reviews db)) ->
  let db' := snd (submitReview auth task_id rating db) in
  List.NoDup (map review_key (reviews db'))
  /\ (forall c m, fst (submitReview auth task_id rating db) = Ok c m ->
      forall rating', exists code msg,
        submitReview auth task_id rating' db' = (Err code msg, db')).
Proof.
  intros Hnd db'. subst db'.
  destruct (submitReview_cases db auth task_id rating)
    as [(code & msg & ->)
       |(caller & tid & task & reviewee & db' & -> & Ha & Htid & Ht & Hst & Hparty & Hex
         & Hrange & -> & Hrev & Hl)]; cbn [fst snd].
  - split; [exact Hnd|]. intros c m [=].
  - split.
    + rewrite Hrev, map_app. apply List.NoDup_app; [exact Hnd|repeat constructor; intros []|].
      intros k Hold [<-|[]]. apply has_review_In in Hold. cbn in Hold. congruence.
    + intros c m _ rating'.
      destruct (submitReview_cases db' (Some caller) task_id rating')
        as [Herr|(caller' & tid' & task' & reviewee' & db'' & [= <-] & _ & Htid' & _ & _ & _
                  & Hex' & _)]; [exact Herr|exfalso].
      rewrite Htid in Htid'. injection Htid' as <-.
      assert (has_review tid caller db' = true) as Hnow; [|congruence].
      apply has_review_In. rewrite Hrev, map_app. apply in_or_app. right. left. reflexivity.
Qed.

Lemma review_event_points stars ty :
  review_event stars = Some ty ->
  exists descr, lookup_event REPUTATION_EVENTS ty = Some (review_points stars, descr).
Proof.
  unfold review_event, review_points.
  destruct (stars =? 5); [intros [= <-]; eexists; reflexivity|].
  destruct (stars =? 4); [intros [= <-]; eexists; reflexivity|].
  destruct (stars <=? 2); [intros [= <-]; eexists; reflexivity|discriminate].
Qed.

(** X23. What a successful review does: the caller is the requester or
    the worker of a completed task and the other party is reviewed; the
    stored rating is the number that [parseInt] reads from the given
    rating, moved into 1..5 (a rating of 99 counts as five stars, a
    negative one as one star); exactly one row is
    appended to [reviews]; five stars bring the reviewed agent +2, four
    +1, one or two -2 and three nothing, recorded as one reputation event
    and applied to the score with the clamp; no credits move and no task
    changes. *)
Theorem review_rates_the_other_party db auth task_id rating c m :
  fst (submitReview auth task_id rating db) = Ok c m ->
  let stars := sanitizeInt rating rating_options in
  let db' := snd (submitReview auth task_id rating db) in
  exists caller tid task reviewee,
    auth = Some caller /\ str_or_null task_id = Some tid
    /\ tasks db !! tid = Some task /\ status task = completed
    /\ (requester_id task = caller /\ worker_id task = Some reviewee
        \/ requester_id task <> caller /\ worker_id task = Some caller
           /\ reviewee = requester_id task)
    /\ 1 <= stars <= 5
    /\ (forall n, parseInt rating = Some n -> stars = Z.max 1 (Z.min 5 n))
    /\ reviews db' = (reviews db ++ [mkReview tid caller reviewee stars])%list
    /\ map event_summary (reputation_events db')
       = (map event_summary (reputation_events db)
          ++ match review_event stars with
             | Some ty => [(reviewee, ty, review_points stars)]
             | None => []
             end)%list
    /\ reputation <$> agents db' !! reviewee
       = (fun r => match review_event stars with
                   | Some _ => clamp_reputation (r + review_points stars)
                   | None => r
                   end) <$> (reputation <$> agents db !! reviewee)
    /\ (forall k, credits_of k db' = credits_of k db)
    /\ tasks db' = tasks db.
Proof.
  intros Hok stars db'. subst db'.
  destruct (submitReview_cases db auth task_id rating)
    as [(code & msg & E)
       |(caller & tid & task & reviewee & db' & -> & Ha & Htid & Ht & Hst & Hparty & Hex
         & Hrange & E & Hrev & Hl)]; rewrite E in Hok |- *; cbn [fst snd] in *;
    [discriminate|].
  exists caller, tid, task, reviewee. fold stars in Hrange, Hrev, Hl.
  split; [reflexivity|]. split; [exact Htid|]. split; [exact Ht|]. split; [exact Hst|].
  split; [exact Hparty|]. split; [exact Hrange|].
  split.
  { intros n Hn. subst stars.
    apply (sanitizeInt_clamp rating n 1 5 None Hn). lia. }
  split; [exact Hrev|].
  destruct (review_event stars) as [ty|] eqn:Hty.
  - destruct (review_event_points stars ty Hty) as (descr & Hk).
    rewrite (after_event_known _ _ _ _ _ _ Hk) in Hl.
    change (multiplier_or_1 (opt_multiplier (event_options None (Some tid) (Some caller))))
      with 1%Q in Hl.
    split_ledger Hl. rewrite Hagents, Htasks, Hevents.
    assert (review_points stars * 1 = review_points stars)%Q as Hone.
    { unfold review_points.
      destruct (stars =? 5); [reflexivity|]. destruct (stars =? 4); [reflexivity|].
      destruct (stars <=? 2); reflexivity. }
    split; [rewrite map_app, Hone; reflexivity|].
    split; [|split; [|reflexivity]].
    + rewrite lookup_alter_eq. rewrite Hone.
      destruct (agents db !! reviewee); reflexivity.
    + intros k. unfold credits_of. rewrite Hagents, lookup_alter.
      case_decide; [subst k|reflexivity]. destruct (agents db !! reviewee); reflexivity.
  - split_ledger Hl. rewrite Hagents, Htasks, Hevents, app_nil_r.
    split; [reflexivity|]. split; [|split; [intros k; unfold credits_of; rewrite Hagents|]];
      try reflexivity.
    destruct (agents db !! reviewee); reflexivity.
Qed.

Lemma reviews_stay_unique_witness :
  let db' := snd (submitReview (Some "agent_a") (Some "task_x") (JNum 99) once_approved) in
  List.NoDup (map review_key (reviews db'))
  /\ (forall c m,
        fst (submitReview (Some "agent_a") (Some "task_x") (JNum 99) once_approved) = Ok c m ->
        forall rating', exists code msg,
          submitReview (Some "agent_a") (Some "task_x") rating' db' = (Err code msg, db')).
Proof.
  apply (reviews_stay_unique once_approved (Some "agent_a") (Some "task_x") (JNum 99)).
  constructor.
Defined.

Lemma review_rates_the_other_party_witness :
  exists caller tid task reviewee,
    Some "agent_a" = Some caller /\ str_or_null (Some "task_x") = Some tid
    /\ tasks once_approved !! tid = Some task /\ status task = completed
    /\ (requester_id task = caller /\ worker_id task = Some reviewee
        \/ requester_id task <> caller /\ worker_id task = Some caller
           /\ reviewee = requester_id task)
    /\ 1 <= sanitizeInt (JNum 99) rating_options <= 5
    /\ (forall n, parseInt (JNum 99) = Some n ->
          sanitizeInt (JNum 99) rating_options = Z.max 1 (Z.min 5 n))
    /\ reviews (snd (submitReview (Some "agent_a") (Some "task_x") (JNum 99) once_approved))
       = (reviews once_approved
          ++ [mkReview tid caller reviewee (sanitizeInt (JNum 99) rating_options)])%list
    /\ map event_summary
         (reputation_events
            (snd (submitReview (Some "agent_a") (Some "task_x") (JNum 99) once_approved)))
       = (map event_summary (reputation_events once_approved)
          ++ match review_event (sanitizeInt (JNum 99) rating_options) with
             | Some ty => [(reviewee, ty, review_points (sanitizeInt (JNum 99) rating_options))]
             | None => []
             end)%list
    /\ reputation
         <$> agents (snd (submitReview (Some "agent_a") (Some "task_x") (JNum 99)
                            once_approved)) !! reviewee
       = (fun r => match review_event (sanitizeInt (JNum 99) rating_options) with
                   | Some _ =>
                       clamp_reputation
                         (r + review_points (sanitizeInt (JNum 99) rating_options))
                   | None => r
                   end) <$> (reputation <$> agents once_approved !! reviewee)
    /\ (forall k,
          credits_of k (snd (submitReview (Some "agent_a") (Some "task_x") (JNum 99)
                               once_approved))
          = credits_of k once_approved)
    /\ tasks (snd (submitReview (Some "agent_a") (Some "task_x") (JNum 99) once_approved))
       = tasks once_approved.
Proof.
  apply (review_rates_the_other_party once_approved (Some "agent_a") (Some "task_x")
           (JNum 99) 201 "Review submitted").
  vm_compute. reflexivity.
Defined.

(** ** transactions.js: what a transfer moves *)

(** X24. What a transfer does, for every request whose amount parses:
    either the answer is an error below 500 and nothing changed, or the
    sender held at least the amount, which is at least 1, the sender now
    holds the amount less and the recipient, another existing agent, the
    amount more, nobody else's row changed and the total of all balances
    is the same; then either the transfer row and the two transactions
    transfer_out and transfer_in were recorded (201), or the identifier was
    taken and neither was (500, the credits having moved all the same). *)
Theorem transfer_moves_credits b auth to_agent amount memo nano r b' :
  transferCredits auth to_agent amount memo nano b = Some (r, b') ->
  (exists code msg, r = Err code msg /\ code < 500 /\ b' = b)
  \/ (exists sender sa recipient n,
        auth = Some sender /\ agents (bank_db b) !! sender = Some sa
        /\ str_or_null to_agent = Some recipient /\ recipient <> sender
        /\ is_Some (agents (bank_db b) !! recipient)
        /\ parseInt_auto amount = Some n /\ 1 <= n <= credits sa
        /\ credits_of sender (bank_db b') = Some (credits sa - n)
        /\ credits_of recipient (bank_db b')
           = (fun c => c + n) <$> credits_of recipient (bank_db b)
        /\ (forall k, k <> sender -> k <> recipient ->
              agents (bank_db b') !! k = agents (bank_db b) !! k)
        /\ total_credits (bank_db b') = total_credits (bank_db b)
        /\ tasks (bank_db b') = tasks (bank_db b)
        /\ disputes (bank_db b') = disputes (bank_db b)
        /\ (r = Ok 201 "Transfer completed"
            /\ transfers b !! ("xfer_" ++ nano) = None
            /\ transfers b'
               = <["xfer_" ++ nano := mkTransfer sender recipient n (str_or_null memo)]>
                   (transfers b)
            /\ map tx_summary (transactions (bank_db b'))
               = (map tx_summary (transactions (bank_db b))
                  ++ [(sender, "transfer_out", - n); (recipient, "transfer_in", n)])%list
            \/ r = Err 500 "Transfer failed"
               /\ is_Some (transfers b !! ("xfer_" ++ nano))
               /\ transfers b' = transfers b
               /\ transactions (bank_db b') = transactions (bank_db b))).
Proof.
  intros Hrun.
  destruct (transferCredits_cases b auth to_agent amount memo nano r b' Hrun)
    as [Herr|(sender & sa & recipient & n & H1 & H2 & H3 & H4 & H5 & H6 & H7 & H8 & H9 & H10
              & _ & H11)]; [left; exact Herr|].
  right. exists sender, sa, recipient, n. repeat (split; [assumption|]). exact H11.
Qed.

Lemma transfer_moves_credits_witness :
  exists r b',
    transferCredits (Some "agent_a") (Some "agent_b") (JStr "0x10") (Some "thanks") "t"
      (bank market) = Some (r, b')
    /\ ((exists code msg, r = Err code msg /\ code < 500 /\ b' = bank market)
  \/ (exists sender sa recipient n,
        Some "agent_a" = Some sender /\ agents (bank_db (bank market)) !! sender = Some sa
        /\ str_or_null (Some "agent_b") = Some recipient /\ recipient <> sender
        /\ is_Some (agents (bank_db (bank market)) !! recipient)
        /\ parseInt_auto (JStr "0x10") = Some n /\ 1 <= n <= credits sa
        /\ credits_of sender (bank_db b') = Some (credits sa - n)
        /\ credits_of recipient (bank_db b')
           = (fun c => c + n) <$> credits_of recipient (bank_db (bank market))
        /\ (forall k, k <> sender -> k <> recipient ->
              agents (bank_db b') !! k = agents (bank_db (bank market)) !! k)
        /\ total_credits (bank_db b') = total_credits (bank_db (bank market))
        /\ tasks (bank_db b') = tasks (bank_db (bank market))
        /\ disputes (bank_db b') = disputes (bank_db (bank market))
        /\ (r = Ok 201 "Transfer completed"
            /\ transfers (bank market) !! ("xfer_" ++ "t") = None
            /\ transfers b'
               = <["xfer_" ++ "t" := mkTransfer sender recipient n
                                         (str_or_null (Some "thanks"))]>
                   (transfers (bank market))
            /\ map tx_summary (transactions (bank_db b'))
               = (map tx_summary (transactions (bank_db (bank market)))
                  ++ [(sender, "transfer_out", - n); (recipient, "transfer_in", n)])%list
            \/ r = Err 500 "Transfer failed"
               /\ is_Some (transfers (bank market) !! ("xfer_" ++ "t"))
               /\ transfers b' = transfers (bank market)
               /\ transactions (bank_db b') = transactions (bank_db (bank market))))).
Proof.
  destruct (transferCredits (Some "agent_a") (Some "agent_b") (JStr "0x10") (Some "thanks")
              "t" (bank market)) as [[r b']|] eqn:Hrun; [|vm_compute in Hrun; discriminate].
  exists r, b'. split; [reflexivity|].
  apply (transfer_moves_credits (bank market) (Some "agent_a") (Some "agent_b") (JStr "0x10")
           (Some "thanks") "t" r b' Hrun).
Defined.

(** ** skills.js: what an endorsement brings *)

Lemma workedTogether_task a b db :
  workedTogether a b db = true ->
  exists id t, tasks db !! id = Some t /\ status t = completed
               /\ (requester_id t = a /\ worker_id t = Some b
                   \/ requester_id t = b /\ worker_id t = Some a).
Proof.
  unfold workedTogether. intros H. apply existsb_exists in H as ([id t] & Hin & H).
  apply list_elem_of_In, elem_of_map_to_list in Hin. cbn [snd] in H.
  apply andb_true_iff in H as [Hst H]. apply bool_decide_eq_true in Hst.
  exists id, t. split; [exact Hin|]. split; [exact Hst|].
  apply orb_true_iff in H as [H|H]; apply andb_true_iff in H as [H1 H2];
    apply String.eqb_eq in H1; apply bool_decide_eq_true in H2; auto.
Qed.

(** X26. What a successful endorsement does: the caller endorses another
    agent, who lists the skill (compared in lower case, the given skill
    trimmed) and with whom the caller has a completed task as requester and
    worker; one row with the skill as given is appended; the endorsed agent
    gets one SKILL_ENDORSED event of half a point, applied with the clamp,
    and holds the badge endorsed afterwards; no credits move and no task
    changes. *)
Theorem endorsement_rewards_a_colleague db auth agent_id skill c m :
  fst (endorseSkill auth agent_id skill db) = Ok c m ->
  let db' := snd (endorseSkill auth agent_id skill db) in
  exists caller target sk ta,
    auth = Some caller /\ str_or_null agent_id = Some target
    /\ str_or_null skill = Some sk /\ target <> caller
    /\ agents db !! target = Some ta
    /\ In (trim (toLowerCase sk)) (map toLowerCase (skills ta))
    /\ (exists id t, tasks db !! id = Some t /\ status t = completed
                     /\ (requester_id t = caller /\ worker_id t = Some target
                         \/ requester_id t = target /\ worker_id t = Some caller))
    /\ skill_endorsements db'
       = (skill_endorsements db ++ [mkEndorsement target caller sk])%list
    /\ map event_summary (reputation_events db')
       = (map event_summary (reputation_events db)
          ++ [(target, "SKILL_ENDORSED", (1 # 2)%Q)])%list
    /\ reputation <$> agents db' !! target
       = Some (clamp_reputation (reputation ta + (1 # 2)))%Q
    /\ (forall k, credits_of k db' = credits_of k db)
    /\ tasks db' = tasks db
    /\ In "endorsed" (held_badges target db').
Proof.
  intros Hok db'. subst db'.
  destruct (endorseSkill_cases db auth agent_id skill)
    as [(code & msg & E)
       |(caller & ca & target & ta & sk & db' & -> & Ha & Htarget & Hsk & Hne & Ht & Hlisted
         & Hexisting & Hworked & E & Hrows & Hl & Hbadge)];
    rewrite E in Hok |- *; cbn [fst snd] in *; [discriminate|].
  exists caller, target, sk, ta.
  do 6 (split; [first [reflexivity|assumption]|]).
  split; [apply workedTogether_task, Hworked|]. split; [exact Hrows|].
  rewrite (after_event_known target "SKILL_ENDORSED" _ db (1 # 2)%Q
             "Skill endorsed by another agent" eq_refl) in Hl.
  split_ledger Hl. rewrite Hagents, Htasks, Hevents.
  split; [rewrite map_app; reflexivity|].
  split; [rewrite lookup_alter_eq, Ht; reflexivity|].
  split; [|split; [reflexivity|exact Hbadge]].
  intros k. unfold credits_of. rewrite Hagents, lookup_alter.
  case_decide; [subst k; rewrite Ht|]; reflexivity.
Qed.

Lemma endorsement_rewards_a_colleague_witness :
  let db' := snd (endorseSkill (Some "agent_a") (Some "agent_b") (Some " rust ") skilled) in
  exists caller target sk ta,
    Some "agent_a" = Some caller /\ str_or_null (Some "agent_b") = Some target
    /\ str_or_null (Some " rust ") = Some sk /\ target <> caller
    /\ agents skilled !! target = Some ta
    /\ In (trim (toLowerCase sk)) (map toLowerCase (skills ta))
    /\ (exists id t, tasks skilled !! id = Some t /\ status t = completed
                     /\ (requester_id t = caller /\ worker_id t = Some target
                         \/ requester_id t = target /\ worker_id t = Some caller))
    /\ skill_endorsements db'
       = (skill_endorsements skilled ++ [mkEndorsement target caller sk])%list
    /\ map event_summary (reputation_events db')
       = (map event_summary (reputation_events skilled)
          ++ [(target, "SKILL_ENDORSED", (1 # 2)%Q)])%list
    /\ reputation <$> agents db' !! target
       = Some (clamp_reputation (reputation ta + (1 # 2)))%Q
    /\ (forall k, credits_of k db' = credits_of k skilled)
    /\ tasks db' = tasks skilled
    /\ In "endorsed" (held_badges target db').
Proof.
  apply (endorsement_rewards_a_colleague skilled (Some "agent_a") (Some "agent_b")
           (Some " rust ") 201 "Skill endorsed successfully").
  vm_compute. reflexivity.
Defined.

Lemma endorseSkill_accepts db caller ca agent_id skill target ta sk :
  agents db !! caller = Some ca ->
  str_or_null agent_id = Some target -> str_or_null skill = Some sk ->
  target <> caller -> agents db !! target = Some ta ->
  In (trim (toLowerCase sk)) (map toLowerCase (skills ta)) ->
  existsb (same_endorsement target caller (trim (toLowerCase sk)))
    (skill_endorsements db) = false ->
  workedTogether caller target db = true ->
  existsb (fun e => String.eqb (endorsed_agent_id e) target
                    && String.eqb (endorsed_by e) caller
                    && String.eqb (endorsed_skill e) sk)
    (skill_endorsements db) = false ->
  fst (endorseSkill (Some caller) agent_id skill db) = Ok 201 "Skill endorsed successfully".
Proof.
  intros Ha Htarget Hsk Hne Ht Hlisted Hexisting Hworked Hclash.
  unfold endorseSkill. run_handler. rewrite Ha, Htarget, Hsk.
  destruct (String.eqb_spec target caller) as [|_]; [contradiction|].
  rewrite Ht. apply existsb_In_eqb in Hlisted. rewrite Hlisted. cbn [negb].
  rewrite Hexisting, Hworked. cbn [negb]. rewrite Hclash.
  match goal with |- context [recordReputationEvent ?a ?t ?o ?s] =>
    destruct (recordReputationEvent a t o s) as [res db1] end.
  reflexivity.
Qed.

Lemma filter_all {A} (p : A -> bool) l :
  existsb (fun x => negb (p x)) l = false -> List.filter p l = l.
Proof.
  induction l as [|x l IH]; [reflexivity|]. cbn [existsb List.filter].
  intros H. apply orb_false_iff in H as [Hx Hl]. apply negb_false_iff in Hx.
  rewrite Hx, (IH Hl). reflexivity.
Qed.

(** X27. An endorsement can be taken back and given again: after a
    successful endorsement of a skill written in ASCII without surrounding
    white space, the endorser's DELETE request with the same skill is
    answered with 404 Endorsement not found and yet leaves the table of
    endorsements as it was before the endorsement, while the endorsed agent
    keeps the half point (and the score its clamp); the same endorsement is
    then accepted again, so every such round adds half a point. *)
Theorem endorse_remove_round db auth agent_id skill c m :
  fst (endorseSkill auth agent_id skill db) = Ok c m ->
  ascii_only (default "" skill) = true ->
  trim (toLowerCase (default "" skill)) = toLowerCase (default "" skill) ->
  let db1 := snd (endorseSkill auth agent_id skill db) in
  let db2 := snd (removeEndorsement auth agent_id skill db1) in
  fst (removeEndorsement auth agent_id skill db1) = Err 404 "Endorsement not found"
  /\ skill_endorsements db2 = skill_endorsements db
  /\ (forall target, str_or_null agent_id = Some target ->
        reputation <$> agents db2 !! target
        = (fun r => clamp_reputation (r + (1 # 2))%Q) <$> (reputation <$> agents db !! target))
  /\ fst (endorseSkill auth agent_id skill db2) = Ok 201 "Skill endorsed successfully".
Proof.
  intros Hok _ Htrim db1 db2. subst db2 db1.
  destruct (endorseSkill_cases db auth agent_id skill)
    as [(code & msg & E)
       |(caller & ca & target & ta & sk & db1 & -> & Ha & Htarget & Hsk & Hne & Ht & Hlisted
         & Hexisting & Hworked & E & Hrows & Hl & Hbadge)];
    rewrite E in Hok |- *; cbn [fst snd] in *; [discriminate|].
  assert (default "" skill = sk) as Hskill.
  { destruct skill as [s|]; [|discriminate]. cbn in Hsk |- *.
    destruct (String.eqb s ""); [discriminate|]. congruence. }
  rewrite Hskill in Htrim. rewrite Htrim in Hexisting, Hlisted.
  rewrite (after_event_known target "SKILL_ENDORSED" _ db (1 # 2)%Q
             "Skill endorsed by another agent" eq_refl) in Hl.
  split_ledger Hl.
  assert (agents db1 !! caller = Some ca) as Ha1
    by (rewrite Hagents, lookup_alter_ne by exact Hne; exact Ha).
  assert (same_endorsement target caller (toLowerCase sk) (mkEndorsement target caller sk)
          = true) as Hnew
    by (unfold same_endorsement; cbn; rewrite !String.eqb_refl; reflexivity).
  assert (List.filter (fun e => negb (same_endorsement target caller (toLowerCase sk) e))
            (skill_endorsements db1) = skill_endorsements db) as Hback.
  { rewrite Hrows, List.filter_app. cbn [List.filter]. rewrite Hnew. cbn [negb].
    rewrite app_nil_r. apply filter_all.
    rewrite <- Hexisting. clear. induction (skill_endorsements db) as [|e l IH]; [reflexivity|].
    cbn [existsb]. rewrite negb_involutive, IH. reflexivity. }
  assert (removeEndorsement (Some caller) agent_id skill db1
          = (Err 404 "Endorsement not found",
             delete_endorsements target caller (toLowerCase sk) db1)) as Hremove.
  { unfold removeEndorsement. run_handler. rewrite Ha1, Htarget, Hsk. reflexivity. }
  rewrite Hremove. cbn [fst snd].
  split; [reflexivity|]. split; [exact Hback|]. split.
  - intros target' Htarget'. rewrite Htarget in Htarget'. injection Htarget' as <-.
    cbn [delete_endorsements agents]. rewrite Hagents, lookup_alter_eq, Ht. reflexivity.
  - apply (endorseSkill_accepts _ caller ca agent_id skill target
             (set_reputation (clamp_reputation (reputation ta + (1 # 2) * 1))%Q ta) sk);
      try assumption.
    + cbn [delete_endorsements agents]. rewrite Hagents, lookup_alter_eq, Ht. reflexivity.
    + rewrite Htrim. exact Hlisted.
    + rewrite Htrim. cbn [delete_endorsements skill_endorsements]. rewrite Hback.
      exact Hexisting.
    + unfold workedTogether. cbn [delete_endorsements tasks]. rewrite Htasks.
      exact Hworked.
    + cbn [delete_endorsements skill_endorsements]. rewrite Hback.
      apply not_true_is_false. intros Hclash.
      apply existsb_exists in Hclash as (e & He & Hclash).
      apply andb_true_iff in Hclash as [Hclash Hs]. apply String.eqb_eq in Hs.
      assert (existsb (same_endorsement target caller (toLowerCase sk))
                (skill_endorsements db) = true) as Hyes; [|congruence].
      apply existsb_exists. exists e. split; [exact He|].
      unfold same_endorsement. rewrite Hclash, Hs, String.eqb_refl. reflexivity.
Qed.

Lemma endorse_remove_round_witness :
  let db1 := snd (endorseSkill (Some "agent_a") (Some "agent_b") (Some "RUST") skilled) in
  let db2 := snd (removeEndorsement (Some "agent_a") (Some "agent_b") (Some "RUST") db1) in
  fst (removeEndorsement (Some "agent_a") (Some "agent_b") (Some "RUST") db1)
  = Err 404 "Endorsement not found"
  /\ skill_endorsements db2 = skill_endorsements skilled
  /\ (forall target, str_or_null (Some "agent_b") = Some target ->
        reputation <$> agents db2 !! target
        = (fun r => clamp_reputation (r + (1 # 2))%Q)
            <$> (reputation <$> agents skilled !! target))
  /\ fst (endorseSkill (Some "agent_a") (Some "agent_b") (Some "RUST") db2)
     = Ok 201 "Skill endorsed successfully".
Proof.
  apply (endorse_remove_round skilled (Some "agent_a") (Some "agent_b") (Some "RUST")
           201 "Skill endorsed successfully"); vm_compute; reflexivity.
Defined.

(** ** reputation.js: who is told about an event *)

Lemma checkAndAwardBadges_appends agentId db :
  exists entries : list (string * (string * string * (Stats -> bool))),
    badges (snd (checkAndAwardBadges agentId db))
    = (badges db ++ map (fun e => mkBadge agentId e.1 e.2.1.1 e.2.1.2) entries)%list
    /\ notifications (snd (checkAndAwardBadges agentId db))
       = (notifications db
          ++ map (fun _ => mkNotification agentId "badge" "New Badge Earned!") entries)%list
    /\ fst (checkAndAwardBadges agentId db) = map fst entries.
Proof.
  destruct (agents db !! agentId) as [agent|] eqn:Ha.
  - rewrite (checkAndAwardBadges_grants agentId agent db Ha). cbn [fst snd].
    set (L := List.filter _ BADGES).
    destruct (grant_all_tables agentId L db) as (_ & _ & _ & Hb & Hn).
    exists L. auto.
  - rewrite (checkAndAwardBadges_missing agentId db Ha). exists [].
    cbn [fst snd map]. rewrite !app_nil_r. auto.
Qed.

(** X25. Who is told about a reputation event: a call with a known event
    type appends one notification "New Badge Earned!" for each badge that
    the call awards, and after them one notification of type reputation
    exactly when the points are at least 2 in absolute value, titled
    "Reputation Increased" for positive points and "Reputation Decreased"
    otherwise; nothing else is added to the notifications, and the call
    returns the event type, the points and the reason. *)
Theorem reputation_event_notifies agentId eventType options db base edescription :
  lookup_event REPUTATION_EVENTS eventType = Some (base, edescription) ->
  let pts := (base * multiplier_or_1 (opt_multiplier options))%Q in
  let run := recordReputationEvent agentId eventType options db in
  exists new_badges,
    fst run = Returns (Some (eventType, pts, str_or (opt_reason options) edescription))
    /\ badges (snd run) = (badges db ++ new_badges)%list
    /\ notifications (snd run)
       = (notifications db
          ++ map (fun _ => mkNotification agentId "badge" "New Badge Earned!") new_badges
          ++ (if Qle_bool 2 (Qabs pts)
              then [mkNotification agentId "reputation"
                      (if negb (Qle_bool pts 0) then "Reputation Increased"
                       else "Reputation Decreased")]
              else []))%list.
Proof.
  intros Hk pts run. subst run. unfold recordReputationEvent. rewrite Hk.
  cbv beta iota zeta delta [bind exec ret createNotification].
  match goal with |- context [checkAndAwardBadges agentId ?s] =>
    destruct (checkAndAwardBadges_appends agentId s) as (entries & Hb & Hn & _);
    destruct (checkAndAwardBadges agentId s) as [nb db1] end.
  cbn [snd] in Hb, Hn. cbn [badges notifications insert_reputation_event update_agent
                            with_agents] in Hb, Hn.
  exists (map (fun e : string * (string * string * (Stats -> bool)) =>
                 mkBadge agentId e.1 e.2.1.1 e.2.1.2) entries).
  fold pts. unfold significant. rewrite map_map.
  destruct (Qle_bool 2 (Qabs pts)); cbn [fst snd badges notifications insert_notification];
    rewrite Hb, Hn, <- ?app_assoc, ?app_nil_r; repeat split; reflexivity.
Qed.

Lemma reputation_event_notifies_witness :
  exists new_badges,
    fst (recordReputationEvent "agent_b" "TASK_REJECTED" no_options market)
    = Returns (Some ("TASK_REJECTED", (-5 * multiplier_or_1 (opt_multiplier no_options))%Q,
                     str_or (opt_reason no_options) "Work was rejected"))
    /\ badges (snd (recordReputationEvent "agent_b" "TASK_REJECTED" no_options market))
       = (badges market ++ new_badges)%list
    /\ notifications (snd (recordReputationEvent "agent_b" "TASK_REJECTED" no_options market))
       = (notifications market
          ++ map (fun _ => mkNotification "agent_b" "badge" "New Badge Earned!") new_badges
          ++ (if Qle_bool 2 (Qabs (-5 * multiplier_or_1 (opt_multiplier no_options)))
              then [mkNotification "agent_b" "reputation"
                      (if negb (Qle_bool (-5 * multiplier_or_1 (opt_multiplier no_options)) 0)
                       then "Reputation Increased" else "Reputation Decreased")]
              else []))%list.
Proof.
  apply (reputation_event_notifies "agent_b" "TASK_REJECTED" no_options market (-5)%Q
           "Work was rejected").
  reflexivity.
Defined.

(** ** Balances against the transaction log *)

Lemma sum_perm (l1 l2 : list Z) :
  l1 ≡ₚ l2 -> foldr Z.add 0 l1 = foldr Z.add 0 l2.
Proof.
  induction 1 as [|x l1 l2 _ IH|x y l|l1 l2 l3 _ IH1 _ IH2]; cbn; lia.
Qed.

Lemma holdings_lookup (b : gmap string Z) i x :
  b !! i = Some x -> holdings b = x + holdings (delete i b).
Proof.
  intros Hi. unfold holdings.
  rewrite <- (sum_perm _ _ (Permutation_map snd (map_to_list_delete b i x Hi))).
  reflexivity.
Qed.

Lemma holdings_pay amt i (b : gmap string Z) :
  is_Some (b !! i) -> holdings (pay amt i b) = holdings b + amt.
Proof.
  intros [x Hi].
  assert (pay amt i b !! i = Some (x + amt)) as Hi'
    by (unfold pay; rewrite lookup_alter_eq, Hi; reflexivity).
  rewrite (holdings_lookup _ i _ Hi'), (holdings_lookup b i x Hi).
  unfold pay. rewrite delete_alter_eq. lia.
Qed.

Lemma sum_balances (l : list (string * Agent)) :
  foldr Z.add 0 (map snd (prod_map id credits <$> l))
  = foldr Z.add 0 (map (fun kv => credits kv.2) l).
Proof. induction l as [|[k a] l IH]; cbn; [reflexivity|rewrite IH; reflexivity]. Qed.

Lemma total_credits_holdings db : total_credits db = holdings (balance (core db)).
Proof.
  unfold total_credits, holdings. cbn [core balance].
  rewrite map_to_list_fmap. symmetry. apply sum_balances.
Qed.

Lemma pay_account amt i (b : gmap string Z) k :
  is_Some (b !! k) -> is_Some (pay amt i b !! k).
Proof.
  unfold pay. rewrite lookup_alter. case_decide as E; [subst k|exact id].
  intros [x ->]. eexists; reflexivity.
Qed.

Lemma payout_account decision t (b : gmap string Z) k :
  is_Some (b !! k) -> is_Some (payout decision t b !! k).
Proof.
  intros H. unfold payout.
  repeat match goal with
         | |- context [String.eqb ?a ?b] => destruct (String.eqb a b)
         | |- context [str_or_null ?o] => destruct (str_or_null o)
         end; repeat apply pay_account; exact H.
Qed.

Lemma move_accounts tr c k :
  is_Some (balance c !! k) -> is_Some (balance (move tr c) !! k).
Proof.
  intros H. destruct tr; cbn [move balance]; try exact H;
    repeat match goal with
           | |- context [match ?o with Some _ => _ | None => _ end] => destruct o
           | |- context [if ?c then _ else _] => destruct c
           end;
    repeat apply pay_account; try apply payout_account; exact H.
Qed.

Lemma registered_mono (b b' : gmap string Z) t :
  (forall k, is_Some (b !! k) -> is_Some (b' !! k)) -> registered b t -> registered b' t.
Proof.
  intros Hsub [Hr Hw]. split; [exact (Hsub _ Hr)|].
  destruct (worker_id t); [exact (Hsub _ Hw)|exact I].
Qed.

Lemma str_or_null_inv o s : str_or_null o = Some s -> o = Some s.
Proof.
  destruct o as [x|]; cbn; [|discriminate].
  destruct (String.eqb x ""); [discriminate|]. intros [= <-]. reflexivity.
Qed.

Lemma move_registered tr c :
  allowed tr c ->
  map_Forall (fun _ t => registered (balance c) t) (board c) ->
  map_Forall (fun _ t => registered (balance (move tr c)) t) (board (move tr c)).
Proof.
  intros Hal Href.
  assert (map_Forall (fun _ t => registered (balance (move tr c)) t) (board c)) as Hmono.
  { intros k t Hk. apply (registered_mono (balance c)); [|exact (Href k t Hk)].
    intros j. apply move_accounts. }
  assert (forall f id,
            (forall x, registered (balance (move tr c)) x ->
                       registered (balance (move tr c)) (f x)) ->
            map_Forall (fun _ t => registered (balance (move tr c)) t)
              (alter f id (board c))) as Halter.
  { intros f id Hf. apply map_Forall_alter; [exact Hmono|].
    intros x Hx. apply Hf. exact (Hmono id x Hx). }
  destruct tr; cbn [move board]; try exact Hmono;
    try (apply Halter; intros x [Hr Hw]; split; [exact Hr|first [exact Hw|exact I]]).
  - destruct Hal as ((x & Hx & _) & _ & _ & _ & Hw & Hreq).
    apply map_Forall_insert_2; [|exact Hmono].
    split; [|rewrite Hw; exact I].
    rewrite Hreq. refine (move_accounts (Post requester id t) c requester _).
    rewrite Hx. eexists; reflexivity.
  - destruct Hal as (Hworker & _).
    apply Halter. intros x [Hr Hw]. unfold claim_update.
    destruct (decide _); [|split; assumption].
    split; [exact Hr|]. cbn [worker_id]. exact Hworker.
Qed.

Lemma payout_holdings decision t (b : gmap string Z) :
  registered b t -> holdings (payout decision t b) = holdings b + awarded decision t.
Proof.
  intros [Hr Hw]. unfold payout, awarded.
  assert (forall w, str_or_null (worker_id t) = Some w -> is_Some (b !! w)) as Hworker.
  { intros w E. apply str_or_null_inv in E. rewrite E in Hw. exact Hw. }
  destruct (String.eqb decision "favor_worker").
  { destruct (str_or_null (worker_id t)) as [w|] eqn:E; [|lia].
    apply holdings_pay, Hworker. reflexivity. }
  destruct (String.eqb decision "favor_requester"); [apply holdings_pay, Hr|].
  destruct (String.eqb decision "split").
  { cbv zeta. destruct (str_or_null (worker_id t)) as [w|] eqn:E.
    - rewrite holdings_pay by (apply pay_account, Hworker; reflexivity).
      rewrite holdings_pay by exact Hr. lia.
    - rewrite holdings_pay by exact Hr. lia. }
  destruct (String.eqb decision "cancel"); [apply holdings_pay, Hr|lia].
Qed.

Lemma move_holdings tr c :
  allowed tr c ->
  map_Forall (fun _ t => registered (balance c) t) (board c) ->
  holdings (balance (move tr c)) = holdings (balance c) + recorded tr - unrecorded tr.
Proof.
  intros Hal Href.
  destruct tr; cbn [allowed move balance recorded unrecorded] in *; try lia.
  - destruct Hal as ((x & Hx & _) & _). rewrite holdings_pay; [lia|].
    rewrite Hx. eexists; reflexivity.
  - destruct Hal as ((x & Hx & _) & _). rewrite holdings_pay; [lia|].
    rewrite Hx. eexists; reflexivity.
  - destruct Hal as ((x & Hx & _) & _ & _ & Hrec).
    rewrite holdings_pay by (apply pay_account; exact Hrec).
    rewrite holdings_pay by (rewrite Hx; eexists; reflexivity). lia.
  - destruct Hal as [Ht _]. destruct (Href _ t Ht) as [_ Hw].
    destruct (worker_id t) as [w|]; [|lia]. rewrite holdings_pay by exact Hw. lia.
  - destruct Hal as [Ht _]. destruct (Href _ t Ht) as [Hr _].
    rewrite holdings_pay by exact Hr. lia.
  - destruct Hal as [Ht _]. destruct (Href _ t Ht) as [Hr _].
    rewrite holdings_pay by exact Hr. lia.
  - destruct Hal as (Hby & _ & _ & Ht & _). pose proof (Href _ t Ht) as Hreg.
    destruct (arbitrator && _).
    + rewrite holdings_pay by (apply payout_account; exact Hby).
      rewrite payout_holdings by exact Hreg. lia.
    + rewrite payout_holdings by exact Hreg. lia.
Qed.

Lemma unrecorded_nonneg tr c : allowed tr c -> 0 <= unrecorded tr.
Proof. destruct tr; cbn; lia. Qed.

Lemma serve_accounts req b r b' :
  serve req b = Some (r, b') -> referential (bank_db b) ->
  referential (bank_db b')
  /\ (is_500 r = false -> off_the_books (bank_db b') = off_the_books (bank_db b)).
Proof.
  intros Hrun Href. pose proof (serve_serves req b) as H. rewrite Hrun in H.
  destruct H as (tr & Hal & Hcore & Htx & Hclash). cbn [fst snd] in Hcore, Htx, Hclash.
  change (map_Forall (fun _ t => registered (balance (core (bank_db b))) t)
            (board (core (bank_db b)))) in Href.
  split.
  - change (map_Forall (fun _ t => registered (balance (core (bank_db b'))) t)
              (board (core (bank_db b')))).
    rewrite Hcore. apply move_registered; assumption.
  - unfold off_the_books. rewrite !total_credits_holdings, Hcore, Htx.
    rewrite (move_holdings tr _ Hal Href).
    intros Hr. destruct (decide (unrecorded tr = 0)) as [E|E]; [lia|].
    destruct (Hclash E) as [msg ->]. discriminate.
Qed.

(** X28. The transaction log accounts for the credits that the routes
    move.  Take a database in which the requester and the worker of every
    task are agents, and any sequence of requests none of which is answered
    with a 500.  Then the total of all balances has changed by exactly the
    sum of the amounts that the requests appended to [transactions], and
    the tasks still refer to agents that exist. *)
Theorem transactions_account_for_credits reqs b answers b' :
  serve_all reqs b = Some (answers, b') ->
  referential (bank_db b) ->
  forallb (fun r => negb (is_500 r)) answers = true ->
  referential (bank_db b')
  /\ off_the_books (bank_db b') = off_the_books (bank_db b).
Proof.
  revert b answers. induction reqs as [|r rest IH]; intros b answers Hrun Href Hall.
  - injection Hrun as <- <-. split; [exact Href|reflexivity].
  - destruct (serve_all_cons r rest b answers b' Hrun) as (a & b1 & ra & H1 & Hrest).
    assert (answers = a :: ra) as ->.
    { cbn [serve_all] in Hrun. rewrite H1, Hrest in Hrun. injection Hrun as <-.
      reflexivity. }
    cbn [forallb] in Hall. apply andb_true_iff in Hall as [Ha Hra].
    apply negb_true_iff in Ha.
    destruct (serve_accounts r b a b1 H1 Href) as (Href1 & Heq1).
    destruct (IH b1 ra Hrest Href1 Hra) as (Href' & Heq).
    split; [exact Href'|]. rewrite Heq. exact (Heq1 Ha).
Qed.

Lemma transactions_account_for_credits_witness :
  exists answers b',
    serve_all [ValidateWork (Some "agent_a") "task_x" (JBool true) None;
               TransferCredits (Some "agent_b") (Some "agent_c") (JNum 25) None "t";
               RaiseDispute (Some "agent_a") (Some "task_x") (Some "late") None "w";
               ResolveDispute (Some "agent_c") "disp_w" (Some "split") None]
      (bank handed_in)
    = Some (answers, b')
    /\ forallb (fun r => negb (is_500 r)) answers = true
    /\ referential (bank_db b')
    /\ off_the_books (bank_db b') = off_the_books handed_in.
Proof.
  destruct (serve_all _ (bank handed_in)) as [[answers b']|] eqn:Hrun;
    [|vm_compute in Hrun; discriminate].
  assert (forallb (fun r => negb (is_500 r)) answers = true) as Hall.
  { match type of Hrun with
    | ?run = _ =>
        assert (match run with
                | Some (a, _) => forallb (fun r => negb (is_500 r)) a
                | None => false
                end = true) as E by (vm_compute; reflexivity)
    end.
    rewrite Hrun in E. exact E. }
  exists answers, b'. split; [reflexivity|]. split; [exact Hall|].
  apply (transactions_account_for_credits _ (bank handed_in) answers b' Hrun);
    [|exact Hall].
  apply (bool_decide_unpack _). vm_compute. reflexivity.
Defined.
